(** * ma-long: signal evaluation and position management

    A shallow embedding of [src/risk_manager.py] (class [RiskManager]), of
    the signal logic of [src/strategy.py] (class [TradingStrategy]), of the
    indicator series of [src/indicators.py] and of the position handling of
    [src/gate_ma_main.py] (class [TradingBot]), with the properties the
    specification states about them and further properties of the code.

    Numbers.  The Python code computes on floats.  They are modelled here by
    exact rationals [Q]: rounding, overflow, infinities and NaN are outside
    the model, and equalities between computed numbers are stated with
    [Qeq] ([==]) where algebra is involved.  Where the source divides plain
    Python floats by a value that can be zero the [ZeroDivisionError] is
    modelled.  The values read from the candle table are numpy floats, whose
    division by zero gives an infinity or NaN instead of raising: those
    divisions are [Qdiv], and a zero close is outside the model like the
    other non-finite values.

    Dictionaries.  The position dictionary has a fixed set of keys and is a
    record; a key that some constructors of the dictionary leave out is an
    [option] field.  The [details] dictionary of the signal evaluator grows
    key by key and is a [gmap string Value]. *)

From Stdlib Require Import QArith Qabs Qminmax ZArith String List Bool Lia Lqa.
From stdpp Require Import base option list gmap strings.

Local Open Scope Q_scope.
Local Open Scope string_scope.

(** ** Python helpers *)

Module Py.

(** [x < y] on floats; [x <= y] is [Qle_bool x y]. *)
Definition Qlt_bool (x y : Q) : bool := negb (Qle_bool y x).

(** Built-in [max(a, b)]: keeps the first argument unless the second is
    strictly greater. *)
Definition max (a b : Q) : Q := if Qlt_bool a b then b else a.

(** Built-in [min(a, b)]: keeps the first argument unless the second is
    strictly smaller. *)
Definition min (a b : Q) : Q := if Qlt_bool b a then b else a.

(** Truth value of an [Optional[float]]: [None] and [0.0] are false. *)
Definition truthy (o : option Q) : bool :=
  match o with
  | Some x => negb (Qeq_bool x 0)
  | None => false
  end.

Inductive Exc : Type :=
| KeyError (key : string)
| IndexError
| ZeroDivisionError.

Inductive Result (A : Type) : Type :=
| Ok (a : A)
| Raise (e : Exc).

Arguments Ok {A} a.
Arguments Raise {A} e.

Definition bind {A B : Type} (r : Result A) (k : A -> Result B) : Result B :=
  match r with
  | Ok a => k a
  | Raise e => Raise e
  end.

End Py.

Notation "x <- r ;; k" := (Py.bind r (fun x => k))
  (at level 100, r at next level, right associativity, only parsing).

(** ** [risk_manager.py] *)

(** The position dictionary.  [tp1], [tp2] and [trailing_stop] hold [None] or
    a float.  [atr], [risk_distance] and [risk_amount] are keys that not every
    builder of the dictionary sets: [None] means the key is absent. *)
Module Position.

Record t : Type := mk {
  entry_price : Q;
  stop_loss : Q;
  position_size : Q;
  side : string;
  tp1 : option Q;
  tp1_percent : Q;
  tp2 : option Q;
  tp2_percent : Q;
  trailing_stop : option Q;
  remaining_size : Q;
  atr : option Q;
  risk_distance : option Q;
  risk_amount : option Q
}.

(** [position[key] = v] for the keys [update_position] assigns. *)
Definition set_stop_loss (v : Q) (p : t) : t :=
  mk (entry_price p) v (position_size p) (side p) (tp1 p) (tp1_percent p) (tp2 p)
     (tp2_percent p) (trailing_stop p) (remaining_size p) (atr p) (risk_distance p)
     (risk_amount p).

Definition set_tp1 (v : option Q) (p : t) : t :=
  mk (entry_price p) (stop_loss p) (position_size p) (side p) v (tp1_percent p) (tp2 p)
     (tp2_percent p) (trailing_stop p) (remaining_size p) (atr p) (risk_distance p)
     (risk_amount p).

Definition set_tp1_percent (v : Q) (p : t) : t :=
  mk (entry_price p) (stop_loss p) (position_size p) (side p) (tp1 p) v (tp2 p)
     (tp2_percent p) (trailing_stop p) (remaining_size p) (atr p) (risk_distance p)
     (risk_amount p).

Definition set_tp2 (v : option Q) (p : t) : t :=
  mk (entry_price p) (stop_loss p) (position_size p) (side p) (tp1 p) (tp1_percent p) v
     (tp2_percent p) (trailing_stop p) (remaining_size p) (atr p) (risk_distance p)
     (risk_amount p).

Definition set_tp2_percent (v : Q) (p : t) : t :=
  mk (entry_price p) (stop_loss p) (position_size p) (side p) (tp1 p) (tp1_percent p)
     (tp2 p) v (trailing_stop p) (remaining_size p) (atr p) (risk_distance p)
     (risk_amount p).

Definition set_trailing_stop (v : option Q) (p : t) : t :=
  mk (entry_price p) (stop_loss p) (position_size p) (side p) (tp1 p) (tp1_percent p)
     (tp2 p) (tp2_percent p) v (remaining_size p) (atr p) (risk_distance p)
     (risk_amount p).

Definition set_remaining_size (v : Q) (p : t) : t :=
  mk (entry_price p) (stop_loss p) (position_size p) (side p) (tp1 p) (tp1_percent p)
     (tp2 p) (tp2_percent p) (trailing_stop p) v (atr p) (risk_distance p)
     (risk_amount p).

End Position.

Module RiskManager.

(** The attributes [__init__] reads from the configuration. *)
Record t : Type := mk {
  sl_atr_multiplier : Q;
  tp1_rr : Q;
  tp1_percent : Q;
  tp2_rr : Q;
  tp2_percent : Q;
  trailing_atr_multiplier : Q;
  max_candles_hold : Z
}.

(** The configuration of the module's [__main__] block, which is also the
    table of defaults of [__init__]. *)
Definition default : t :=
  mk (15 # 10) 1 30 2 40 1 20.

Definition is_long (side : string) : bool := String.eqb side "long".

Definition calculate_position_size (self : t) (equity entry_price stop_loss min_size : Q)
    (max_usdt_allocation : option Q) : Py.Result Q :=
  match max_usdt_allocation with
  | None => Py.Ok min_size
  | Some alloc =>
      if negb (Py.truthy max_usdt_allocation) || Qle_bool alloc 0 then Py.Ok min_size
      else if Qeq_bool entry_price 0 then Py.Raise Py.ZeroDivisionError
      else
        let position_size := alloc / entry_price in
        Py.Ok (Py.max position_size min_size)
  end.

Definition calculate_stop_loss (self : t) (entry_price atr : Q) (side : string) : Q :=
  let sl_distance := atr * sl_atr_multiplier self in
  if is_long side then entry_price - sl_distance
  else entry_price + sl_distance.

(** The dictionary [calculate_take_profits] returns. *)
Record TakeProfits : Type := mkTakeProfits {
  tps_tp1 : Q;
  tps_tp1_percent : Q;
  tps_tp2 : Q;
  tps_tp2_percent : Q;
  tps_risk_distance : Q
}.

Definition calculate_take_profits (self : t) (entry_price stop_loss : Q) (side : string)
    : TakeProfits :=
  let risk_distance := Qabs (entry_price - stop_loss) in
  let '(tp1, tp2) :=
    if is_long side
    then (entry_price + risk_distance * tp1_rr self,
          entry_price + risk_distance * tp2_rr self)
    else (entry_price - risk_distance * tp1_rr self,
          entry_price - risk_distance * tp2_rr self) in
  mkTakeProfits tp1 (tp1_percent self) tp2 (tp2_percent self) risk_distance.

Definition calculate_trailing_stop (self : t) (entry_price current_price atr : Q)
    (side : string) (current_trailing_stop : option Q) : Q :=
  let trailing_distance := atr * trailing_atr_multiplier self in
  if is_long side then
    let new_trailing_stop := current_price - trailing_distance in
    match current_trailing_stop with
    | None =>
        if Py.Qlt_bool entry_price current_price
        then Py.max new_trailing_stop entry_price
        else entry_price
    | Some cur => Py.max new_trailing_stop cur
    end
  else
    let new_trailing_stop := current_price + trailing_distance in
    match current_trailing_stop with
    | None =>
        if Py.Qlt_bool current_price entry_price
        then Py.min new_trailing_stop entry_price
        else entry_price
    | Some cur => Py.min new_trailing_stop cur
    end.

Definition check_stop_loss_hit (current_price stop_loss : Q) (side : string) : bool :=
  if is_long side then Qle_bool current_price stop_loss
  else Qle_bool stop_loss current_price.

Definition check_take_profit_hit (current_price take_profit : Q) (side : string) : bool :=
  if is_long side then Qle_bool take_profit current_price
  else Qle_bool current_price take_profit.

Definition create_position (self : t) (entry_price atr equity : Q) (side : string)
    (min_size : Q) (max_usdt_allocation : option Q) : Py.Result Position.t :=
  let stop_loss := calculate_stop_loss self entry_price atr side in
  position_size <-
    calculate_position_size self equity entry_price stop_loss min_size max_usdt_allocation ;;
  let take_profits := calculate_take_profits self entry_price stop_loss side in
  Py.Ok {| Position.entry_price := entry_price;
           Position.stop_loss := stop_loss;
           Position.position_size := position_size;
           Position.side := side;
           Position.tp1 := Some (tps_tp1 take_profits);
           Position.tp1_percent := tps_tp1_percent take_profits;
           Position.tp2 := Some (tps_tp2 take_profits);
           Position.tp2_percent := tps_tp2_percent take_profits;
           Position.trailing_stop := None;
           Position.remaining_size := position_size;
           Position.atr := Some atr;
           Position.risk_distance := Some (tps_risk_distance take_profits);
           Position.risk_amount := None |}.

(** [update_position], lines 270-281: the TP1 check.  [position["tp1"]] is
    tested for truth, so a level of [None] or [0.0] is disarmed. *)
Definition check_tp1 (position : Position.t) (current_price : Q) (side : string)
    (action : option string) : Position.t * option string :=
  match Position.tp1 position with
  | Some tp1 =>
      if Py.truthy (Some tp1) && Py.Qlt_bool 0 (Position.tp1_percent position) then
        if check_take_profit_hit current_price tp1 side then
          let close_size :=
            Position.position_size position * (Position.tp1_percent position / 100) in
          let position :=
            Position.set_remaining_size (Position.remaining_size position - close_size)
              position in
          let position := Position.set_tp1 None position in
          let position := Position.set_tp1_percent 0 position in
          let action := Some "tp1" in
          let position := Position.set_stop_loss (Position.entry_price position) position in
          (position, action)
        else (position, action)
      else (position, action)
  | None => (position, action)
  end.

(** [update_position], lines 283-292: the TP2 check. *)
Definition check_tp2 (position : Position.t) (current_price : Q) (side : string)
    (action : option string) : Position.t * option string :=
  match Position.tp2 position with
  | Some tp2 =>
      if Py.truthy (Some tp2) && Py.Qlt_bool 0 (Position.tp2_percent position) then
        if check_take_profit_hit current_price tp2 side then
          let close_size :=
            Position.position_size position * (Position.tp2_percent position / 100) in
          let position :=
            Position.set_remaining_size (Position.remaining_size position - close_size)
              position in
          let position := Position.set_tp2 None position in
          let position := Position.set_tp2_percent 0 position in
          let action := match action with None => Some "tp2" | Some _ => action end in
          (position, action)
        else (position, action)
      else (position, action)
  | None => (position, action)
  end.

(** [update_position], lines 294-308: the trailing stop of what remains. *)
Definition update_trailing (self : t) (position : Position.t) (current_price atr : Q)
    (side : string) (action : option string) : Position.t * option string :=
  if Py.Qlt_bool 0 (Position.remaining_size position) then
    let trailing_stop :=
      calculate_trailing_stop self (Position.entry_price position) current_price atr side
        (Position.trailing_stop position) in
    let position := Position.set_trailing_stop (Some trailing_stop) position in
    if check_stop_loss_hit current_price trailing_stop side then
      (position, match action with None => Some "trailing_stop" | Some _ => action end)
    else (position, action)
  else (position, action).

Definition update_position (self : t) (position : Position.t) (current_price atr : Q)
    : Position.t * option string :=
  let side := Position.side position in
  let action : option string := None in
  if check_stop_loss_hit current_price (Position.stop_loss position) side then
    (position, Some "stop_loss")
  else
    let '(position, action) := check_tp1 position current_price side action in
    let '(position, action) := check_tp2 position current_price side action in
    update_trailing self position current_price atr side action.

(** The dictionary [calculate_pnl] returns. *)
Record PnlInfo : Type := mkPnlInfo {
  pnl : Q;
  pnl_percent : Q;
  rr_achieved : Q;
  pnl_remaining_size : Q
}.

(** [position["risk_amount"]] raises [KeyError] when the key is absent. *)
Definition calculate_pnl (self : t) (position : Position.t) (current_price : Q)
    : Py.Result PnlInfo :=
  let entry_price := Position.entry_price position in
  let remaining_size := Position.remaining_size position in
  let side := Position.side position in
  let pnl :=
    if is_long side then (current_price - entry_price) * remaining_size
    else (entry_price - current_price) * remaining_size in
  risk_amount <-
    match Position.risk_amount position with
    | Some r => Py.Ok r
    | None => Py.Raise (Py.KeyError "risk_amount")
    end ;;
  let pnl_percent :=
    if Py.Qlt_bool 0 risk_amount then (pnl / risk_amount) * 100 else 0 in
  let risk := Qabs (entry_price - Position.stop_loss position) in
  let reward := Qabs (current_price - entry_price) in
  let rr_achieved := if Py.Qlt_bool 0 risk then reward / risk else 0 in
  Py.Ok (mkPnlInfo pnl pnl_percent rr_achieved remaining_size).

(** A poll loop: [update_position] on each [(current_price, atr)] in turn,
    the position of one call handed to the next. *)
Fixpoint run (self : t) (position : Position.t) (inputs : list (Q * Q)) : Position.t :=
  match inputs with
  | [] => position
  | (current_price, atr) :: rest =>
      run self (fst (update_position self position current_price atr)) rest
  end.

(** The actions the same poll loop emits, call by call. *)
Fixpoint run_actions (self : t) (position : Position.t) (inputs : list (Q * Q))
    : list (option string) :=
  match inputs with
  | [] => []
  | (current_price, atr) :: rest =>
      snd (update_position self position current_price atr)
      :: run_actions self (fst (update_position self position current_price atr)) rest
  end.

End RiskManager.

(** ** [strategy.py] *)

(** One row of the indicator-annotated candle table, as [check_long_entry]
    reads it.  [volume] and [volume_ma] are read with [latest.get(..)]:
    [None] means the column is absent from the table. *)
Module Row.

Record t : Type := mk {
  close : Q;
  ema_short : Q;
  ema_long : Q;
  rsi : Q;
  adx : Q;
  atr : Q;
  volume : option Q;
  volume_ma : option Q
}.

End Row.

(** The dictionary of one entry leg. *)
Module EntryLeg.

Record t : Type := mk {
  price : Q;
  position_size : Q;
  stop_loss : Q;
  take_profit : Q;
  risk_reward : Q
}.

(** The placeholder stored when the signal does not fire. *)
Definition zero : t := mk 0 0 0 0 0.

End EntryLeg.

(** Values stored in the [details] dictionary.  [VFmt pre x post] is the
    f-string that prints [pre], the number [x], then [post]. *)
Inductive Value : Type :=
| VNum (x : Q)
| VBool (b : bool)
| VStr (s : string)
| VFmt (pre : string) (x : Q) (post : string)
| VLeg (leg : EntryLeg.t).

(** One [logger.info] call of [check_long_entry], by the data it prints. *)
Inductive LogLine : Type :=
| LogEmaTrend (ok price_above_short short_above_long : bool) (close ema_short ema_long : Q)
| LogRsi (ok : bool) (rsi : Q)
| LogAdx (ok : bool) (adx : Q)
| LogVolume (ok : bool) (volume volume_ma volume_ratio : Q)
| LogVolumeDisabled
| LogMarketState (close rsi adx ema_short ema_long : Q) (volume_ratio : option Q)
| LogEntrySignal (yes : bool).

(** [d[key]] on a dictionary: a missing key raises [KeyError]. *)
Module Dict.

Definition getitem {A : Type} (d : gmap string A) (key : string) : Py.Result A :=
  match d !! key with
  | Some v => Py.Ok v
  | None => Py.Raise (Py.KeyError key)
  end.

End Dict.

(** One row of the table as [get_strategy_status] and
    [get_latest_indicators] read it: the columns of [Row], and the columns
    they read with [latest.get(..)], [None] when the table lacks them
    ([timestamp] holds whatever the exchange client stored). *)
Module Candle.

Record t : Type := mk {
  row : Row.t;
  timestamp : option Value;
  plus_di : option Q;
  minus_di : option Q
}.

End Candle.

(** ** [indicators.py]

    A pandas [Series] without missing values is a [list Q]; one that can
    hold NaN is a [list (option Q)], [None] for NaN. *)

Module Indicators.

(** What a pandas call gives: its value, or the [ValueError] its argument
    validation raises. *)
Inductive Outcome (A : Type) : Type :=
| Done (a : A)
| ValueError.

Arguments Done {A} a.
Arguments ValueError {A}.

(** The recursion of [ewm(adjust=False).mean()] after its first value:
    [y = (1 - alpha) * previous + alpha * x]. *)
Fixpoint ewm_from (alpha prev : Q) (xs : list Q) : list Q :=
  match xs with
  | [] => []
  | x :: rest =>
      let y := (1 - alpha) * prev + alpha * x in
      y :: ewm_from alpha y rest
  end.

(** [data.ewm(span=span, adjust=False).mean()]: pandas rejects a span
    below 1, takes [alpha = 2 / (span + 1)] and seeds the average with the
    first value. *)
Definition ewm_mean (data : list Q) (span : Z) : Outcome (list Q) :=
  if (span <? 1)%Z then ValueError
  else
    Done match data with
         | [] => []
         | x0 :: rest => x0 :: ewm_from (2 / (inject_Z span + 1)) x0 rest
         end.

Definition calculate_ema (data : list Q) (period : Z) : Outcome (list Q) :=
  ewm_mean data period.

Fixpoint series_sum (xs : list Q) : Q :=
  match xs with
  | [] => 0
  | x :: rest => x + series_sum rest
  end.

(** [data.rolling(window=window).mean()]: pandas rejects a negative
    window; entry [i] is NaN until [window] values are available (always,
    for a window of 0) and then the mean of the last [window] values. *)
Definition rolling_mean (data : list Q) (window : Z) : Outcome (list (option Q)) :=
  if (window <? 0)%Z then ValueError
  else
    let w := Z.to_nat window in
    Done (map (λ i : nat,
                 if (w =? 0)%nat || (S i <? w)%nat then None
                 else Some (series_sum (take w (drop (S i - w) data)) / inject_Z window))
            (seq 0 (length data))).

Definition calculate_sma (data : list Q) (period : Z) : Outcome (list (option Q)) :=
  rolling_mean data period.

Definition calculate_volume_ma (volume : list Q) (period : Z)
    : Outcome (list (option Q)) :=
  rolling_mean volume period.

Fixpoint diff_from (prev : Q) (xs : list Q) : list Q :=
  match xs with
  | [] => []
  | x :: rest => (x - prev) :: diff_from x rest
  end.

(** [data.diff()]: NaN first, then the successive differences. *)
Definition diff (data : list Q) : list (option Q) :=
  match data with
  | [] => []
  | x0 :: rest => None :: map Some (diff_from x0 rest)
  end.

(** One entry of [delta.where(cond, 0)]: a comparison with NaN is false. *)
Definition where_or_zero (cond : Q -> bool) (d : option Q) : Q :=
  match d with
  | Some x => if cond x then x else 0
  | None => 0
  end.

(** One entry of [100 - (100 / (1 + avg_gain / avg_loss))] on numpy floats.
    A zero [avg_loss] under a non-zero [avg_gain] gives an infinite ratio,
    [100 / inf = 0] and the value 100; zero over zero is NaN. *)
Definition rsi_value (avg_gain avg_loss : Q) : option Q :=
  if Qeq_bool avg_loss 0 then
    if Qeq_bool avg_gain 0 then None else Some 100
  else Some (100 - 100 / (1 + avg_gain / avg_loss)).

Definition calculate_rsi (data : list Q) (period : Z) : Outcome (list (option Q)) :=
  let delta := diff data in
  let gain := map (where_or_zero (λ d, Py.Qlt_bool 0 d)) delta in
  let loss := map (λ d, - where_or_zero (λ d, Py.Qlt_bool d 0) d) delta in
  match ewm_mean gain period with
  | ValueError => ValueError
  | Done avg_gain =>
      match ewm_mean loss period with
      | ValueError => ValueError
      | Done avg_loss => Done (zip_with rsi_value avg_gain avg_loss)
      end
  end.

(** The true range of the candles after the first, rows being
    [(high, low, close)]: the largest of [high - low],
    [|high - previous close|] and [|low - previous close|]. *)
Fixpoint true_range_from (prev_close : Q) (rows : list (Q * Q * Q)) : list Q :=
  match rows with
  | [] => []
  | (high, low, close) :: rest =>
      Qmax (Qmax (high - low) (Qabs (high - prev_close))) (Qabs (low - prev_close))
      :: true_range_from close rest
  end.

(** The first candle has no previous close: the two NaN columns are
    skipped by [max(axis=1)] and its true range is [high - low]. *)
Definition true_range (rows : list (Q * Q * Q)) : list Q :=
  match rows with
  | [] => []
  | (high, low, close) :: rest => (high - low) :: true_range_from close rest
  end.

(** [calculate_atr(high, low, close, period)], the three series being the
    columns of one table. *)
Definition calculate_atr (rows : list (Q * Q * Q)) (period : Z) : Outcome (list Q) :=
  ewm_mean (true_range rows) period.

(** [get_latest_indicators]: the latest row as a dictionary, [{}] on an
    empty table; every column is read with [latest.get(column, 0)]. *)
Definition get_latest_indicators (df : list Candle.t) : gmap string Q :=
  match last df with
  | None => ∅
  | Some latest =>
      let r := Candle.row latest in
      <[ "volume_ma" := default 0 (Row.volume_ma r) ]>
      (<[ "volume" := default 0 (Row.volume r) ]>
      (<[ "minus_di" := default 0 (Candle.minus_di latest) ]>
      (<[ "plus_di" := default 0 (Candle.plus_di latest) ]>
      (<[ "adx" := Row.adx r ]>
      (<[ "atr" := Row.atr r ]>
      (<[ "rsi" := Row.rsi r ]>
      (<[ "ema_long" := Row.ema_long r ]>
      (<[ "ema_short" := Row.ema_short r ]>
      (<[ "price" := Row.close r ]> ∅)))))))))
  end.

(** [series.iloc[i]]: a negative [i] counts from the end, and a position
    outside the series raises [IndexError]. *)
Definition iloc (series : list Q) (i : Z) : Py.Result Q :=
  let n := Z.of_nat (length series) in
  let k := if (i <? 0)%Z then (n + i)%Z else i in
  if ((k <? 0) || (n <=? k))%Z then Py.Raise Py.IndexError
  else
    match series !! Z.to_nat k with
    | Some x => Py.Ok x
    | None => Py.Raise Py.IndexError
    end.

(** [check_ema_crossover]: [(bullish_crossover, bearish_crossover)]. *)
Definition check_ema_crossover (ema_short ema_long : list Q) (lookback : Z)
    : Py.Result (bool * bool) :=
  if ((Z.of_nat (length ema_short) <? lookback + 1)
      || (Z.of_nat (length ema_long) <? lookback + 1))%Z
  then Py.Ok (false, false)
  else
    short_now <- iloc ema_short (-1) ;;
    long_now <- iloc ema_long (-1) ;;
    let current_bullish := Py.Qlt_bool long_now short_now in
    short_then <- iloc ema_short (- lookback) ;;
    long_then <- iloc ema_long (- lookback) ;;
    let previous_bearish := Py.Qlt_bool short_then long_then in
    let bullish_crossover := current_bullish && previous_bearish in
    short_now <- iloc ema_short (-1) ;;
    long_now <- iloc ema_long (-1) ;;
    let current_bearish := Py.Qlt_bool short_now long_now in
    short_then <- iloc ema_short (- lookback) ;;
    long_then <- iloc ema_long (- lookback) ;;
    let previous_bullish := Py.Qlt_bool long_then short_then in
    let bearish_crossover := current_bearish && previous_bullish in
    Py.Ok (bullish_crossover, bearish_crossover).

(** [is_trend_aligned]: the latest values of the three series stacked in
    the order of the trend; [False] on an empty series or another trend. *)
Definition is_trend_aligned (close ema_short ema_long : list Q) (trend : string) : bool :=
  match last close, last ema_short, last ema_long with
  | Some current_price, Some current_short, Some current_long =>
      if String.eqb trend "bullish" then
        Py.Qlt_bool current_short current_price && Py.Qlt_bool current_long current_short
      else if String.eqb trend "bearish" then
        Py.Qlt_bool current_price current_short && Py.Qlt_bool current_short current_long
      else false
  | _, _, _ => false
  end.

End Indicators.

(** Values stored in the dictionary [get_strategy_status] returns: what a
    [details] dictionary holds, the indicator dictionary, or a whole
    [details] dictionary. *)
Inductive StatusValue : Type :=
| SVal (v : Value)
| SIndicators (indicators : gmap string Q)
| SDetails (details : gmap string Value).

Module TradingStrategy.

(** The attributes [__init__] reads from the configuration;
    [entry_1_percent] and [entry_2_percent] are the raw configuration keys
    that [check_long_entry] reads with a default ([None]: key absent). *)
Record t : Type := mk {
  ema_short : Z;
  ema_long : Z;
  rsi_length : Z;
  rsi_min : Q;
  rsi_max : Q;
  adx_period : Z;
  adx_threshold : Q;
  atr_period : Z;
  use_volume_filter : bool;
  volume_ma_period : Z;
  crossover_lookback : Z;
  max_usdt_per_trade : Q;
  sl_atr_multiplier : Q;
  tp1_rr : Q;
  tp2_rr : Q;
  entry_1_percent : option Q;
  entry_2_percent : option Q
}.

Definition DataFrame : Type := list Row.t.

(** [len(df) < max(ema_long, rsi_length, atr_period, volume_ma_period)]. *)
Definition insufficient_data (self : t) (df : DataFrame) : bool :=
  (Z.of_nat (length df)
     <? Z.max (Z.max (Z.max (ema_long self) (rsi_length self)) (atr_period self))
          (volume_ma_period self))%Z.

(** [df.iloc[-1]]. *)
Definition iloc_last (df : DataFrame) : Py.Result Row.t :=
  match last df with
  | Some latest => Py.Ok latest
  | None => Py.Raise Py.IndexError
  end.

Definition reason_insufficient : string := "Insufficient data".
Definition reason_allocation : string := "MAX_USDT_PER_TRADE must be > 0 in .env file".
Definition reason_met : string := "All entry conditions met".

Definition check_long_entry (self : t) (df : DataFrame)
    : Py.Result (bool * gmap string Value * list LogLine) :=
  if insufficient_data self df then
    Py.Ok (false, {[ "reason" := VStr reason_insufficient ]}, [])
  else
    latest <- iloc_last df ;;
    let details : gmap string Value :=
      <[ "volume_ma" := VNum (default 0 (Row.volume_ma latest)) ]>
      (<[ "volume" := VNum (default 0 (Row.volume latest)) ]>
      (<[ "atr" := VNum (Row.atr latest) ]>
      (<[ "adx" := VNum (Row.adx latest) ]>
      (<[ "rsi" := VNum (Row.rsi latest) ]>
      (<[ "ema_long" := VNum (Row.ema_long latest) ]>
      (<[ "ema_short" := VNum (Row.ema_short latest) ]>
      (<[ "price" := VNum (Row.close latest) ]> ∅))))))) in
    (* Condition 1: EMA alignment *)
    let ema_condition :=
      Py.Qlt_bool (Row.ema_short latest) (Row.close latest)
      && Py.Qlt_bool (Row.ema_long latest) (Row.ema_short latest) in
    let details := <[ "ema_aligned" := VBool ema_condition ]> details in
    (* Condition 2: RSI in range *)
    let rsi_condition :=
      Qle_bool (rsi_min self) (Row.rsi latest)
      && Qle_bool (Row.rsi latest) (rsi_max self) in
    let details := <[ "rsi_valid" := VBool rsi_condition ]> details in
    (* Condition 3: ADX above threshold *)
    let adx_condition := Qle_bool (adx_threshold self) (Row.adx latest) in
    let details := <[ "adx_valid" := VBool adx_condition ]> details in
    (* Condition 4: volume filter; ['volume' in df.columns] *)
    let '(volume_condition, volume_ratio) :=
      if use_volume_filter self && bool_decide (is_Some (Row.volume latest)) then
        let volume_ma := default 1 (Row.volume_ma latest) in
        let volume_ratio :=
          if Py.Qlt_bool 0 volume_ma
          then default 0 (Row.volume latest) / volume_ma else 0 in
        (Qle_bool volume_ma (default 0 (Row.volume latest)), volume_ratio)
      else (true, 0) in
    let details := <[ "volume_valid" := VBool volume_condition ]> details in
    let details := <[ "volume_ratio" := VNum volume_ratio ]> details in
    let price_above_short := Py.Qlt_bool (Row.ema_short latest) (Row.close latest) in
    let short_above_long := Py.Qlt_bool (Row.ema_long latest) (Row.ema_short latest) in
    let entry_signal :=
      ema_condition && rsi_condition && adx_condition && volume_condition in
    let log :=
      [ LogEmaTrend ema_condition price_above_short short_above_long
          (Row.close latest) (Row.ema_short latest) (Row.ema_long latest);
        LogRsi rsi_condition (Row.rsi latest);
        LogAdx adx_condition (Row.adx latest);
        (if use_volume_filter self
         then LogVolume volume_condition (default 0 (Row.volume latest))
                (default 0 (Row.volume_ma latest)) volume_ratio
         else LogVolumeDisabled);
        LogMarketState (Row.close latest) (Row.rsi latest) (Row.adx latest)
          (Row.ema_short latest) (Row.ema_long latest)
          (if use_volume_filter self then Some volume_ratio else None);
        LogEntrySignal entry_signal ] in
    let details := <[ "signal" := VBool entry_signal ]> details in
    if entry_signal then
      if Qle_bool (max_usdt_per_trade self) 0 then
        let details := <[ "reason" := VStr reason_allocation ]> details in
        Py.Ok (false, details, log)
      else
        let max_position_size := max_usdt_per_trade self / Row.close latest in
        let entry_1_percent := default 30 (entry_1_percent self) / 100 in
        let entry_2_percent := default 70 (entry_2_percent self) / 100 in
        let atr := Row.atr latest in
        let ema_short := Row.ema_short latest in
        let ema_long := Row.ema_long latest in
        let entry_1_price := ema_short in
        let entry_2_price := ema_long in
        let stop_loss := ema_long - atr * sl_atr_multiplier self in
        let risk_1 := entry_1_price - stop_loss in
        let details :=
          <[ "entry_1" :=
               VLeg (EntryLeg.mk entry_1_price (max_position_size * entry_1_percent)
                       stop_loss (entry_1_price + risk_1 * tp1_rr self) (tp1_rr self)) ]>
            details in
        let risk_2 := entry_2_price - stop_loss in
        let details :=
          <[ "entry_2" :=
               VLeg (EntryLeg.mk entry_2_price (max_position_size * entry_2_percent)
                       stop_loss (entry_2_price + risk_2 * tp2_rr self) (tp2_rr self)) ]>
            details in
        let details := <[ "reason" := VStr reason_met ]> details in
        Py.Ok (entry_signal, details, log)
    else
      let details := <[ "entry_1" := VLeg EntryLeg.zero ]> details in
      let details := <[ "entry_2" := VLeg EntryLeg.zero ]> details in
      let details :=
        <[ "reason" :=
             VFmt "Trade analysis not available: Failed: EMA alignment, RSI ("
               (Row.rsi latest) "), Volume" ]> details in
      Py.Ok (entry_signal, details, log).

Definition status_in_zone : string := "✓ In entry zone (pullback to support)".
Definition status_near_zone : string := "⚠ Near entry zone (slight premium)".
Definition status_above_zone : string :=
  "⚠ Above entry zone (chasing risk - consider waiting)".

Definition recalculate_with_live_price (self : t) (df : DataFrame)
    (details : gmap string Value) (live_price : Q) : Py.Result (gmap string Value) :=
  latest <- iloc_last df ;;
  let price_change_pct := ((live_price - Row.close latest) / Row.close latest) * 100 in
  let details :=
    if Py.Qlt_bool 5 (Qabs price_change_pct)
    then <[ "warning" :=
              VFmt "Price moved " price_change_pct
                "% since last candle. High volatility!" ]> details
    else details in
  let ema_short := Row.ema_short latest in
  let details :=
    if Py.Qlt_bool live_price ema_short then
      <[ "entry_status" := VStr status_in_zone ]> details
    else if Py.Qlt_bool live_price (ema_short * (102 # 100)) then
      <[ "entry_status" := VStr status_near_zone ]> details
    else
      <[ "entry_status" := VStr status_above_zone ]> details in
  let details := <[ "live_price" := VNum live_price ]> details in
  let details := <[ "last_candle_price" := VNum (Row.close latest) ]> details in
  let details := <[ "price_change_pct" := VNum price_change_pct ]> details in
  Py.Ok details.

Definition reason_not_met : string := "Conditions not met".

(** [check_short_entry]: the mirror of [check_long_entry], without entry
    legs and without logging; a missing [volume_ma] column counts as 0. *)
Definition check_short_entry (self : t) (df : DataFrame)
    : Py.Result (bool * gmap string Value) :=
  if insufficient_data self df then
    Py.Ok (false, {[ "reason" := VStr reason_insufficient ]})
  else
    latest <- iloc_last df ;;
    let details : gmap string Value :=
      <[ "atr" := VNum (Row.atr latest) ]>
      (<[ "adx" := VNum (Row.adx latest) ]>
      (<[ "rsi" := VNum (Row.rsi latest) ]>
      (<[ "ema_long" := VNum (Row.ema_long latest) ]>
      (<[ "ema_short" := VNum (Row.ema_short latest) ]>
      (<[ "price" := VNum (Row.close latest) ]> ∅))))) in
    (* Condition 1: EMA alignment, inverted *)
    let ema_condition :=
      Py.Qlt_bool (Row.close latest) (Row.ema_short latest)
      && Py.Qlt_bool (Row.ema_short latest) (Row.ema_long latest) in
    let details := <[ "ema_aligned" := VBool ema_condition ]> details in
    (* Condition 2: RSI in the mirrored range *)
    let rsi_min_short := 100 - rsi_max self in
    let rsi_max_short := 100 - rsi_min self in
    let rsi_condition :=
      Qle_bool rsi_min_short (Row.rsi latest)
      && Qle_bool (Row.rsi latest) rsi_max_short in
    let details := <[ "rsi_valid" := VBool rsi_condition ]> details in
    (* Condition 3: ADX above threshold *)
    let adx_condition := Qle_bool (adx_threshold self) (Row.adx latest) in
    let details := <[ "adx_valid" := VBool adx_condition ]> details in
    (* Condition 4: volume filter *)
    let volume_condition :=
      if use_volume_filter self && bool_decide (is_Some (Row.volume latest))
      then Qle_bool (default 0 (Row.volume_ma latest)) (default 0 (Row.volume latest))
      else true in
    let details := <[ "volume_valid" := VBool volume_condition ]> details in
    let entry_signal :=
      ema_condition && rsi_condition && adx_condition && volume_condition in
    let details := <[ "entry_signal" := VBool entry_signal ]> details in
    let details :=
      <[ "reason" := VStr (if entry_signal then reason_met else reason_not_met) ]>
        details in
    Py.Ok (entry_signal, details).

(** [check_exit_by_ema]: a window of fewer than two candles never exits. *)
Definition check_exit_by_ema (self : t) (df : DataFrame) (position_side : string)
    : Py.Result (bool * string) :=
  if (Z.of_nat (length df) <? 2)%Z then Py.Ok (false, "")
  else
    latest <- iloc_last df ;;
    if String.eqb position_side "long" then
      if Py.Qlt_bool (Row.close latest) (Row.ema_short latest)
      then Py.Ok (true, "Price closed below EMA short")
      else Py.Ok (false, "")
    else if String.eqb position_side "short" then
      if Py.Qlt_bool (Row.ema_short latest) (Row.close latest)
      then Py.Ok (true, "Price closed above EMA short")
      else Py.Ok (false, "")
    else Py.Ok (false, "").

Definition zone_in : string := "✓ In entry zone".
Definition zone_near : string := "⚠ Near entry zone".
Definition zone_above : string := "⚠ Above entry zone".

(** [get_strategy_status]; [df.iloc[-1].get('timestamp', '')] is the empty
    string when the table has no such column.  The log lines are those of
    the call to [check_long_entry]. *)
Definition get_strategy_status (self : t) (df : list Candle.t) (live_price : option Q)
    : Py.Result (gmap string StatusValue * list LogLine) :=
  if (length df =? 0)%nat then
    Py.Ok ({[ "error" := SVal (VStr "No data available") ]}, [])
  else
    checked <- check_long_entry self (map Candle.row df) ;;
    let '(long_signal, long_details, log) := checked in
    let latest_indicators := Indicators.get_latest_indicators df in
    latest <- match last df with
              | Some c => Py.Ok c
              | None => Py.Raise Py.IndexError
              end ;;
    let status : gmap string StatusValue :=
      <[ "long_details" := SDetails long_details ]>
      (<[ "long_signal" := SVal (VBool long_signal) ]>
      (<[ "indicators" := SIndicators latest_indicators ]>
      (<[ "timestamp" := SVal (default (VStr "") (Candle.timestamp latest)) ]> ∅))) in
    (* if live_price: *)
    status <-
      match live_price with
      | Some live =>
          if Py.truthy live_price then
            let status := <[ "live_price" := SVal (VNum live) ]> status in
            candle_price <- Dict.getitem latest_indicators "price" ;;
            Py.Ok (<[ "price_change_pct" :=
                        SVal (VNum ((live - candle_price) / candle_price * 100)) ]> status)
          else Py.Ok status
      | None => Py.Ok status
      end ;;
    if long_signal
       && bool_decide (is_Some (long_details !! "entry_1"))
       && bool_decide (is_Some (long_details !! "entry_2"))
    then
      entry_1 <- Dict.getitem long_details "entry_1" ;;
      let status := <[ "entry_1" := SVal entry_1 ]> status in
      entry_2 <- Dict.getitem long_details "entry_2" ;;
      let status := <[ "entry_2" := SVal entry_2 ]> status in
      match live_price with
      | Some live =>
          if Py.truthy live_price then
            ema_short <- Dict.getitem latest_indicators "ema_short" ;;
            let zone :=
              if Py.Qlt_bool live ema_short then zone_in
              else if Py.Qlt_bool live (ema_short * (102 # 100)) then zone_near
              else zone_above in
            Py.Ok (<[ "entry_zone_status" := SVal (VStr zone) ]> status, log)
          else Py.Ok (status, log)
      | None => Py.Ok (status, log)
      end
    else Py.Ok (status, log).

End TradingStrategy.

(** ** [gate_ma_main.py]

    The position handling of class [TradingBot].  What the bot reads from
    the exchange is an argument of the function that reads it: the candle
    table [fetch_market_data] stored in [self.df], and the value
    [get_live_price] returned.  The two methods that place orders or read
    the balance, [execute_entry] and [update_equity], are parameters; both
    catch every exception themselves.  [journal] records, in order, the calls
    the modelled methods make to the trade and error loggers. *)

Module TradingBot.

(** An exception caught by a [try] block: one of [Py.Exc], or the
    [TypeError] of subscripting a value that is not a dictionary. *)
Inductive Caught : Type :=
| CaughtPy (e : Py.Exc)
| CaughtTypeError.

Inductive Event : Type :=
| LoggerError (msg : string)
| LogSignal (signal_type : string) (details : gmap string Value)
| LogTradeEntry (side : string) (entry_price size stop_loss tp1 : Q)
| LogPartialExit (side : string) (exit_price size : Q) (reason : string)
| LogTradeExit (side : string) (exit_price size pnl : Q) (reason : string)
| LogException (e : Caught) (context : string).

(** One dictionary of [trade_history], without its two clock readings. *)
Record TradeRecord : Type := mkTradeRecord {
  tr_side : string;
  tr_entry_price : Q;
  tr_exit_price : Q;
  tr_size : Q;
  tr_pnl : Q;
  tr_pnl_percent : Q;
  tr_rr_achieved : Q;
  tr_reason : string
}.

(** The bot: [tp1_percent] and [dry_run] are the configuration keys. *)
Record t : Type := mk {
  tp1_percent : Q;
  dry_run : bool;
  strategy : TradingStrategy.t;
  risk_manager : RiskManager.t;
  current_position : option Position.t;
  trade_history : list TradeRecord;
  journal : list Event
}.

Definition set_current_position (v : option Position.t) (self : t) : t :=
  mk (tp1_percent self) (dry_run self) (strategy self) (risk_manager self) v
     (trade_history self) (journal self).

Definition log (e : Event) (self : t) : t :=
  mk (tp1_percent self) (dry_run self) (strategy self) (risk_manager self)
     (current_position self) (trade_history self) (journal self ++ [e]).

(** [self.trade_history.append(r)]. *)
Definition record_trade (r : TradeRecord) (self : t) : t :=
  mk (tp1_percent self) (dry_run self) (strategy self) (risk_manager self)
     (current_position self) (trade_history self ++ [r]) (journal self).

(** [simulate_entry]: the position of a dry run, in the flat layout
    [RiskManager] reads.  The whole body is inside [try]. *)
Definition simulate_entry (self : t) (side : string) (details : gmap string Value) : t :=
  match details !! "entry_1", details !! "entry_2" with
  | Some entry_1, Some entry_2 =>
      match entry_1, entry_2 with
      | VLeg entry_1, VLeg entry_2 =>
          let total_size := EntryLeg.position_size entry_1 + EntryLeg.position_size entry_2 in
          let '(avg_entry, avg_sl, avg_tp) :=
            if Py.Qlt_bool 0 total_size then
              ((EntryLeg.price entry_1 * EntryLeg.position_size entry_1
                + EntryLeg.price entry_2 * EntryLeg.position_size entry_2) / total_size,
               (EntryLeg.stop_loss entry_1 * EntryLeg.position_size entry_1
                + EntryLeg.stop_loss entry_2 * EntryLeg.position_size entry_2) / total_size,
               (EntryLeg.take_profit entry_1 * EntryLeg.position_size entry_1
                + EntryLeg.take_profit entry_2 * EntryLeg.position_size entry_2)
               / total_size)
            else
              ((EntryLeg.price entry_1 + EntryLeg.price entry_2) / 2,
               (EntryLeg.stop_loss entry_1 + EntryLeg.stop_loss entry_2) / 2,
               (EntryLeg.take_profit entry_1 + EntryLeg.take_profit entry_2) / 2) in
          let self :=
            set_current_position
              (Some {| Position.entry_price := avg_entry;
                       Position.stop_loss := avg_sl;
                       Position.position_size := total_size;
                       Position.side := side;
                       Position.tp1 := Some avg_tp;
                       Position.tp1_percent := tp1_percent self;
                       Position.tp2 := None;
                       Position.tp2_percent := 0;
                       Position.trailing_stop := None;
                       Position.remaining_size := total_size;
                       Position.atr := None;
                       Position.risk_distance := None;
                       Position.risk_amount := None |}) self in
          log (LogTradeEntry side avg_entry total_size avg_sl avg_tp) self
      | _, _ => log (LogException CaughtTypeError "simulate_entry") self
      end
  | _, _ => log (LoggerError "Entry details not available in signal") self
  end.

(** [close_position]: the position is cleared only when [calculate_pnl]
    returned; its exception is caught and logged. *)
Definition close_position (self : t) (reason : string) (exit_price : Q) : t :=
  match current_position self with
  | None => self
  | Some position =>
      match RiskManager.calculate_pnl (risk_manager self) position exit_price with
      | Py.Ok pnl_info =>
          let self :=
            log (LogTradeExit (Position.side position) exit_price
                   (Position.remaining_size position) (RiskManager.pnl pnl_info) reason)
              self in
          let self :=
            record_trade
              {| tr_side := Position.side position;
                 tr_entry_price := Position.entry_price position;
                 tr_exit_price := exit_price;
                 tr_size := Position.position_size position;
                 tr_pnl := RiskManager.pnl pnl_info;
                 tr_pnl_percent := RiskManager.pnl_percent pnl_info;
                 tr_rr_achieved := RiskManager.rr_achieved pnl_info;
                 tr_reason := reason |} self in
          set_current_position None self
      | Py.Raise e => log (LogException (CaughtPy e) "close_position") self
      end
  end.

(** [manage_position] on the table [self.df]. *)
Definition manage_position (self : t) (df : TradingStrategy.DataFrame) : t :=
  match current_position self with
  | None => self
  | Some position =>
      match last df with
      | None => self
      | Some latest =>
          let current_price := Row.close latest in
          let current_atr := Row.atr latest in
          let '(updated_position, action) :=
            RiskManager.update_position (risk_manager self) position current_price
              current_atr in
          let self := set_current_position (Some updated_position) self in
          match action with
          | None => self
          | Some action =>
              if String.eqb action "stop_loss" then
                close_position self "Stop loss hit" current_price
              else if String.eqb action "tp1" then
                log (LogPartialExit (Position.side updated_position) current_price
                       (Position.position_size updated_position
                        * (Position.tp1_percent updated_position / 100)) "TP1") self
              else if String.eqb action "tp2" then
                log (LogPartialExit (Position.side updated_position) current_price
                       (Position.position_size updated_position
                        * (Position.tp2_percent updated_position / 100)) "TP2") self
              else if String.eqb action "trailing_stop" then
                close_position self "Trailing stop hit" current_price
              else self
          end
      end
  end.

Section Exchange.

Variable update_equity : t -> t.
Variable execute_entry : t -> string -> gmap string Value -> t.

(** [check_entry_signal] on the table [self.df], given what
    [get_live_price] returned.  It has no [try] block of its own: what it
    raises reaches its caller.  The branch without a signal prints
    [details['price']]. *)
Definition check_entry_signal (self : t) (df : TradingStrategy.DataFrame)
    (live_price : option Q) : Py.Result t :=
  match current_position self with
  | Some _ => Py.Ok self
  | None =>
      match live_price with
      | None => Py.Ok self
      | Some live =>
          checked <- TradingStrategy.check_long_entry (strategy self) df ;;
          let '(long_signal, details, _) := checked in
          if long_signal then
            candle_price <- Dict.getitem details "price" ;;
            details <-
              TradingStrategy.recalculate_with_live_price (strategy self) df details live ;;
            let self := log (LogSignal "LONG ENTRY" details) self in
            Py.Ok (if negb (dry_run self) then execute_entry self "long" details
                   else simulate_entry self "long" details)
          else
            candle_price <- Dict.getitem details "price" ;;
            Py.Ok self
      end
  end.

(** [run_once]: [fetched] is the table [fetch_market_data] stored, [None]
    when it returned [False].  The whole body is inside [try]. *)
Definition run_once (self : t) (fetched : option TradingStrategy.DataFrame)
    (live_price : option Q) : t :=
  match fetched with
  | None => self
  | Some df =>
      match TradingStrategy.iloc_last df with
      | Py.Raise e => log (LogException (CaughtPy e) "run_once") self
      | Py.Ok _ =>
          let self := if negb (dry_run self) then update_equity self else self in
          match current_position self with
          | Some _ => manage_position self df
          | None =>
              match check_entry_signal self df live_price with
              | Py.Ok self => self
              | Py.Raise e => log (LogException (CaughtPy e) "run_once") self
              end
          end
      end
  end.

(** The first iterations of the loop of [start]: one [run_once] per
    element of [cycles], each with the table and the live price read in
    that iteration. *)
Fixpoint start (self : t) (cycles : list (option TradingStrategy.DataFrame * option Q))
    : t :=
  match cycles with
  | [] => self
  | (fetched, live_price) :: rest => start (run_once self fetched live_price) rest
  end.

End Exchange.

End TradingBot.

(** ** Notions used to state the properties *)

Module Spec.

Import RiskManager.

(** A take-profit tier is armed when [update_position] would look at it:
    its level is true as Python sees it (neither [None] nor [0.0]) and its
    percentage is positive. *)
Definition armed (tp : option Q) (pct : Q) : bool :=
  Py.truthy tp && Py.Qlt_bool 0 pct.

(** An armed tier of a long position whose level the price has reached. *)
Definition tp_reached (tp : option Q) (pct price : Q) : bool :=
  match tp with
  | Some level => armed tp pct && Qle_bool level price
  | None => false
  end.

(** Something remains, and the price is at or below the trailing level
    just recomputed for a long position. *)
Definition trailing_reached (self : t) (p : Position.t) (price atr : Q) : bool :=
  Py.Qlt_bool 0 (Position.remaining_size p)
  && Qle_bool price
       (calculate_trailing_stop self (Position.entry_price p) price atr "long"
          (Position.trailing_stop p)).

(** The action of one cycle as section 4.2 of the specification words it:
    stop-loss first, then TP1, then TP2, then the trailing stop. *)
Definition priority_action (self : t) (p : Position.t) (price atr : Q) : option string :=
  if Qle_bool price (Position.stop_loss p) then Some "stop_loss"
  else if tp_reached (Position.tp1 p) (Position.tp1_percent p) price then Some "tp1"
  else if tp_reached (Position.tp2 p) (Position.tp2_percent p) price then Some "tp2"
  else if trailing_reached self p price atr then Some "trailing_stop"
  else None.

(** Order on stored trailing stops: an unset stop is below every stop. *)
Definition trailing_le (a b : option Q) : Prop :=
  match a, b with
  | None, _ => True
  | Some x, Some y => x <= y
  | Some _, None => False
  end.

(** Every stored trailing stop is at or above [floor]. *)
Definition trailing_floored (floor : Q) (a : option Q) : Prop :=
  match a with
  | None => True
  | Some x => floor <= x
  end.

(** The longest indicator period, the warm-up a window must cover. *)
Definition warm_up (self : TradingStrategy.t) : Z :=
  Z.max (Z.max (Z.max (TradingStrategy.ema_long self) (TradingStrategy.rsi_length self))
           (TradingStrategy.atr_period self))
    (TradingStrategy.volume_ma_period self).

(** The stop both entry legs share. *)
Definition shared_stop (self : TradingStrategy.t) (latest : Row.t) : Q :=
  Row.ema_long latest - Row.atr latest * TradingStrategy.sl_atr_multiplier self.

(** An entry leg as section 4.1 of the specification words it: priced at
    [price], sized as [fraction] of [max_usdt_per_trade / close], with the
    shared stop and the take-profit [price + (price - stop) * rr]. *)
Definition entry_leg (self : TradingStrategy.t) (latest : Row.t) (price fraction rr : Q)
    : EntryLeg.t :=
  {| EntryLeg.price := price;
     EntryLeg.position_size :=
       TradingStrategy.max_usdt_per_trade self / Row.close latest * fraction;
     EntryLeg.stop_loss := shared_stop self latest;
     EntryLeg.take_profit := price + (price - shared_stop self latest) * rr;
     EntryLeg.risk_reward := rr |}.

(** The keys the live-price refinement writes. *)
Definition annotation_keys : list string :=
  ["warning"; "entry_status"; "live_price"; "last_candle_price"; "price_change_pct"].



(** Order on the stored trailing stops of a short position: an unset stop
    is above every stop. *)
Definition trailing_ge (a b : option Q) : Prop :=
  match a, b with
  | None, _ => True
  | Some x, Some y => y <= x
  | Some _, None => False
  end.

(** The volume test of [check_long_entry]: passed when the filter is off or
    the table has no volume column. *)
Definition volume_condition (self : TradingStrategy.t) (latest : Row.t) : bool :=
  if TradingStrategy.use_volume_filter self && bool_decide (is_Some (Row.volume latest))
  then Qle_bool (option.default 1 (Row.volume_ma latest))
         (option.default 0 (Row.volume latest))
  else true.

(** The four entry conditions of [check_long_entry] on the latest candle. *)
Definition entry_conditions (self : TradingStrategy.t) (latest : Row.t) : bool :=
  Py.Qlt_bool (Row.ema_short latest) (Row.close latest)
  && Py.Qlt_bool (Row.ema_long latest) (Row.ema_short latest)
  && (Qle_bool (TradingStrategy.rsi_min self) (Row.rsi latest)
      && Qle_bool (Row.rsi latest) (TradingStrategy.rsi_max self))
  && Qle_bool (TradingStrategy.adx_threshold self) (Row.adx latest)
  && volume_condition self latest.
End Spec.

(** ** Concrete inputs *)

Module Examples.

(** A fresh long position: entry 100, stop 95, one unit, TP1 at 105 for 30%,
    TP2 at 110 for 40%, no trailing stop yet. *)
Definition long_position : Position.t :=
  {| Position.entry_price := 100;
     Position.stop_loss := 95;
     Position.position_size := 1;
     Position.side := "long";
     Position.tp1 := Some 105;
     Position.tp1_percent := 30;
     Position.tp2 := Some 110;
     Position.tp2_percent := 40;
     Position.trailing_stop := None;
     Position.remaining_size := 1;
     Position.atr := Some 2;
     Position.risk_distance := Some 5;
     Position.risk_amount := None |}.

(** The same position once TP2 has been taken: only TP1 is armed. *)
Definition tp1_only_position : Position.t :=
  Position.set_tp2_percent 0 (Position.set_tp2 None long_position).

(** The strategy configuration of the specification's worked example;
    periods are the defaults of [__init__]. *)
Definition strategy : TradingStrategy.t :=
  {| TradingStrategy.ema_short := 9;
     TradingStrategy.ema_long := 21;
     TradingStrategy.rsi_length := 14;
     TradingStrategy.rsi_min := 40;
     TradingStrategy.rsi_max := 70;
     TradingStrategy.adx_period := 14;
     TradingStrategy.adx_threshold := 25;
     TradingStrategy.atr_period := 14;
     TradingStrategy.use_volume_filter := true;
     TradingStrategy.volume_ma_period := 20;
     TradingStrategy.crossover_lookback := 2;
     TradingStrategy.max_usdt_per_trade := 1000;
     TradingStrategy.sl_atr_multiplier := 15 # 10;
     TradingStrategy.tp1_rr := 1;
     TradingStrategy.tp2_rr := 2;
     TradingStrategy.entry_1_percent := None;
     TradingStrategy.entry_2_percent := None |}.

(** The same configuration with no allocation set ([max_usdt_per_trade]
    keeps its default 0). *)
Definition strategy_no_allocation : TradingStrategy.t :=
  {| TradingStrategy.ema_short := 9;
     TradingStrategy.ema_long := 21;
     TradingStrategy.rsi_length := 14;
     TradingStrategy.rsi_min := 40;
     TradingStrategy.rsi_max := 70;
     TradingStrategy.adx_period := 14;
     TradingStrategy.adx_threshold := 25;
     TradingStrategy.atr_period := 14;
     TradingStrategy.use_volume_filter := true;
     TradingStrategy.volume_ma_period := 20;
     TradingStrategy.crossover_lookback := 2;
     TradingStrategy.max_usdt_per_trade := 0;
     TradingStrategy.sl_atr_multiplier := 15 # 10;
     TradingStrategy.tp1_rr := 1;
     TradingStrategy.tp2_rr := 2;
     TradingStrategy.entry_1_percent := None;
     TradingStrategy.entry_2_percent := None |}.

(** The candle of the worked example: close 150, EMAs 148 and 145, RSI 55,
    ADX 30, ATR 2.5, volume 25000 against a volume average of 20000. *)
Definition candle : Row.t :=
  {| Row.close := 150;
     Row.ema_short := 148;
     Row.ema_long := 145;
     Row.rsi := 55;
     Row.adx := 30;
     Row.atr := 25 # 10;
     Row.volume := Some 25000;
     Row.volume_ma := Some 20000 |}.

(** A window of 21 such candles, as long as the longest period. *)
Definition window : list Row.t := repeat candle 21.

(** A window of 20 candles, one short of the longest period. *)
Definition short_window : list Row.t := repeat candle 20.

(** A fresh short position: entry 100, stop 105, targets 95 and 90. *)
Definition short_position : Position.t :=
  {| Position.entry_price := 100;
     Position.stop_loss := 105;
     Position.position_size := 1;
     Position.side := "short";
     Position.tp1 := Some 95;
     Position.tp1_percent := 30;
     Position.tp2 := Some 90;
     Position.tp2_percent := 40;
     Position.trailing_stop := None;
     Position.remaining_size := 1;
     Position.atr := Some 2;
     Position.risk_distance := Some 5;
     Position.risk_amount := None |}.

(** The long example position with the [risk_amount] key set by hand. *)
Definition funded_position : Position.t :=
  {| Position.entry_price := 100;
     Position.stop_loss := 95;
     Position.position_size := 1;
     Position.side := "long";
     Position.tp1 := Some 105;
     Position.tp1_percent := 30;
     Position.tp2 := Some 110;
     Position.tp2_percent := 40;
     Position.trailing_stop := None;
     Position.remaining_size := 1;
     Position.atr := Some 2;
     Position.risk_distance := Some 5;
     Position.risk_amount := Some 5 |}.

(** Four polls of a rising market, ATR 2: prices 106, 107, 112, 113. *)
Definition climb : list (Q * Q) := [(106, 2); (107, 2); (112, 2); (113, 2)].

(** The first closes of the sample table of [indicators.py]. *)
Definition closes : list Q := [100; 101; 102; 101; 103; 105; 104; 106].

(** Its first candles as [(high, low, close)]. *)
Definition candles : list (Q * Q * Q) :=
  [(101, 99, 100); (102, 100, 101); (103, 101, 102); (102, 100, 101); (104, 102, 103)].

(** Its first volumes. *)
Definition volumes : list Q := [1000; 1100; 950; 1200; 1300].


(** The candles of [window] as [get_strategy_status] reads them, without a
    timestamp or directional-indicator columns. *)
Definition table : list Candle.t := map (fun r => Candle.mk r None None None) window.

(** The two legs of the worked example: 30% and 70% of 1000/150 units at the
    EMAs 148 and 145, stop at 141.25. *)
Definition plan : gmap string Value :=
  {[ "entry_1" := VLeg (EntryLeg.mk 148 2 (14125 # 100) (15475 # 100) 1);
     "entry_2" := VLeg (EntryLeg.mk 145 (14 # 3) (14125 # 100) (15250 # 100) 2) ]}.

(** A dry-run bot with the example strategy and no position. *)
Definition bot : TradingBot.t :=
  {| TradingBot.tp1_percent := 30;
     TradingBot.dry_run := true;
     TradingBot.strategy := strategy;
     TradingBot.risk_manager := RiskManager.default;
     TradingBot.current_position := None;
     TradingBot.trade_history := [];
     TradingBot.journal := [] |}.

(** The same bot holding [long_position]. *)
Definition holding_bot : TradingBot.t :=
  TradingBot.set_current_position (Some long_position) bot.

(** A later candle closing at 106, above the first target of
    [long_position], and one closing at 90, below its stop. *)
Definition rally : Row.t :=
  {| Row.close := 106;
     Row.ema_short := 104;
     Row.ema_long := 101;
     Row.rsi := 60;
     Row.adx := 30;
     Row.atr := 2;
     Row.volume := Some 25000;
     Row.volume_ma := Some 20000 |}.

Definition slump : Row.t :=
  {| Row.close := 90;
     Row.ema_short := 96;
     Row.ema_long := 99;
     Row.rsi := 30;
     Row.adx := 30;
     Row.atr := 2;
     Row.volume := Some 25000;
     Row.volume_ma := Some 20000 |}.

(** The exchange of a dry run: no balance is read and no order placed. *)
Definition no_update_equity (self : TradingBot.t) : TradingBot.t := self.
Definition no_execute_entry (self : TradingBot.t) (side : string)
    (details : gmap string Value) : TradingBot.t := self.

End Examples.

(** ** Comparisons and [max] *)

Lemma Qlt_bool_true (x y : Q) : Py.Qlt_bool x y = true <-> x < y.
Proof.
  unfold Py.Qlt_bool. rewrite negb_true_iff. split.
  - intros H. apply Qnot_le_lt. intros Hle.
    apply Qle_bool_iff in Hle. congruence.
  - intros H. destruct (Qle_bool y x) eqn:E; [|reflexivity].
    apply Qle_bool_iff in E. exfalso. exact (Qlt_not_le _ _ H E).
Qed.

Lemma Qlt_bool_false (x y : Q) : Py.Qlt_bool x y = false <-> y <= x.
Proof.
  unfold Py.Qlt_bool. rewrite negb_false_iff. apply Qle_bool_iff.
Qed.

Lemma Qle_bool_false (x y : Q) : Qle_bool x y = false <-> y < x.
Proof.
  rewrite <- Qlt_bool_true. unfold Py.Qlt_bool.
  destruct (Qle_bool x y); simpl; split; congruence.
Qed.

Lemma py_max_ge_l (a b : Q) : a <= Py.max a b.
Proof.
  unfold Py.max. destruct (Py.Qlt_bool a b) eqn:E.
  - apply Qlt_bool_true in E. apply Qlt_le_weak. exact E.
  - apply Qle_refl.
Qed.

Lemma py_max_ge_r (a b : Q) : b <= Py.max a b.
Proof.
  unfold Py.max. destruct (Py.Qlt_bool a b) eqn:E.
  - apply Qle_refl.
  - apply Qlt_bool_false in E. exact E.
Qed.

(** ** The position manager: one action per cycle, by priority *)

Section UpdatePosition.

Import RiskManager.

Variable self : RiskManager.t.

Lemma is_long_long : is_long "long" = true.
Proof. reflexivity. Qed.

(** The TP1 block on a long position either takes the exit, when the tier
    is armed and reached, or leaves position and action alone. *)
Lemma check_tp1_long (p : Position.t) (price : Q) (a : option string) :
  check_tp1 p price "long" a =
    if Spec.tp_reached (Position.tp1 p) (Position.tp1_percent p) price
    then (Position.set_stop_loss (Position.entry_price p)
            (Position.set_tp1_percent 0
               (Position.set_tp1 None
                  (Position.set_remaining_size
                     (Position.remaining_size p
                      - Position.position_size p * (Position.tp1_percent p / 100)) p))),
          Some "tp1")
    else (p, a).
Proof.
  unfold check_tp1, Spec.tp_reached, Spec.armed, check_take_profit_hit.
  rewrite is_long_long.
  destruct (Position.tp1 p) as [level|]; [|reflexivity].
  destruct (Py.truthy (Some level) && Py.Qlt_bool 0 (Position.tp1_percent p));
    [|reflexivity].
  simpl. destruct (Qle_bool level price); reflexivity.
Qed.

(** The TP2 block likewise; it names the action only when none is set. *)
Lemma check_tp2_long (p : Position.t) (price : Q) (a : option string) :
  check_tp2 p price "long" a =
    if Spec.tp_reached (Position.tp2 p) (Position.tp2_percent p) price
    then (Position.set_tp2_percent 0
            (Position.set_tp2 None
               (Position.set_remaining_size
                  (Position.remaining_size p
                   - Position.position_size p * (Position.tp2_percent p / 100)) p)),
          match a with None => Some "tp2" | Some _ => a end)
    else (p, a).
Proof.
  unfold check_tp2, Spec.tp_reached, Spec.armed, check_take_profit_hit.
  rewrite is_long_long.
  destruct (Position.tp2 p) as [level|]; [|reflexivity].
  destruct (Py.truthy (Some level) && Py.Qlt_bool 0 (Position.tp2_percent p));
    [|reflexivity].
  simpl. destruct (Qle_bool level price); reflexivity.
Qed.

(** The trailing block never replaces an action already named. *)
Lemma update_trailing_keeps_action (p : Position.t) (price atr : Q) (side a : string) :
  snd (update_trailing self p price atr side (Some a)) = Some a.
Proof.
  unfold update_trailing.
  destruct (Py.Qlt_bool 0 (Position.remaining_size p)); [|reflexivity].
  destruct (check_stop_loss_hit _ _ _); reflexivity.
Qed.

Lemma update_trailing_long_none (p : Position.t) (price atr : Q) :
  snd (update_trailing self p price atr "long" None) =
    if Spec.trailing_reached self p price atr then Some "trailing_stop" else None.
Proof.
  unfold update_trailing, Spec.trailing_reached, check_stop_loss_hit.
  rewrite is_long_long.
  destruct (Py.Qlt_bool 0 (Position.remaining_size p)); [|reflexivity].
  simpl. destruct (Qle_bool price _); reflexivity.
Qed.

(** C1. For a long position, one call of [update_position] emits at most
    one action: the single optional action name it returns is [None] or one
    of the four lifecycle names, and it is the one the priority order
    stop-loss, TP1, TP2, trailing stop picks.  In particular a price at or
    below the stop-loss gives ["stop_loss"], with the position untouched,
    whatever take-profit level the price also reaches. *)
Theorem update_position_priority (p : Position.t) (price atr : Q) :
  Position.side p = "long" ->
  snd (update_position self p price atr) = Spec.priority_action self p price atr
  /\ snd (update_position self p price atr)
     ∈ [None; Some "stop_loss"; Some "tp1"; Some "tp2"; Some "trailing_stop"]
  /\ (price <= Position.stop_loss p ->
      update_position self p price atr = (p, Some "stop_loss")).
Proof.
  intros Hside.
  assert (Hmain : snd (update_position self p price atr)
                  = Spec.priority_action self p price atr).
  { unfold update_position, Spec.priority_action, check_stop_loss_hit.
    rewrite Hside, is_long_long.
    destruct (Qle_bool price (Position.stop_loss p)); [reflexivity|].
    rewrite check_tp1_long.
    destruct (Spec.tp_reached (Position.tp1 p) (Position.tp1_percent p) price).
    - rewrite check_tp2_long.
      destruct (Spec.tp_reached _ _ _); apply update_trailing_keeps_action.
    - rewrite check_tp2_long.
      destruct (Spec.tp_reached (Position.tp2 p) (Position.tp2_percent p) price).
      + apply update_trailing_keeps_action.
      + apply update_trailing_long_none. }
  split; [exact Hmain|]. split.
  - rewrite Hmain. unfold Spec.priority_action.
    destruct (Qle_bool price (Position.stop_loss p)); [set_solver|].
    destruct (Spec.tp_reached (Position.tp1 p) (Position.tp1_percent p) price);
      [set_solver|].
    destruct (Spec.tp_reached (Position.tp2 p) (Position.tp2_percent p) price);
      [set_solver|].
    destruct (Spec.trailing_reached self p price atr); set_solver.
  - intros Hsl. unfold update_position, check_stop_loss_hit.
    rewrite Hside, is_long_long.
    apply Qle_bool_iff in Hsl. rewrite Hsl. reflexivity.
Qed.

End UpdatePosition.

(** The stop-loss wins at price 90 on the example position, whose stop is 95. *)
Lemma update_position_priority_witness :
  Position.side Examples.long_position = "long"
  /\ 90 <= Position.stop_loss Examples.long_position
  /\ snd (RiskManager.update_position RiskManager.default Examples.long_position 90 2)
     = Some "stop_loss".
Proof.
  assert (Hle : 90 <= Position.stop_loss Examples.long_position)
    by (unfold Qle; simpl; lia).
  split; [reflexivity|]. split; [exact Hle|].
  pose proof (update_position_priority RiskManager.default Examples.long_position
                90 2 eq_refl) as (_ & _ & Hstop).
  rewrite (Hstop Hle). reflexivity.
Defined.

(** ** Partial exits *)

Section PartialExits.

Import RiskManager.

Variable self : RiskManager.t.

(** The trailing block leaves every key but [trailing_stop] alone. *)
Lemma update_trailing_frame (p : Position.t) (price atr : Q) (side : string)
    (a : option string) :
  let p' := fst (update_trailing self p price atr side a) in
  Position.remaining_size p' = Position.remaining_size p
  /\ Position.stop_loss p' = Position.stop_loss p
  /\ Position.tp1 p' = Position.tp1 p
  /\ Position.tp1_percent p' = Position.tp1_percent p
  /\ Position.tp2 p' = Position.tp2 p
  /\ Position.tp2_percent p' = Position.tp2_percent p.
Proof.
  unfold update_trailing.
  destruct (Py.Qlt_bool 0 (Position.remaining_size p)); simpl; [|tauto].
  destruct (check_stop_loss_hit _ _ _); simpl; tauto.
Qed.

Lemma stop_loss_not_hit (p : Position.t) (price : Q) :
  Position.side p = "long" ->
  Position.stop_loss p < price ->
  check_stop_loss_hit price (Position.stop_loss p) (Position.side p) = false.
Proof.
  intros Hside Hsl. unfold check_stop_loss_hit.
  rewrite Hside, is_long_long. apply Qle_bool_false. exact Hsl.
Qed.

(** C10. When one call finds both take-profit tiers of a long position armed
    and reached, with the price above the stop-loss, it takes both partial
    exits (the remaining size loses both portions, both tiers are disarmed,
    the stop-loss moves to the entry price) and reports ["tp1"] alone. *)
Theorem update_position_both_take_profits (p : Position.t) (price atr : Q) :
  Position.side p = "long" ->
  Position.stop_loss p < price ->
  Spec.tp_reached (Position.tp1 p) (Position.tp1_percent p) price = true ->
  Spec.tp_reached (Position.tp2 p) (Position.tp2_percent p) price = true ->
  let p' := fst (update_position self p price atr) in
  snd (update_position self p price atr) = Some "tp1"
  /\ Position.remaining_size p'
     = Position.remaining_size p
       - Position.position_size p * (Position.tp1_percent p / 100)
       - Position.position_size p * (Position.tp2_percent p / 100)
  /\ Position.tp1 p' = None /\ Position.tp1_percent p' = 0
  /\ Position.tp2 p' = None /\ Position.tp2_percent p' = 0
  /\ Position.stop_loss p' = Position.entry_price p.
Proof.
  intros Hside Hsl H1 H2. cbv zeta.
  unfold update_position. rewrite (stop_loss_not_hit p price Hside Hsl).
  rewrite Hside, check_tp1_long, H1, check_tp2_long. cbn [Position.tp2
    Position.tp2_percent Position.set_stop_loss Position.set_tp1_percent
    Position.set_tp1 Position.set_remaining_size].
  rewrite H2.
  split; [apply update_trailing_keeps_action|].
  match goal with
  | |- context [update_trailing self ?q price atr "long" ?a] =>
      destruct (update_trailing_frame q price atr "long" a)
        as (Hr & Hs & Ht1 & Hp1 & Ht2 & Hp2)
  end.
  rewrite Hr, Hs, Ht1, Hp1, Ht2, Hp2. simpl. repeat split; reflexivity.
Qed.

(** C7, as the code has it. When one call finds TP1 of a long position armed
    and reached, the price above the stop-loss and TP2 not taken in the same
    call, it releases [position_size * (tp1_percent / 100)]: from a full
    position the remaining size is [position_size - position_size *
    tp1_percent / 100], TP1 is disarmed, the stop-loss moves to the entry
    price and the action is ["tp1"]. *)
Theorem update_position_tp1_exit (p : Position.t) (price atr : Q) :
  Position.side p = "long" ->
  Position.stop_loss p < price ->
  Spec.tp_reached (Position.tp1 p) (Position.tp1_percent p) price = true ->
  Spec.tp_reached (Position.tp2 p) (Position.tp2_percent p) price = false ->
  Position.remaining_size p == Position.position_size p ->
  let p' := fst (update_position self p price atr) in
  snd (update_position self p price atr) = Some "tp1"
  /\ Position.remaining_size p'
     = Position.remaining_size p
       - Position.position_size p * (Position.tp1_percent p / 100)
  /\ Position.remaining_size p'
     == Position.position_size p
        - Position.position_size p * Position.tp1_percent p / 100
  /\ Position.tp1 p' = None /\ Position.tp1_percent p' = 0
  /\ Position.stop_loss p' = Position.entry_price p.
Proof.
  intros Hside Hsl H1 H2 Hfull. cbv zeta.
  unfold update_position. rewrite (stop_loss_not_hit p price Hside Hsl).
  rewrite Hside, check_tp1_long, H1, check_tp2_long. cbn [Position.tp2
    Position.tp2_percent Position.set_stop_loss Position.set_tp1_percent
    Position.set_tp1 Position.set_remaining_size].
  rewrite H2.
  split; [apply update_trailing_keeps_action|].
  match goal with
  | |- context [update_trailing self ?q price atr "long" ?a] =>
      destruct (update_trailing_frame q price atr "long" a)
        as (Hr & Hs & Ht1 & Hp1 & _ & _)
  end.
  rewrite Hr, Hs, Ht1, Hp1. simpl.
  split; [reflexivity|]. split; [|repeat split; reflexivity].
  rewrite Hfull. unfold Qdiv. ring.
Qed.

End PartialExits.

(** At price 112 the example position, with TP1 at 105 and TP2 at 110, takes
    both exits in one call. *)
Lemma update_position_both_take_profits_witness :
  snd (RiskManager.update_position RiskManager.default Examples.long_position 112 2)
    = Some "tp1"
  /\ Position.remaining_size
       (fst (RiskManager.update_position RiskManager.default Examples.long_position 112 2))
     == 3 # 10.
Proof.
  assert (Hsl : Position.stop_loss Examples.long_position < 112)
    by (unfold Qlt; simpl; lia).
  pose proof (update_position_both_take_profits RiskManager.default
                Examples.long_position 112 2 eq_refl Hsl eq_refl eq_refl) as H.
  cbv zeta in H. destruct H as (Ha & Hr & _).
  split; [exact Ha|]. rewrite Hr. reflexivity.
Defined.

(** At price 106 the example position with only TP1 armed goes from 1 to 0.7. *)
Lemma update_position_tp1_exit_witness :
  snd (RiskManager.update_position RiskManager.default Examples.tp1_only_position 106 2)
    = Some "tp1"
  /\ Position.remaining_size
       (fst (RiskManager.update_position RiskManager.default Examples.tp1_only_position
               106 2))
     == 7 # 10.
Proof.
  assert (Hsl : Position.stop_loss Examples.tp1_only_position < 106)
    by (unfold Qlt; simpl; lia).
  assert (Hfull : Position.remaining_size Examples.tp1_only_position
                  == Position.position_size Examples.tp1_only_position)
    by reflexivity.
  pose proof (update_position_tp1_exit RiskManager.default
                Examples.tp1_only_position 106 2 eq_refl Hsl eq_refl eq_refl Hfull) as H.
  cbv zeta in H. destruct H as (Ha & Hr & _).
  split; [exact Ha|]. rewrite Hr. reflexivity.
Defined.

(** C7 as stated fails when TP2 is taken in the same call: on the example
    position, full and with TP1 armed, price 112 is above the stop-loss and
    at or above TP1, yet the remaining size is 0.3 and not
    [1 - 1 * 30 / 100]. *)
Lemma update_position_tp1_exit_counterexample :
  let p := Examples.long_position in
  let p' := fst (RiskManager.update_position RiskManager.default p 112 2) in
  Position.side p = "long"
  /\ Position.tp1 p = Some 105 /\ 0 < Position.tp1_percent p
  /\ Position.remaining_size p = Position.position_size p
  /\ 105 <= 112 /\ Position.stop_loss p < 112
  /\ Position.remaining_size p' == 3 # 10
  /\ ~ Position.remaining_size p'
       == Position.position_size p
          - Position.position_size p * Position.tp1_percent p / 100.
Proof.
  cbv zeta. repeat split; try reflexivity; try (unfold Qlt, Qle; simpl; lia).
  intros H. vm_compute in H. discriminate H.
Qed.

(** ** The trailing stop only tightens *)

Section TrailingStop.

Import RiskManager.

Variable self : RiskManager.t.

Lemma trailing_le_refl (a : option Q) : Spec.trailing_le a a.
Proof. destruct a; simpl; [apply Qle_refl|exact I]. Qed.

Lemma trailing_le_trans (a b c : option Q) :
  Spec.trailing_le a b -> Spec.trailing_le b c -> Spec.trailing_le a c.
Proof.
  destruct a as [x|], b as [y|], c as [z|]; simpl; try tauto.
  apply Qle_trans.
Qed.

(** Given a stored stop, the long branch returns at least that stop. *)
Lemma calculate_trailing_stop_tightens (entry price atr cur : Q) :
  cur <= calculate_trailing_stop self entry price atr "long" (Some cur).
Proof.
  unfold calculate_trailing_stop. rewrite is_long_long. apply py_max_ge_r.
Qed.

(** With no stored stop, the long branch returns at least the entry price. *)
Lemma calculate_trailing_stop_breakeven (entry price atr : Q) :
  entry <= calculate_trailing_stop self entry price atr "long" None.
Proof.
  unfold calculate_trailing_stop. rewrite is_long_long.
  destruct (Py.Qlt_bool entry price); [apply py_max_ge_r|apply Qle_refl].
Qed.

(** What one call does to the keys the trailing stop depends on: side and
    entry price stay, and the stored stop either stays or becomes the value
    [calculate_trailing_stop] gives for the stored one. *)
Lemma update_position_trailing_cases (p : Position.t) (price atr : Q) :
  Position.side p = "long" ->
  let p' := fst (update_position self p price atr) in
  Position.side p' = Position.side p
  /\ Position.entry_price p' = Position.entry_price p
  /\ (Position.trailing_stop p' = Position.trailing_stop p
      \/ Position.trailing_stop p'
         = Some (calculate_trailing_stop self (Position.entry_price p) price atr "long"
                   (Position.trailing_stop p))).
Proof.
  intros Hside. cbv zeta. unfold update_position.
  destruct (check_stop_loss_hit price (Position.stop_loss p) (Position.side p));
    [simpl; tauto|].
  rewrite Hside, check_tp1_long.
  destruct (Spec.tp_reached (Position.tp1 p) (Position.tp1_percent p) price);
    rewrite check_tp2_long;
    cbn [Position.tp2 Position.tp2_percent Position.set_stop_loss
         Position.set_tp1_percent Position.set_tp1 Position.set_remaining_size];
    destruct (Spec.tp_reached (Position.tp2 p) (Position.tp2_percent p) price);
    unfold update_trailing;
    match goal with
    | |- context [Py.Qlt_bool 0 ?r] => destruct (Py.Qlt_bool 0 r)
    end;
    try match goal with
    | |- context [check_stop_loss_hit ?a ?b ?c] => destruct (check_stop_loss_hit a b c)
    end;
    simpl; rewrite ?Hside; tauto.
Qed.

(** One call never lowers the stored trailing stop of a long position. *)
Lemma update_position_trailing_le (p : Position.t) (price atr : Q) :
  Position.side p = "long" ->
  Spec.trailing_le (Position.trailing_stop p)
    (Position.trailing_stop (fst (update_position self p price atr))).
Proof.
  intros Hside.
  destruct (update_position_trailing_cases p price atr Hside) as (_ & _ & [H|H]);
    rewrite H.
  - apply trailing_le_refl.
  - destruct (Position.trailing_stop p) as [cur|]; simpl; [|exact I].
    apply calculate_trailing_stop_tightens.
Qed.

(** One call keeps the stored trailing stop at or above the entry price. *)
Lemma update_position_trailing_floored (p : Position.t) (price atr : Q) :
  Position.side p = "long" ->
  Spec.trailing_floored (Position.entry_price p) (Position.trailing_stop p) ->
  Spec.trailing_floored (Position.entry_price p)
    (Position.trailing_stop (fst (update_position self p price atr))).
Proof.
  intros Hside Hfl.
  destruct (update_position_trailing_cases p price atr Hside) as (_ & _ & [H|H]);
    rewrite H; [exact Hfl|].
  destruct (Position.trailing_stop p) as [cur|]; simpl in *.
  - eapply Qle_trans; [exact Hfl|apply calculate_trailing_stop_tightens].
  - apply calculate_trailing_stop_breakeven.
Qed.

Lemma run_side (p : Position.t) (inputs : list (Q * Q)) :
  Position.side p = "long" ->
  Position.side (run self p inputs) = "long"
  /\ Position.entry_price (run self p inputs) = Position.entry_price p.
Proof.
  revert p. induction inputs as [|[price atr] rest IH]; intros p Hside; simpl.
  - split; [exact Hside|reflexivity].
  - destruct (update_position_trailing_cases p price atr Hside) as (Hs & He & _).
    destruct (IH (fst (update_position self p price atr))) as (Hs' & He').
    + rewrite Hs. exact Hside.
    + split; [exact Hs'|]. rewrite He'. exact He.
Qed.

Lemma run_app (p : Position.t) (inputs more : list (Q * Q)) :
  run self p (inputs ++ more) = run self (run self p inputs) more.
Proof.
  revert p. induction inputs as [|[price atr] rest IH]; intros p; simpl.
  - reflexivity.
  - apply IH.
Qed.

Lemma run_trailing_le (p : Position.t) (inputs : list (Q * Q)) :
  Position.side p = "long" ->
  Spec.trailing_le (Position.trailing_stop p)
    (Position.trailing_stop (run self p inputs)).
Proof.
  revert p. induction inputs as [|[price atr] rest IH]; intros p Hside; simpl.
  - apply trailing_le_refl.
  - eapply trailing_le_trans; [apply (update_position_trailing_le p price atr Hside)|].
    apply IH.
    destruct (update_position_trailing_cases p price atr Hside) as (Hs & _).
    rewrite Hs. exact Hside.
Qed.

Lemma run_trailing_floored (p : Position.t) (inputs : list (Q * Q)) :
  Position.side p = "long" ->
  Spec.trailing_floored (Position.entry_price p) (Position.trailing_stop p) ->
  Spec.trailing_floored (Position.entry_price p)
    (Position.trailing_stop (run self p inputs)).
Proof.
  revert p. induction inputs as [|[price atr] rest IH]; intros p Hside Hfl; simpl.
  - exact Hfl.
  - destruct (update_position_trailing_cases p price atr Hside) as (Hs & He & _).
    rewrite <- He. apply IH.
    + rewrite Hs. exact Hside.
    + rewrite He. apply update_position_trailing_floored; assumption.
Qed.

(** C2. For a long position and any sequence of [update_position] calls, the
    stored trailing stop never decreases: it is at or above the initial one
    after the whole sequence, and each further call leaves it at or above
    what the calls before stored.  A stop that starts unset is at or above
    the entry price (breakeven) from the moment it is first stored. *)
Theorem trailing_stop_never_decreases (p : Position.t) (inputs : list (Q * Q)) :
  Position.side p = "long" ->
  Spec.trailing_le (Position.trailing_stop p)
    (Position.trailing_stop (run self p inputs))
  /\ (forall price atr : Q,
        Spec.trailing_le (Position.trailing_stop (run self p inputs))
          (Position.trailing_stop (run self p (inputs ++ [(price, atr)]))))
  /\ (Position.trailing_stop p = None ->
      Spec.trailing_floored (Position.entry_price p)
        (Position.trailing_stop (run self p inputs))).
Proof.
  intros Hside. split; [apply run_trailing_le; exact Hside|]. split.
  - intros price atr. rewrite run_app. simpl.
    apply update_position_trailing_le. apply run_side. exact Hside.
  - intros Hnone. apply run_trailing_floored; [exact Hside|].
    rewrite Hnone. exact I.
Qed.

End TrailingStop.

(** Prices 101, 104, 108, 103 with ATR 2 on the example position: the stops
    stored are 100, 102, 106, 106. *)
Lemma trailing_stop_never_decreases_witness :
  Position.trailing_stop
    (RiskManager.run RiskManager.default Examples.long_position
       [(101, 2); (104, 2); (108, 2)]) = Some (106 # 1)
  /\ Spec.trailing_le
       (Position.trailing_stop
          (RiskManager.run RiskManager.default Examples.long_position
             [(101, 2); (104, 2); (108, 2)]))
       (Position.trailing_stop
          (RiskManager.run RiskManager.default Examples.long_position
             ([(101, 2); (104, 2); (108, 2)] ++ [(103, 2)]))).
Proof.
  split; [vm_compute; reflexivity|].
  exact (proj1 (proj2 (trailing_stop_never_decreases RiskManager.default
                         Examples.long_position [(101, 2); (104, 2); (108, 2)] eq_refl))
           103 2).
Defined.

(** ** The signal evaluator *)

Section CheckLongEntry.

Import TradingStrategy.

Variable self : TradingStrategy.t.

(** C5. On a window shorter than the longest of the four periods,
    [check_long_entry] returns [False] with the reason "Insufficient data"
    as the only key of its details (so no entry legs), and nothing is
    logged: no indicator value is read. *)
Theorem check_long_entry_insufficient_data (df : DataFrame) :
  (Z.of_nat (length df) < Spec.warm_up self)%Z ->
  exists details : gmap string Value,
    check_long_entry self df = Py.Ok (false, details, [])
    /\ details = {[ "reason" := VStr "Insufficient data" ]}
    /\ details !! "entry_1" = None
    /\ details !! "entry_2" = None.
Proof.
  intros Hshort. unfold check_long_entry.
  assert (Hins : insufficient_data self df = true).
  { unfold insufficient_data. apply Z.ltb_lt. exact Hshort. }
  rewrite Hins. eexists. split; [reflexivity|].
  split; [reflexivity|]. split; apply lookup_singleton_ne; discriminate.
Qed.

Lemma sufficient_data (df : DataFrame) :
  (Spec.warm_up self <= Z.of_nat (length df))%Z ->
  insufficient_data self df = false.
Proof.
  intros Hlong. unfold insufficient_data. apply Z.ltb_ge. exact Hlong.
Qed.

(** C6. When the window covers the warm-up and the four entry conditions
    hold on its latest candle but [max_usdt_per_trade <= 0],
    [check_long_entry] returns (it does not raise) [False] with the reason
    naming the allocation setting, and its details hold no entry leg. *)
Theorem check_long_entry_rejects_allocation (df : DataFrame) (latest : Row.t)
    (volume volume_ma : Q) :
  (Spec.warm_up self <= Z.of_nat (length df))%Z ->
  last df = Some latest ->
  Row.ema_short latest < Row.close latest ->
  Row.ema_long latest < Row.ema_short latest ->
  rsi_min self <= Row.rsi latest ->
  Row.rsi latest <= rsi_max self ->
  adx_threshold self <= Row.adx latest ->
  Row.volume latest = Some volume ->
  Row.volume_ma latest = Some volume_ma ->
  volume_ma <= volume ->
  max_usdt_per_trade self <= 0 ->
  exists (details : gmap string Value) (log : list LogLine),
    check_long_entry self df = Py.Ok (false, details, log)
    /\ details !! "reason"
       = Some (VStr "MAX_USDT_PER_TRADE must be > 0 in .env file")
    /\ details !! "entry_1" = None
    /\ details !! "entry_2" = None.
Proof.
  intros Hlong Hlast H1 H2 H3 H4 H5 Hv Hvma H6 Hmax.
  apply sufficient_data in Hlong.
  apply Qlt_bool_true in H1, H2. apply Qle_bool_iff in H3, H4, H5, H6, Hmax.
  unfold check_long_entry, iloc_last. rewrite Hlong, Hlast. cbn [Py.bind].
  cbv zeta. rewrite H1, H2, H3, H4, H5, Hv, Hvma.
  cbn [default from_option id andb]. rewrite H6.
  destruct (use_volume_filter self); cbn [andb]; rewrite Hmax;
    eexists _, _; (split; [reflexivity|]);
    repeat split; by simplify_map_eq.
Qed.

(** C3. When the window covers the warm-up, the four entry conditions hold
    on its latest candle and [max_usdt_per_trade > 0], [check_long_entry]
    returns [True] with two entry legs: Entry-1 priced at [ema_short] and
    Entry-2 at [ema_long], both with the stop
    [ema_long - atr * sl_atr_multiplier], sized [max_usdt_per_trade / close]
    times the leg's share (the configured percentage over 100, 30 and 70 by
    default), each with take-profit [price + (price - stop) * rr] for
    [tp1_rr] and [tp2_rr]. *)
Theorem check_long_entry_plan (df : DataFrame) (latest : Row.t) (volume volume_ma : Q) :
  (Spec.warm_up self <= Z.of_nat (length df))%Z ->
  last df = Some latest ->
  Row.ema_short latest < Row.close latest ->
  Row.ema_long latest < Row.ema_short latest ->
  rsi_min self <= Row.rsi latest ->
  Row.rsi latest <= rsi_max self ->
  adx_threshold self <= Row.adx latest ->
  Row.volume latest = Some volume ->
  Row.volume_ma latest = Some volume_ma ->
  volume_ma <= volume ->
  0 < max_usdt_per_trade self ->
  exists (details : gmap string Value) (log : list LogLine),
    check_long_entry self df = Py.Ok (true, details, log)
    /\ details !! "entry_1"
       = Some (VLeg (Spec.entry_leg self latest (Row.ema_short latest)
                       (default 30 (entry_1_percent self) / 100) (tp1_rr self)))
    /\ details !! "entry_2"
       = Some (VLeg (Spec.entry_leg self latest (Row.ema_long latest)
                       (default 70 (entry_2_percent self) / 100) (tp2_rr self))).
Proof.
  intros Hlong Hlast H1 H2 H3 H4 H5 Hv Hvma H6 Hmax.
  apply sufficient_data in Hlong.
  apply Qlt_bool_true in H1, H2. apply Qle_bool_iff in H3, H4, H5, H6.
  apply Qle_bool_false in Hmax.
  unfold check_long_entry, iloc_last. rewrite Hlong, Hlast. cbn [Py.bind].
  cbv zeta. rewrite H1, H2, H3, H4, H5, Hv, Hvma.
  cbn [default from_option id andb]. rewrite H6.
  destruct (use_volume_filter self); cbn [andb]; rewrite Hmax;
    eexists _, _; (split; [reflexivity|]);
    unfold Spec.entry_leg, Spec.shared_stop;
    split; by simplify_map_eq.
Qed.

End CheckLongEntry.

Ltac q_compare := first [ reflexivity | (vm_compute; discriminate) ].

(** A window of 20 candles against a longest period of 21. *)
Lemma check_long_entry_insufficient_data_witness :
  (Z.of_nat (length Examples.short_window) < Spec.warm_up Examples.strategy)%Z
  /\ exists details : gmap string Value,
       TradingStrategy.check_long_entry Examples.strategy Examples.short_window
         = Py.Ok (false, details, [])
       /\ details !! "entry_1" = None.
Proof.
  assert (H : (Z.of_nat (length Examples.short_window)
               < Spec.warm_up Examples.strategy)%Z) by q_compare.
  split; [exact H|].
  destruct (check_long_entry_insufficient_data Examples.strategy
              Examples.short_window H) as (details & Hcall & _ & Hleg & _).
  exists details. split; [exact Hcall|exact Hleg].
Defined.

(** The worked example with no allocation configured. *)
Lemma check_long_entry_rejects_allocation_witness :
  exists (details : gmap string Value) (log : list LogLine),
    TradingStrategy.check_long_entry Examples.strategy_no_allocation Examples.window
      = Py.Ok (false, details, log)
    /\ details !! "entry_1" = None
    /\ details !! "entry_2" = None.
Proof.
  destruct (check_long_entry_rejects_allocation Examples.strategy_no_allocation
              Examples.window Examples.candle 25000 20000)
    as (details & log & Hcall & _ & H1 & H2); try q_compare.
  exists details, log. split; [exact Hcall|]. split; [exact H1|exact H2].
Defined.

(** The worked example of the specification: the signal fires, Entry-1 is
    priced 148, Entry-2 145, and the stop is 145 - 2.5 * 1.5 = 141.25. *)
Lemma check_long_entry_plan_witness :
  exists (details : gmap string Value) (log : list LogLine) (leg1 leg2 : EntryLeg.t),
    TradingStrategy.check_long_entry Examples.strategy Examples.window
      = Py.Ok (true, details, log)
    /\ details !! "entry_1" = Some (VLeg leg1)
    /\ details !! "entry_2" = Some (VLeg leg2)
    /\ EntryLeg.price leg1 == 148
    /\ EntryLeg.price leg2 == 145
    /\ EntryLeg.stop_loss leg1 == 141.25
    /\ EntryLeg.stop_loss leg2 == 141.25.
Proof.
  destruct (check_long_entry_plan Examples.strategy Examples.window Examples.candle
              25000 20000)
    as (details & log & Hcall & H1 & H2); try q_compare.
  exists details, log. eexists _, _.
  split; [exact Hcall|]. split; [exact H1|]. split; [exact H2|].
  repeat split; vm_compute; reflexivity.
Defined.

(** ** The live-price refinement *)

Section LivePrice.

Import TradingStrategy.

Variable self : TradingStrategy.t.

Lemma not_annotation_key (k : string) :
  k ∉ Spec.annotation_keys ->
  "warning" <> k /\ "entry_status" <> k /\ "live_price" <> k
  /\ "last_candle_price" <> k /\ "price_change_pct" <> k.
Proof.
  unfold Spec.annotation_keys. intros Hk.
  repeat split; intros <-; apply Hk; set_solver.
Qed.

(** Looks a key up through the inserts and branches of the refinement. *)
Ltac through_annotations :=
  repeat first
    [ rewrite lookup_insert_ne by (assumption || discriminate)
    | match goal with
      | |- context [if ?b then _ else _] => destruct b
      end ];
  reflexivity.

(** C8. On a non-empty window [recalculate_with_live_price] returns the
    details it was given with [entry_1] and [entry_2] untouched; every key
    other than the five annotations it writes (warning, entry status, live
    price, last candle price, deviation) keeps its value. *)
Theorem recalculate_keeps_entries (df : DataFrame) (latest : Row.t)
    (details : gmap string Value) (live_price : Q) :
  last df = Some latest ->
  exists details' : gmap string Value,
    recalculate_with_live_price self df details live_price = Py.Ok details'
    /\ details' !! "entry_1" = details !! "entry_1"
    /\ details' !! "entry_2" = details !! "entry_2"
    /\ (forall k : string, k ∉ Spec.annotation_keys -> details' !! k = details !! k).
Proof.
  intros Hlast. unfold recalculate_with_live_price, iloc_last.
  rewrite Hlast. cbn [Py.bind]. cbv zeta.
  eexists. split; [reflexivity|].
  split; [through_annotations|]. split; [through_annotations|].
  intros k Hk. destruct (not_annotation_key k Hk) as (Hw & Hs & Hl & Hc & Hp).
  through_annotations.
Qed.


End LivePrice.

(** A live price of 148 on the worked example, whose short EMA is 148. *)
Lemma recalculate_keeps_entries_witness :
  exists details' : gmap string Value,
    TradingStrategy.recalculate_with_live_price Examples.strategy Examples.window
      {[ "entry_1" := VLeg EntryLeg.zero ]} 148 = Py.Ok details'
    /\ details' !! "entry_1" = Some (VLeg EntryLeg.zero)
    /\ details' !! "entry_2" = None.
Proof.
  destruct (recalculate_keeps_entries Examples.strategy Examples.window Examples.candle
              {[ "entry_1" := VLeg EntryLeg.zero ]} 148 eq_refl)
    as (details' & Hcall & H1 & H2 & _).
  exists details'. split; [exact Hcall|]. split.
  - rewrite H1. apply lookup_singleton_eq.
  - rewrite H2. apply lookup_singleton_ne. discriminate.
Defined.



(** ** Profit and loss *)

Section CalculatePnl.

Import RiskManager.

Variable self : RiskManager.t.

(** [create_position] never sets the [risk_amount] key. *)
Lemma create_position_no_risk_amount (entry_price atr equity : Q) (side : string)
    (min_size : Q) (max_usdt_allocation : option Q) (p : Position.t) :
  create_position self entry_price atr equity side min_size max_usdt_allocation = Py.Ok p ->
  Position.risk_amount p = None.
Proof.
  unfold create_position.
  destruct (calculate_position_size self equity entry_price
              (calculate_stop_loss self entry_price atr side) min_size
              max_usdt_allocation) as [size|e]; simpl; intros H.
  - injection H as <-. reflexivity.
  - discriminate H.
Qed.

(** C4 on the code. On every position [create_position] builds,
    [calculate_pnl] raises [KeyError] for the key [risk_amount] and returns
    no profit-and-loss figures, whatever the price. *)
Theorem calculate_pnl_created_position_raises (entry_price atr equity : Q) (side : string)
    (min_size : Q) (max_usdt_allocation : option Q) (p : Position.t) (current_price : Q) :
  create_position self entry_price atr equity side min_size max_usdt_allocation = Py.Ok p ->
  calculate_pnl self p current_price = Py.Raise (Py.KeyError "risk_amount").
Proof.
  intros Hcreate. unfold calculate_pnl.
  rewrite (create_position_no_risk_amount _ _ _ _ _ _ _ Hcreate). reflexivity.
Qed.

(** What [calculate_pnl] computes on a long position that does carry the
    key: the figures of the specification, with [risk_amount] as the
    denominator of the percentage. *)
Lemma calculate_pnl_with_risk_amount (p : Position.t) (current_price risk_amount : Q) :
  Position.side p = "long" ->
  Position.risk_amount p = Some risk_amount ->
  exists info : PnlInfo,
    calculate_pnl self p current_price = Py.Ok info
    /\ pnl info = (current_price - Position.entry_price p) * Position.remaining_size p
    /\ (0 < risk_amount -> pnl_percent info = pnl info / risk_amount * 100)
    /\ (risk_amount <= 0 -> pnl_percent info = 0)
    /\ (0 < Qabs (Position.entry_price p - Position.stop_loss p) ->
        rr_achieved info
        = Qabs (current_price - Position.entry_price p)
          / Qabs (Position.entry_price p - Position.stop_loss p))
    /\ (Qabs (Position.entry_price p - Position.stop_loss p) <= 0 ->
        rr_achieved info = 0)
    /\ (current_price == Position.entry_price p -> pnl info == 0).
Proof.
  intros Hside Hrisk. unfold calculate_pnl.
  rewrite Hside, Hrisk, is_long_long. cbn [Py.bind].
  eexists. split; [reflexivity|]. cbn [pnl pnl_percent rr_achieved].
  split; [reflexivity|]. split; [|split; [|split; [|split]]].
  - intros H. apply Qlt_bool_true in H. rewrite H. reflexivity.
  - intros H. apply Qlt_bool_false in H. rewrite H. reflexivity.
  - intros H. apply Qlt_bool_true in H. rewrite H. reflexivity.
  - intros H. apply Qlt_bool_false in H. rewrite H. reflexivity.
  - intros H. rewrite H. ring.
Qed.

End CalculatePnl.

(** The position of the module's own example, entry 50000 with ATR 500,
    priced at its entry. *)
Lemma calculate_pnl_created_position_raises_witness :
  exists p : Position.t,
    RiskManager.create_position RiskManager.default 50000 500 1000 "long" (1 # 10000) None
      = Py.Ok p
    /\ RiskManager.calculate_pnl RiskManager.default p 50000
       = Py.Raise (Py.KeyError "risk_amount").
Proof.
  eexists. split; [reflexivity|].
  exact (calculate_pnl_created_position_raises RiskManager.default 50000 500 1000 "long"
           (1 # 10000) None _ 50000 eq_refl).
Defined.

(** * Further properties of the code *)

Lemma Ok_inj {A : Type} (a b : A) : Py.Ok a = Py.Ok b -> a = b.
Proof. intros H. injection H. auto. Qed.

Lemma py_min_le_l (a b : Q) : Py.min a b <= a.
Proof.
  unfold Py.min. destruct (Py.Qlt_bool b a) eqn:E.
  - apply Qlt_bool_true in E. apply Qlt_le_weak. exact E.
  - apply Qle_refl.
Qed.

Lemma py_min_le_r (a b : Q) : Py.min a b <= b.
Proof.
  unfold Py.min. destruct (Py.Qlt_bool b a) eqn:E.
  - apply Qle_refl.
  - apply Qlt_bool_false in E. exact E.
Qed.

(** ** Sizing and levels of a new position *)

Section NewPosition.

Import RiskManager.

Variable self : RiskManager.t.

Lemma calculate_position_size_ge_min (equity entry_price stop_loss min_size size : Q)
    (max_usdt_allocation : option Q) :
  calculate_position_size self equity entry_price stop_loss min_size max_usdt_allocation
    = Py.Ok size ->
  min_size <= size.
Proof.
  unfold calculate_position_size.
  destruct max_usdt_allocation as [alloc|];
    [|intros H; apply Ok_inj in H; subst size; apply Qle_refl].
  destruct (negb (Py.truthy (Some alloc)) || Qle_bool alloc 0);
    [intros H; apply Ok_inj in H; subst size; apply Qle_refl|].
  destruct (Qeq_bool entry_price 0); [discriminate|].
  intros H. apply Ok_inj in H. subst size. apply py_max_ge_r.
Qed.

(** X1. [calculate_position_size] never returns less than [min_size]; it
    raises [ZeroDivisionError] exactly when a positive allocation meets an
    entry price of zero; otherwise a positive allocation gives
    [max(allocation / entry_price, min_size)], and a missing or
    non-positive allocation gives [min_size] itself, whatever the entry
    price. *)
Theorem calculate_position_size_floor (equity entry_price stop_loss min_size : Q)
    (max_usdt_allocation : option Q) :
  (forall size : Q,
     calculate_position_size self equity entry_price stop_loss min_size
       max_usdt_allocation = Py.Ok size ->
     min_size <= size)
  /\ (calculate_position_size self equity entry_price stop_loss min_size
        max_usdt_allocation = Py.Raise Py.ZeroDivisionError
      <-> exists alloc : Q,
            max_usdt_allocation = Some alloc /\ 0 < alloc /\ entry_price == 0)
  /\ (forall alloc : Q,
        max_usdt_allocation = Some alloc -> 0 < alloc -> ~ entry_price == 0 ->
        calculate_position_size self equity entry_price stop_loss min_size
          max_usdt_allocation = Py.Ok (Py.max (alloc / entry_price) min_size))
  /\ (max_usdt_allocation = None
      \/ (exists alloc : Q, max_usdt_allocation = Some alloc /\ alloc <= 0) ->
      calculate_position_size self equity entry_price stop_loss min_size
        max_usdt_allocation = Py.Ok min_size).
Proof.
  split; [intros size; apply calculate_position_size_ge_min|].
  unfold calculate_position_size.
  destruct max_usdt_allocation as [alloc|].
  - destruct (negb (Py.truthy (Some alloc)) || Qle_bool alloc 0) eqn:Eoff.
    + assert (Hle : alloc <= 0).
      { apply orb_true_iff in Eoff as [E|E].
        - apply negb_true_iff in E. simpl in E. apply negb_false_iff in E.
          apply Qeq_bool_iff in E. rewrite E. apply Qle_refl.
        - apply Qle_bool_iff. exact E. }
      split; [|split].
      * split; [discriminate|]. intros (a & Ha & Hpos & _).
        injection Ha as <-. exfalso. exact (Qlt_not_le _ _ Hpos Hle).
      * intros a Ha Hpos _. injection Ha as <-.
        exfalso. exact (Qlt_not_le _ _ Hpos Hle).
      * intros _. reflexivity.
    + assert (Hpos : 0 < alloc).
      { apply orb_false_iff in Eoff as [_ E]. apply Qle_bool_false. exact E. }
      destruct (Qeq_bool entry_price 0) eqn:Ez.
      * apply Qeq_bool_iff in Ez. split; [|split].
        -- split; [intros _; exists alloc; auto|reflexivity].
        -- intros a _ _ Hnz. contradiction.
        -- intros [H|(a & Ha & Hle)]; [discriminate H|].
           injection Ha as <-. exfalso. exact (Qlt_not_le _ _ Hpos Hle).
      * apply Qeq_bool_neq in Ez. split; [|split].
        -- split; [discriminate|]. intros (a & _ & _ & Hz). contradiction.
        -- intros a Ha _ _. injection Ha as <-. reflexivity.
        -- intros [H|(a & Ha & Hle)]; [discriminate H|].
           injection Ha as <-. exfalso. exact (Qlt_not_le _ _ Hpos Hle).
  - split; [|split].
    + split; [discriminate|]. intros (a & Ha & _). discriminate Ha.
    + intros a Ha. discriminate Ha.
    + intros _. reflexivity.
Qed.

(** X2. A long position that [create_position] returns, under risk:reward
    ratios [0 <= tp1_rr <= tp2_rr], starts full with no trailing stop, a
    size of at least [min_size] and both targets at or above the entry,
    TP2 at or above TP1; when [atr * sl_atr_multiplier] is not negative the
    stop is at or below the entry and each target sits its ratio times the
    entry-to-stop distance above the entry. *)
Theorem create_position_levels (entry_price atr equity min_size : Q)
    (max_usdt_allocation : option Q) (p : Position.t) :
  create_position self entry_price atr equity "long" min_size max_usdt_allocation
    = Py.Ok p ->
  0 <= tp1_rr self -> tp1_rr self <= tp2_rr self ->
  exists t1 t2 : Q,
    Position.tp1 p = Some t1 /\ Position.tp2 p = Some t2
    /\ entry_price <= t1 /\ t1 <= t2
    /\ Position.remaining_size p = Position.position_size p
    /\ Position.trailing_stop p = None
    /\ min_size <= Position.position_size p
    /\ (0 <= atr * sl_atr_multiplier self ->
        Position.stop_loss p <= entry_price
        /\ t1 - entry_price == tp1_rr self * (entry_price - Position.stop_loss p)
        /\ t2 - entry_price == tp2_rr self * (entry_price - Position.stop_loss p)).
Proof.
  intros Hcreate Hrr1 Hrr2. unfold create_position in Hcreate.
  destruct (calculate_position_size self equity entry_price
              (calculate_stop_loss self entry_price atr "long") min_size
              max_usdt_allocation) as [size|e] eqn:Esize; [|discriminate Hcreate].
  cbn [Py.bind] in Hcreate. apply Ok_inj in Hcreate. subst p.
  unfold calculate_take_profits, calculate_stop_loss. rewrite is_long_long.
  cbn [Position.tp1 Position.tp2 Position.remaining_size Position.position_size
       Position.trailing_stop Position.stop_loss tps_tp1 tps_tp2].
  set (stop := entry_price - atr * sl_atr_multiplier self).
  pose proof (Qabs_nonneg (entry_price - stop)) as Hd.
  set (d := Qabs (entry_price - stop)) in *.
  eexists _, _. split; [reflexivity|]. split; [reflexivity|].
  assert (Hp1 : 0 <= d * tp1_rr self) by (apply Qmult_le_0_compat; assumption).
  assert (Hp2 : 0 <= d * (tp2_rr self - tp1_rr self))
    by (apply Qmult_le_0_compat; [assumption|lra]).
  assert (Hp3 : d * (tp2_rr self - tp1_rr self) == d * tp2_rr self - d * tp1_rr self)
    by ring.
  split; [lra|]. split; [lra|]. split; [reflexivity|]. split; [reflexivity|].
  split; [exact (calculate_position_size_ge_min _ _ _ _ _ _ Esize)|].
  intros Hatr.
  assert (Hstop : stop <= entry_price) by (unfold stop; lra).
  assert (Habs : d == entry_price - stop).
  { unfold d. apply Qabs_pos. lra. }
  split; [exact Hstop|]. split; rewrite Habs; ring.
Qed.

End NewPosition.

(** An allocation of 1000 at an entry of 50000 gives 0.02; at an entry of
    zero the division raises; without an allocation, or with one of -5,
    the size is the minimum, also at an entry of zero. *)
Lemma calculate_position_size_floor_witness :
  RiskManager.calculate_position_size RiskManager.default 1000 50000 49250 (1 # 10000)
    (Some 1000) = Py.Ok (Py.max (1000 / 50000) (1 # 10000))
  /\ RiskManager.calculate_position_size RiskManager.default 1000 0 0 (1 # 10000)
       (Some 1000) = Py.Raise Py.ZeroDivisionError
  /\ RiskManager.calculate_position_size RiskManager.default 1000 50000 49250 (1 # 10000)
       None = Py.Ok (1 # 10000)
  /\ RiskManager.calculate_position_size RiskManager.default 1000 0 0 (1 # 10000)
       (Some (-5)) = Py.Ok (1 # 10000).
Proof.
  split; [|split; [|split]].
  - apply (proj1 (proj2 (proj2 (calculate_position_size_floor RiskManager.default 1000
                                  50000 49250 (1 # 10000) (Some 1000)))) 1000 eq_refl);
      q_compare.
  - apply (proj1 (proj2 (calculate_position_size_floor RiskManager.default 1000 0 0
                           (1 # 10000) (Some 1000)))).
    exists 1000. split; [reflexivity|]. split; q_compare.
  - apply (proj2 (proj2 (proj2 (calculate_position_size_floor RiskManager.default 1000
                                  50000 49250 (1 # 10000) None)))).
    left. reflexivity.
  - apply (proj2 (proj2 (proj2 (calculate_position_size_floor RiskManager.default 1000
                                  0 0 (1 # 10000) (Some (-5)))))).
    right. exists (-5). split; [reflexivity|]. q_compare.
Defined.

(** The module's own example: entry 50000, ATR 500, stop 49250, targets
    50750 and 51500. *)
Lemma create_position_levels_witness :
  exists (p : Position.t) (t1 t2 : Q),
    RiskManager.create_position RiskManager.default 50000 500 1000 "long" (1 # 10000) None
      = Py.Ok p
    /\ Position.tp1 p = Some t1 /\ Position.tp2 p = Some t2
    /\ Position.stop_loss p <= 50000 /\ 50000 <= t1 /\ t1 <= t2.
Proof.
  eexists.
  destruct (create_position_levels RiskManager.default 50000 500 1000 (1 # 10000) None
              _ eq_refl) as (t1 & t2 & H1 & H2 & Hle1 & Hle2 & _ & _ & _ & Hstop);
    try q_compare.
  exists t1, t2. split; [reflexivity|]. split; [exact H1|]. split; [exact H2|].
  split; [|split; [exact Hle1|exact Hle2]].
  apply Hstop. q_compare.
Defined.

(** ** The position over its whole life *)

Section Lifecycle.

Import RiskManager.

Variable self : RiskManager.t.

(** The TP1 block, whatever the side: it leaves position and action alone
    or, on an armed tier, takes the exit. *)
Lemma check_tp1_cases (p : Position.t) (price : Q) (side : string) (a : option string) :
  check_tp1 p price side a = (p, a)
  \/ (Spec.armed (Position.tp1 p) (Position.tp1_percent p) = true
      /\ check_tp1 p price side a
         = (Position.set_stop_loss (Position.entry_price p)
              (Position.set_tp1_percent 0
                 (Position.set_tp1 None
                    (Position.set_remaining_size
                       (Position.remaining_size p
                        - Position.position_size p * (Position.tp1_percent p / 100)) p))),
            Some "tp1")).
Proof.
  unfold check_tp1, Spec.armed.
  destruct (Position.tp1 p) as [level|]; [|left; reflexivity].
  destruct (Py.truthy (Some level) && Py.Qlt_bool 0 (Position.tp1_percent p));
    [|left; reflexivity].
  destruct (check_take_profit_hit price level side); [right|left]; auto.
Qed.

Lemma check_tp2_cases (p : Position.t) (price : Q) (side : string) (a : option string) :
  check_tp2 p price side a = (p, a)
  \/ (Spec.armed (Position.tp2 p) (Position.tp2_percent p) = true
      /\ check_tp2 p price side a
         = (Position.set_tp2_percent 0
              (Position.set_tp2 None
                 (Position.set_remaining_size
                    (Position.remaining_size p
                     - Position.position_size p * (Position.tp2_percent p / 100)) p)),
            match a with None => Some "tp2" | Some _ => a end)).
Proof.
  unfold check_tp2, Spec.armed.
  destruct (Position.tp2 p) as [level|]; [|left; reflexivity].
  destruct (Py.truthy (Some level) && Py.Qlt_bool 0 (Position.tp2_percent p));
    [|left; reflexivity].
  destruct (check_take_profit_hit price level side); [right|left]; auto.
Qed.

Lemma armed_portion_nonneg (p : Position.t) (tp : option Q) (pct : Q) :
  Spec.armed tp pct = true ->
  0 <= Position.position_size p ->
  0 <= Position.position_size p * (pct / 100).
Proof.
  intros Ha Hps. unfold Spec.armed in Ha.
  apply andb_true_iff in Ha as [_ Ha]. apply Qlt_bool_true in Ha.
  apply Qmult_le_0_compat; [exact Hps|].
  apply Qle_shift_div_l; [reflexivity|]. rewrite Qmult_0_l.
  apply Qlt_le_weak. exact Ha.
Qed.

Lemma update_trailing_position_size (p : Position.t) (price atr : Q) (side : string)
    (a : option string) :
  Position.position_size (fst (update_trailing self p price atr side a))
  = Position.position_size p.
Proof.
  unfold update_trailing.
  destruct (Py.Qlt_bool 0 (Position.remaining_size p)); [|reflexivity].
  destruct (check_stop_loss_hit _ _ _); reflexivity.
Qed.

(** One call keeps the original size; it leaves what remains untouched
    unless it answers with a take-profit, and never adds to it. *)
Lemma update_position_remaining (p : Position.t) (price atr : Q) :
  let p' := fst (update_position self p price atr) in
  let a := snd (update_position self p price atr) in
  Position.position_size p' = Position.position_size p
  /\ (a <> Some "tp1" -> a <> Some "tp2" ->
      Position.remaining_size p' = Position.remaining_size p)
  /\ (0 <= Position.position_size p ->
      Position.remaining_size p' <= Position.remaining_size p).
Proof.
  cbv zeta. unfold update_position.
  destruct (check_stop_loss_hit price (Position.stop_loss p) (Position.side p));
    [simpl; repeat split; try reflexivity; intros; apply Qle_refl|].
  destruct (check_tp1_cases p price (Position.side p) None) as [E1|[A1 E1]];
    rewrite E1; clear E1;
    match goal with
    | |- context [check_tp2 ?q price ?s ?a] =>
        destruct (check_tp2_cases q price s a) as [E2|[A2 E2]]; rewrite E2; clear E2
    end;
    match goal with
    | |- context [update_trailing self ?q price atr ?s ?a] =>
        destruct (update_trailing_frame self q price atr s a) as (Hr & _);
        pose proof (update_trailing_position_size q price atr s a) as Hps;
        pose proof (update_trailing_keeps_action self q price atr s "tp1") as Ha1;
        pose proof (update_trailing_keeps_action self q price atr s "tp2") as Ha2
    end;
    (split; [rewrite Hps; reflexivity|]);
    try (simpl in A2);
    (split;
     [ intros Hn1 Hn2; first [ rewrite Hr; reflexivity | contradiction ]
     | intros Hpos; rewrite Hr; simpl;
       try (pose proof (armed_portion_nonneg p _ _ A1 Hpos));
       try (pose proof (armed_portion_nonneg p _ _ A2 Hpos)); lra ]).
Qed.

(** One call, whatever the side: what stays, where the stop-loss can go,
    and how the arming of each tier relates to the action. *)
Lemma update_position_step (p : Position.t) (price atr : Q) :
  let p' := fst (update_position self p price atr) in
  let a := snd (update_position self p price atr) in
  Position.side p' = Position.side p
  /\ Position.entry_price p' = Position.entry_price p
  /\ Position.risk_amount p' = Position.risk_amount p
  /\ (Position.stop_loss p' = Position.stop_loss p
      \/ Position.stop_loss p' = Position.entry_price p)
  /\ (Spec.armed (Position.tp1 p) (Position.tp1_percent p) = false ->
      Spec.armed (Position.tp1 p') (Position.tp1_percent p') = false
      /\ a <> Some "tp1")
  /\ (a = Some "tp1" -> Spec.armed (Position.tp1 p') (Position.tp1_percent p') = false)
  /\ (Spec.armed (Position.tp2 p) (Position.tp2_percent p) = false ->
      Spec.armed (Position.tp2 p') (Position.tp2_percent p') = false
      /\ a <> Some "tp2")
  /\ (a = Some "tp2" -> Spec.armed (Position.tp2 p') (Position.tp2_percent p') = false).
Proof.
  cbv zeta. unfold update_position.
  destruct (check_stop_loss_hit price (Position.stop_loss p) (Position.side p)).
  { simpl. repeat split; auto; try discriminate. }
  destruct (check_tp1_cases p price (Position.side p) None) as [E1|[A1 E1]];
    rewrite E1; clear E1;
    match goal with
    | |- context [check_tp2 ?q price ?s ?a] =>
        destruct (check_tp2_cases q price s a) as [E2|[A2 E2]]; rewrite E2; clear E2
    end;
    try (simpl in A2);
    unfold update_trailing;
    match goal with
    | |- context [Py.Qlt_bool 0 ?r] => destruct (Py.Qlt_bool 0 r)
    end;
    try match goal with
    | |- context [check_stop_loss_hit ?x ?y ?z] => destruct (check_stop_loss_hit x y z)
    end;
    simpl; rewrite ?A1, ?A2;
    repeat split; auto; try discriminate; try congruence.
Qed.

(** One call leaves the stored trailing stop alone or stores what
    [calculate_trailing_stop] returns for it. *)
Lemma update_position_trailing_step (p : Position.t) (price atr : Q) :
  let p' := fst (update_position self p price atr) in
  Position.trailing_stop p' = Position.trailing_stop p
  \/ Position.trailing_stop p'
     = Some (calculate_trailing_stop self (Position.entry_price p) price atr
               (Position.side p) (Position.trailing_stop p)).
Proof.
  cbv zeta. unfold update_position.
  destruct (check_stop_loss_hit price (Position.stop_loss p) (Position.side p));
    [left; reflexivity|].
  destruct (check_tp1_cases p price (Position.side p) None) as [E1|[_ E1]];
    rewrite E1; clear E1;
    match goal with
    | |- context [check_tp2 ?q price ?s ?a] =>
        destruct (check_tp2_cases q price s a) as [E2|[_ E2]]; rewrite E2; clear E2
    end;
    unfold update_trailing;
    match goal with
    | |- context [Py.Qlt_bool 0 ?r] => destruct (Py.Qlt_bool 0 r)
    end;
    try match goal with
    | |- context [check_stop_loss_hit ?x ?y ?z] => destruct (check_stop_loss_hit x y z)
    end;
    simpl; tauto.
Qed.

(** X3. A long position with something left, whose trailing stop is unset
    or at or above the entry, is closed by the trailing stop on any call
    whose price is above the stop-loss but not above the entry price and
    reaches no armed target: the ATR stop-loss below the entry is only met
    by a price that jumps over that whole band. *)
Theorem update_position_exits_at_or_below_entry (p : Position.t) (price atr : Q) :
  Position.side p = "long" ->
  Spec.trailing_floored (Position.entry_price p) (Position.trailing_stop p) ->
  0 < Position.remaining_size p ->
  Position.stop_loss p < price ->
  price <= Position.entry_price p ->
  Spec.tp_reached (Position.tp1 p) (Position.tp1_percent p) price = false ->
  Spec.tp_reached (Position.tp2 p) (Position.tp2_percent p) price = false ->
  snd (update_position self p price atr) = Some "trailing_stop".
Proof.
  intros Hside Hfl Hrem Hsl Hprice H1 H2.
  unfold update_position. rewrite (stop_loss_not_hit p price Hside Hsl).
  rewrite Hside, check_tp1_long, H1, check_tp2_long, H2.
  unfold update_trailing. apply Qlt_bool_true in Hrem. rewrite Hrem.
  assert (Hhit : check_stop_loss_hit price
                   (calculate_trailing_stop self (Position.entry_price p) price atr
                      "long" (Position.trailing_stop p)) "long" = true).
  { unfold check_stop_loss_hit. rewrite is_long_long. apply Qle_bool_iff.
    eapply Qle_trans; [exact Hprice|].
    destruct (Position.trailing_stop p) as [cur|]; simpl in Hfl.
    - eapply Qle_trans; [exact Hfl|apply calculate_trailing_stop_tightens].
    - apply calculate_trailing_stop_breakeven. }
  rewrite Hhit. reflexivity.
Qed.

Lemma run_actions_disarmed_tp1 (p : Position.t) (inputs : list (Q * Q)) :
  Spec.armed (Position.tp1 p) (Position.tp1_percent p) = false ->
  Some "tp1" ∉ run_actions self p inputs.
Proof.
  revert p. induction inputs as [|[price atr] rest IH]; intros p Hoff; simpl.
  - apply not_elem_of_nil.
  - destruct (update_position_step p price atr)
      as (_ & _ & _ & _ & H1 & _). cbv zeta in H1.
    destruct (H1 Hoff) as (Hoff' & Hne).
    apply not_elem_of_cons. split; [congruence|apply IH; exact Hoff'].
Qed.

Lemma run_actions_disarmed_tp2 (p : Position.t) (inputs : list (Q * Q)) :
  Spec.armed (Position.tp2 p) (Position.tp2_percent p) = false ->
  Some "tp2" ∉ run_actions self p inputs.
Proof.
  revert p. induction inputs as [|[price atr] rest IH]; intros p Hoff; simpl.
  - apply not_elem_of_nil.
  - destruct (update_position_step p price atr)
      as (_ & _ & _ & _ & _ & _ & H2 & _). cbv zeta in H2.
    destruct (H2 Hoff) as (Hoff' & Hne).
    apply not_elem_of_cons. split; [congruence|apply IH; exact Hoff'].
Qed.

Lemma run_remaining_quiet (p : Position.t) (inputs : list (Q * Q)) :
  Some "tp1" ∉ run_actions self p inputs ->
  Some "tp2" ∉ run_actions self p inputs ->
  Position.remaining_size (run self p inputs) = Position.remaining_size p.
Proof.
  revert p. induction inputs as [|[price atr] rest IH]; intros p H1 H2; simpl;
    [reflexivity|].
  simpl in H1, H2.
  apply not_elem_of_cons in H1 as [Hn1 H1]. apply not_elem_of_cons in H2 as [Hn2 H2].
  destruct (update_position_remaining p price atr) as (_ & Hsame & _).
  cbv zeta in Hsame. rewrite (IH _ H1 H2). apply Hsame; congruence.
Qed.

(** X4. Over any sequence of [update_position] calls, on either side: with
    a non-negative original size the remaining size never grows; a
    sequence none of whose calls answers "tp1" or "tp2" leaves it exactly
    as it was; and once neither tier is armed it never changes again. *)
Theorem remaining_size_never_grows (p : Position.t) (inputs : list (Q * Q)) :
  (0 <= Position.position_size p ->
   Position.remaining_size (run self p inputs) <= Position.remaining_size p)
  /\ (Some "tp1" ∉ run_actions self p inputs ->
      Some "tp2" ∉ run_actions self p inputs ->
      Position.remaining_size (run self p inputs) = Position.remaining_size p)
  /\ (Spec.armed (Position.tp1 p) (Position.tp1_percent p) = false ->
      Spec.armed (Position.tp2 p) (Position.tp2_percent p) = false ->
      Position.remaining_size (run self p inputs) = Position.remaining_size p).
Proof.
  split; [|split].
  - revert p. induction inputs as [|[price atr] rest IH]; intros p Hpos; simpl.
    + apply Qle_refl.
    + destruct (update_position_remaining p price atr) as (Hps1 & _ & Hle).
      cbv zeta in Hps1, Hle.
      eapply Qle_trans; [apply IH; rewrite Hps1; exact Hpos|apply Hle; exact Hpos].
  - apply run_remaining_quiet.
  - intros H1 H2. apply run_remaining_quiet.
    + apply run_actions_disarmed_tp1. exact H1.
    + apply run_actions_disarmed_tp2. exact H2.
Qed.

Lemma filter_absent (a : option string) (l : list (option string)) :
  a ∉ l -> filter (λ x, x = a) l = [].
Proof.
  induction l as [|x l IH]; intros H; [reflexivity|].
  apply not_elem_of_cons in H as [Hne Hl].
  rewrite filter_cons_False by congruence. apply IH. exact Hl.
Qed.

(** X5. Over any sequence of [update_position] calls, on either side, the
    action ["tp1"] is emitted at most once and so is ["tp2"]: a tier that
    has been taken is never armed again. *)
Theorem take_profit_actions_once (p : Position.t) (inputs : list (Q * Q)) :
  (length (filter (λ a, a = Some "tp1") (run_actions self p inputs)) <= 1)%nat
  /\ (length (filter (λ a, a = Some "tp2") (run_actions self p inputs)) <= 1)%nat.
Proof.
  revert p. induction inputs as [|[price atr] rest IH]; intros p; simpl.
  - split; apply Nat.le_0_l.
  - destruct (update_position_step p price atr)
      as (_ & _ & _ & _ & _ & H1 & _ & H2). cbv zeta in H1, H2.
    destruct (IH (fst (update_position self p price atr))) as (IH1 & IH2).
    split.
    + destruct (decide (snd (update_position self p price atr) = Some "tp1")) as [E|E].
      * rewrite filter_cons_True by exact E.
        rewrite (filter_absent (Some "tp1")); [simpl; lia|].
        apply run_actions_disarmed_tp1. apply H1. exact E.
      * rewrite filter_cons_False by exact E. exact IH1.
    + destruct (decide (snd (update_position self p price atr) = Some "tp2")) as [E|E].
      * rewrite filter_cons_True by exact E.
        rewrite (filter_absent (Some "tp2")); [simpl; lia|].
        apply run_actions_disarmed_tp2. apply H2. exact E.
      * rewrite filter_cons_False by exact E. exact IH2.
Qed.

(** X6. Over any sequence of [update_position] calls, on either side, the
    stop-loss of the position is either the one it started with or the
    entry price: the only move the code ever makes is to breakeven. *)
Theorem stop_loss_only_moves_to_breakeven (p : Position.t) (inputs : list (Q * Q)) :
  Position.stop_loss (run self p inputs) = Position.stop_loss p
  \/ Position.stop_loss (run self p inputs) = Position.entry_price p.
Proof.
  revert p. induction inputs as [|[price atr] rest IH]; intros p; simpl.
  - left. reflexivity.
  - destruct (update_position_step p price atr) as (_ & He & _ & Hs & _).
    cbv zeta in He, Hs.
    destruct (IH (fst (update_position self p price atr))) as [H|H]; rewrite H.
    + exact Hs.
    + right. exact He.
Qed.

Lemma trailing_ge_refl (a : option Q) : Spec.trailing_ge a a.
Proof. destruct a; simpl; [apply Qle_refl|exact I]. Qed.

Lemma trailing_ge_trans (a b c : option Q) :
  Spec.trailing_ge a b -> Spec.trailing_ge b c -> Spec.trailing_ge a c.
Proof.
  destruct a as [x|], b as [y|], c as [z|]; simpl; try tauto.
  intros H1 H2. eapply Qle_trans; eassumption.
Qed.

Lemma update_position_short_trailing (p : Position.t) (price atr : Q) :
  is_long (Position.side p) = false ->
  let p' := fst (update_position self p price atr) in
  Spec.trailing_ge (Position.trailing_stop p) (Position.trailing_stop p')
  /\ (Spec.trailing_le (Position.trailing_stop p) (Some (Position.entry_price p)) ->
      Spec.trailing_le (Position.trailing_stop p') (Some (Position.entry_price p))).
Proof.
  intros Hshort. cbv zeta.
  destruct (update_position_trailing_step p price atr) as [H|H]; cbv zeta in H;
    rewrite H.
  - split; [apply trailing_ge_refl|auto].
  - unfold calculate_trailing_stop. rewrite Hshort.
    destruct (Position.trailing_stop p) as [cur|]; simpl.
    + split; [apply py_min_le_r|]. intros Hcap.
      eapply Qle_trans; [apply py_min_le_r|exact Hcap].
    + split; [exact I|]. intros _.
      destruct (Py.Qlt_bool price (Position.entry_price p));
        [apply py_min_le_r|apply Qle_refl].
Qed.

(** X7. For a position on the short side (any side other than ["long"]),
    over any sequence of [update_position] calls the stored trailing stop
    never increases, and a stop that starts unset is at or below the entry
    price once stored. *)
Theorem short_trailing_stop_never_increases (p : Position.t) (inputs : list (Q * Q)) :
  is_long (Position.side p) = false ->
  Spec.trailing_ge (Position.trailing_stop p)
    (Position.trailing_stop (run self p inputs))
  /\ (Position.trailing_stop p = None ->
      Spec.trailing_le (Position.trailing_stop (run self p inputs))
        (Some (Position.entry_price p))).
Proof.
  intros Hshort.
  assert (Hgen : forall q : Position.t,
            is_long (Position.side q) = false ->
            Spec.trailing_ge (Position.trailing_stop q)
              (Position.trailing_stop (run self q inputs))
            /\ (Spec.trailing_le (Position.trailing_stop q)
                  (Some (Position.entry_price q)) ->
                Spec.trailing_le (Position.trailing_stop (run self q inputs))
                  (Some (Position.entry_price q)))).
  { induction inputs as [|[price atr] rest IH]; intros q Hq; simpl.
    - split; [apply trailing_ge_refl|auto].
    - destruct (update_position_step q price atr) as (Hs & He & _).
      cbv zeta in Hs, He.
      destruct (update_position_short_trailing q price atr Hq) as (H1 & H2).
      cbv zeta in H1, H2.
      destruct (IH (fst (update_position self q price atr))) as (H3 & H4).
      { rewrite Hs. exact Hq. }
      split.
      + eapply trailing_ge_trans; [exact H1|exact H3].
      + intros Hcap. rewrite <- He. apply H4. rewrite He. apply H2. exact Hcap. }
  destruct (Hgen p Hshort) as (H1 & H2). split; [exact H1|].
  intros Hnone. apply H2. rewrite Hnone. exact I.
Qed.

(** X8. On a position that carries the [risk_amount] key, [calculate_pnl]
    returns: [rr_achieved] is never negative (it is a ratio of absolute
    distances, the same for a loss as for a gain); with something left the
    profit is non-negative exactly when the price is on the winning side of
    the entry for the position's side; [pnl_percent] has the sign of the
    profit for a positive [risk_amount] and is 0 otherwise. *)
Theorem calculate_pnl_signs (p : Position.t) (current_price risk_amount : Q) :
  Position.risk_amount p = Some risk_amount ->
  exists info : PnlInfo,
    calculate_pnl self p current_price = Py.Ok info
    /\ pnl_remaining_size info = Position.remaining_size p
    /\ 0 <= rr_achieved info
    /\ (0 < Position.remaining_size p ->
        (0 <= pnl info
         <-> if is_long (Position.side p)
             then Position.entry_price p <= current_price
             else current_price <= Position.entry_price p))
    /\ (0 < risk_amount -> (0 <= pnl_percent info <-> 0 <= pnl info))
    /\ (risk_amount <= 0 -> pnl_percent info = 0).
Proof.
  intros Hrisk. unfold calculate_pnl. rewrite Hrisk. cbn [Py.bind].
  eexists. split; [reflexivity|]. cbn [pnl pnl_percent rr_achieved pnl_remaining_size].
  split; [reflexivity|]. split; [|split; [|split]].
  - destruct (Py.Qlt_bool 0 (Qabs (Position.entry_price p - Position.stop_loss p)))
      eqn:E; [|apply Qle_refl].
    apply Qlt_bool_true in E. apply Qle_shift_div_l; [exact E|].
    rewrite Qmult_0_l. apply Qabs_nonneg.
  - intros Hrem. destruct (is_long (Position.side p)); split; intros H; nra.
  - intros Hpos. apply Qlt_bool_true in Hpos as Hb. rewrite Hb.
    set (x := if is_long (Position.side p)
              then (current_price - Position.entry_price p) * Position.remaining_size p
              else (Position.entry_price p - current_price) * Position.remaining_size p).
    split; intros H.
    + destruct (Qlt_le_dec x 0) as [Hneg|Hnn]; [|exact Hnn]. exfalso.
      assert (Hq : x / risk_amount * 100 < 0).
      { assert (Hd : x / risk_amount < 0).
        { apply Qlt_shift_div_r; [exact Hpos|]. rewrite Qmult_0_l. exact Hneg. }
        lra. }
      exact (Qlt_not_le _ _ Hq H).
    + assert (Hd : 0 <= x / risk_amount).
      { apply Qle_shift_div_l; [exact Hpos|]. rewrite Qmult_0_l. exact H. }
      lra.
  - intros Hle. apply Qlt_bool_false in Hle. rewrite Hle. reflexivity.
Qed.

End Lifecycle.

(** The example position, priced 98 between its stop 95 and its entry 100. *)
Lemma update_position_exits_at_or_below_entry_witness :
  snd (RiskManager.update_position RiskManager.default Examples.long_position 98 2)
  = Some "trailing_stop".
Proof.
  apply update_position_exits_at_or_below_entry;
    first [ reflexivity | exact I | q_compare ].
Defined.

(** Prices 106 then 112 take both tiers of the example position, whose
    remaining size does not grow; prices 101 then 102 reach no tier and
    leave it at 1. *)
Lemma remaining_size_never_grows_witness :
  Position.remaining_size
    (RiskManager.run RiskManager.default Examples.long_position [(106, 2); (112, 2)])
  <= Position.remaining_size Examples.long_position
  /\ Position.remaining_size
       (RiskManager.run RiskManager.default Examples.long_position [(101, 2); (102, 2)])
     = Position.remaining_size Examples.long_position.
Proof.
  split.
  - apply (proj1 (remaining_size_never_grows RiskManager.default Examples.long_position
                    [(106, 2); (112, 2)])).
    q_compare.
  - apply (proj1 (proj2 (remaining_size_never_grows RiskManager.default
                           Examples.long_position [(101, 2); (102, 2)])));
      vm_compute; intros H;
      repeat (apply elem_of_cons in H as [H|H]; [discriminate H|]);
      exact (not_elem_of_nil _ H).
Defined.

(** Prices 106, 107, 112, 113 on the example position: one ["tp1"], one
    ["tp2"]. *)
Lemma take_profit_actions_once_witness :
  RiskManager.run_actions RiskManager.default Examples.long_position Examples.climb
  = [Some "tp1"; None; Some "tp2"; None]
  /\ (length (filter (λ a, a = Some "tp1")
                (RiskManager.run_actions RiskManager.default Examples.long_position
                   Examples.climb)) <= 1)%nat.
Proof.
  split; [vm_compute; reflexivity|].
  exact (proj1 (take_profit_actions_once RiskManager.default Examples.long_position
                  Examples.climb)).
Defined.

(** After TP1 at 106 the stop of the example position is its entry, 100. *)
Lemma stop_loss_only_moves_to_breakeven_witness :
  Position.stop_loss
    (RiskManager.run RiskManager.default Examples.long_position [(106, 2); (107, 2)])
  = Position.entry_price Examples.long_position.
Proof.
  destruct (stop_loss_only_moves_to_breakeven RiskManager.default
              Examples.long_position [(106, 2); (107, 2)]) as [H|H].
  - vm_compute in H. discriminate H.
  - exact H.
Defined.

(** Prices 99, 97, 98 with ATR 1 on the short example position: the stops
    stored are 100, 98, 98. *)
Lemma short_trailing_stop_never_increases_witness :
  Position.trailing_stop
    (RiskManager.run RiskManager.default Examples.short_position
       [(99, 1); (97, 1); (98, 1)]) = Some (98 # 1)
  /\ Spec.trailing_le
       (Position.trailing_stop
          (RiskManager.run RiskManager.default Examples.short_position
             [(99, 1); (97, 1); (98, 1)]))
       (Some (Position.entry_price Examples.short_position)).
Proof.
  split; [vm_compute; reflexivity|].
  exact (proj2 (short_trailing_stop_never_increases RiskManager.default
                  Examples.short_position [(99, 1); (97, 1); (98, 1)] eq_refl) eq_refl).
Defined.

(** The funded example position priced 103: a profit of 3 on the unit. *)
Lemma calculate_pnl_signs_witness :
  exists info : RiskManager.PnlInfo,
    RiskManager.calculate_pnl RiskManager.default Examples.funded_position 103
      = Py.Ok info
    /\ 0 <= RiskManager.pnl info
    /\ 0 <= RiskManager.rr_achieved info.
Proof.
  destruct (calculate_pnl_signs RiskManager.default Examples.funded_position 103 5
              eq_refl) as (info & Hcall & _ & Hrr & Hsign & _).
  exists info. split; [exact Hcall|]. split; [|exact Hrr].
  apply Hsign; q_compare.
Defined.

(** ** The signal evaluator, case by case *)

Section SignalCases.

Import TradingStrategy.

Variable self : TradingStrategy.t.

(** All four conditions hold and the allocation is positive. *)
Lemma check_long_entry_met (df : DataFrame) (latest : Row.t) :
  insufficient_data self df = false ->
  last df = Some latest ->
  Spec.entry_conditions self latest = true ->
  0 < max_usdt_per_trade self ->
  exists (details : gmap string Value) (log : list LogLine),
    check_long_entry self df = Py.Ok (true, details, log)
    /\ details !! "entry_1"
       = Some (VLeg (Spec.entry_leg self latest (Row.ema_short latest)
                       (default 30 (entry_1_percent self) / 100) (tp1_rr self)))
    /\ details !! "entry_2"
       = Some (VLeg (Spec.entry_leg self latest (Row.ema_long latest)
                       (default 70 (entry_2_percent self) / 100) (tp2_rr self)))
    /\ details !! "reason" = Some (VStr reason_met)
    /\ details !! "signal" = Some (VBool true).
Proof.
  intros Hins Hlast Hc Hmax. apply Qle_bool_false in Hmax.
  unfold check_long_entry, iloc_last. rewrite Hins, Hlast. cbn [Py.bind]. cbv zeta.
  unfold Spec.entry_conditions, Spec.volume_condition in Hc.
  destruct (use_volume_filter self && bool_decide (is_Some (Row.volume latest)));
    rewrite Hc, Hmax;
    eexists _, _; (split; [reflexivity|]);
    unfold Spec.entry_leg, Spec.shared_stop;
    repeat split; by simplify_map_eq.
Qed.

(** All four conditions hold and the allocation is not positive. *)
Lemma check_long_entry_unfunded (df : DataFrame) (latest : Row.t) :
  insufficient_data self df = false ->
  last df = Some latest ->
  Spec.entry_conditions self latest = true ->
  max_usdt_per_trade self <= 0 ->
  exists (details : gmap string Value) (log : list LogLine),
    check_long_entry self df = Py.Ok (false, details, log)
    /\ details !! "entry_1" = None
    /\ details !! "entry_2" = None
    /\ details !! "reason" = Some (VStr reason_allocation)
    /\ details !! "signal" = Some (VBool true).
Proof.
  intros Hins Hlast Hc Hmax. apply Qle_bool_iff in Hmax.
  unfold check_long_entry, iloc_last. rewrite Hins, Hlast. cbn [Py.bind]. cbv zeta.
  unfold Spec.entry_conditions, Spec.volume_condition in Hc.
  destruct (use_volume_filter self && bool_decide (is_Some (Row.volume latest)));
    rewrite Hc, Hmax;
    eexists _, _; (split; [reflexivity|]);
    repeat split; by simplify_map_eq.
Qed.

(** Some condition fails. *)
Lemma check_long_entry_failed (df : DataFrame) (latest : Row.t) :
  insufficient_data self df = false ->
  last df = Some latest ->
  Spec.entry_conditions self latest = false ->
  exists (details : gmap string Value) (log : list LogLine),
    check_long_entry self df = Py.Ok (false, details, log)
    /\ details !! "entry_1" = Some (VLeg EntryLeg.zero)
    /\ details !! "entry_2" = Some (VLeg EntryLeg.zero)
    /\ details !! "reason"
       = Some (VFmt "Trade analysis not available: Failed: EMA alignment, RSI ("
                 (Row.rsi latest) "), Volume")
    /\ details !! "signal" = Some (VBool false).
Proof.
  intros Hins Hlast Hc.
  unfold check_long_entry, iloc_last. rewrite Hins, Hlast. cbn [Py.bind]. cbv zeta.
  unfold Spec.entry_conditions, Spec.volume_condition in Hc.
  destruct (use_volume_filter self && bool_decide (is_Some (Row.volume latest)));
    rewrite Hc;
    eexists _, _; (split; [reflexivity|]);
    repeat split; by simplify_map_eq.
Qed.

Lemma entry_conditions_true (latest : Row.t) :
  Spec.entry_conditions self latest = true ->
  Row.ema_short latest < Row.close latest
  /\ Row.ema_long latest < Row.ema_short latest
  /\ rsi_min self <= Row.rsi latest /\ Row.rsi latest <= rsi_max self
  /\ adx_threshold self <= Row.adx latest
  /\ Spec.volume_condition self latest = true.
Proof.
  unfold Spec.entry_conditions. rewrite !andb_true_iff.
  intros ((((H1 & H2) & (H3 & H4)) & H5) & H6).
  apply Qlt_bool_true in H1, H2. apply Qle_bool_iff in H3, H4, H5. tauto.
Qed.

Lemma insufficient_data_false (df : DataFrame) :
  insufficient_data self df = false ->
  (Spec.warm_up self <= Z.of_nat (length df))%Z.
Proof. unfold insufficient_data. apply Z.ltb_ge. Qed.

(** X9. [check_long_entry] returns [True] only on a window that covers
    the warm-up and whose latest candle passes all four conditions, with a
    positive [max_usdt_per_trade]; the details then carry both entry legs
    of the plan. *)
Theorem check_long_entry_signal_sound (df : DataFrame) (details : gmap string Value)
    (log : list LogLine) :
  check_long_entry self df = Py.Ok (true, details, log) ->
  exists latest : Row.t,
    last df = Some latest
    /\ (Spec.warm_up self <= Z.of_nat (length df))%Z
    /\ Row.ema_short latest < Row.close latest
    /\ Row.ema_long latest < Row.ema_short latest
    /\ rsi_min self <= Row.rsi latest /\ Row.rsi latest <= rsi_max self
    /\ adx_threshold self <= Row.adx latest
    /\ Spec.volume_condition self latest = true
    /\ 0 < max_usdt_per_trade self
    /\ details !! "entry_1"
       = Some (VLeg (Spec.entry_leg self latest (Row.ema_short latest)
                       (default 30 (entry_1_percent self) / 100) (tp1_rr self)))
    /\ details !! "entry_2"
       = Some (VLeg (Spec.entry_leg self latest (Row.ema_long latest)
                       (default 70 (entry_2_percent self) / 100) (tp2_rr self))).
Proof.
  intros Hcall.
  destruct (insufficient_data self df) eqn:Hins.
  { unfold check_long_entry in Hcall. rewrite Hins in Hcall. discriminate Hcall. }
  destruct (last df) as [latest|] eqn:Hlast.
  2:{ unfold check_long_entry, iloc_last in Hcall.
      rewrite Hins, Hlast in Hcall. discriminate Hcall. }
  destruct (Spec.entry_conditions self latest) eqn:Hc.
  2:{ destruct (check_long_entry_failed df latest Hins Hlast Hc) as (d & l & E & _).
      rewrite E in Hcall. discriminate Hcall. }
  destruct (Qlt_le_dec 0 (max_usdt_per_trade self)) as [Hmax|Hmax].
  2:{ destruct (check_long_entry_unfunded df latest Hins Hlast Hc Hmax)
        as (d & l & E & _).
      rewrite E in Hcall. discriminate Hcall. }
  destruct (check_long_entry_met df latest Hins Hlast Hc Hmax)
    as (d & l & E & H1 & H2 & _).
  rewrite E in Hcall. apply Ok_inj in Hcall.
  assert (Hd : d = details) by congruence. subst d.
  exists latest. split; [reflexivity|].
  split; [apply insufficient_data_false; exact Hins|].
  destruct (entry_conditions_true latest Hc) as (? & ? & ? & ? & ? & ?).
  repeat split; assumption.
Qed.

(** X10. [check_long_entry] raises only [IndexError], and only on an empty
    window when no period is positive (it then reads [df.iloc[-1]]); as
    soon as one of the four periods is positive it returns for every
    window, the empty one included. *)
Theorem check_long_entry_raises (df : DataFrame) :
  (forall e : Py.Exc,
     check_long_entry self df = Py.Raise e ->
     e = Py.IndexError /\ df = [] /\ (Spec.warm_up self <= 0)%Z)
  /\ (df = [] -> (Spec.warm_up self <= 0)%Z ->
      check_long_entry self df = Py.Raise Py.IndexError)
  /\ ((0 < Spec.warm_up self)%Z ->
      exists (signal : bool) (details : gmap string Value) (log : list LogLine),
        check_long_entry self df = Py.Ok (signal, details, log)).
Proof.
  assert (Hok : forall latest : Row.t,
            insufficient_data self df = false -> last df = Some latest ->
            exists (signal : bool) (details : gmap string Value) (log : list LogLine),
              check_long_entry self df = Py.Ok (signal, details, log)).
  { intros latest Hins Hlast.
    destruct (Spec.entry_conditions self latest) eqn:Hc.
    - destruct (Qlt_le_dec 0 (max_usdt_per_trade self)) as [Hmax|Hmax].
      + destruct (check_long_entry_met df latest Hins Hlast Hc Hmax)
          as (d & l & E & _). eauto.
      + destruct (check_long_entry_unfunded df latest Hins Hlast Hc Hmax)
          as (d & l & E & _). eauto.
    - destruct (check_long_entry_failed df latest Hins Hlast Hc) as (d & l & E & _).
      eauto. }
  split; [|split].
  - intros e Hcall.
    destruct (insufficient_data self df) eqn:Hins.
    { unfold check_long_entry in Hcall. rewrite Hins in Hcall. discriminate Hcall. }
    destruct (last df) as [latest|] eqn:Hlast.
    { destruct (Hok latest eq_refl eq_refl) as (b & d & l & E).
      rewrite E in Hcall. discriminate Hcall. }
    apply last_None in Hlast. subst df.
    unfold check_long_entry, iloc_last in Hcall. rewrite Hins in Hcall.
    simpl in Hcall. split; [congruence|]. split; [reflexivity|].
    apply insufficient_data_false in Hins. simpl in Hins. exact Hins.
  - intros -> Hw. unfold check_long_entry, insufficient_data.
    fold (Spec.warm_up self).
    replace (Z.of_nat (length []) <? Spec.warm_up self)%Z with false
      by (symmetry; apply Z.ltb_ge; simpl; lia).
    reflexivity.
  - intros Hw.
    destruct (insufficient_data self df) eqn:Hins.
    { unfold check_long_entry. rewrite Hins. eauto. }
    destruct (last df) as [latest|] eqn:Hlast; [exact (Hok latest eq_refl eq_refl)|].
    apply last_None in Hlast. subst df.
    apply insufficient_data_false in Hins. simpl in Hins. lia.
Qed.

(** X12. A window on which [check_long_entry] signals never gives a short
    signal: [check_short_entry] returns [False] on it, with its EMA
    alignment flag false and the reason "Conditions not met". *)
Theorem long_and_short_exclusive (df : DataFrame) (details : gmap string Value)
    (log : list LogLine) :
  check_long_entry self df = Py.Ok (true, details, log) ->
  exists short_details : gmap string Value,
    check_short_entry self df = Py.Ok (false, short_details)
    /\ short_details !! "reason" = Some (VStr reason_not_met)
    /\ short_details !! "ema_aligned" = Some (VBool false).
Proof.
  intros Hcall.
  destruct (insufficient_data self df) eqn:Hins.
  { unfold check_long_entry in Hcall. rewrite Hins in Hcall. discriminate Hcall. }
  destruct (last df) as [latest|] eqn:Hlast.
  2:{ unfold check_long_entry, iloc_last in Hcall.
      rewrite Hins, Hlast in Hcall. discriminate Hcall. }
  destruct (Spec.entry_conditions self latest) eqn:Hc.
  2:{ destruct (check_long_entry_failed df latest Hins Hlast Hc) as (d & l & E & _).
      rewrite E in Hcall. discriminate Hcall. }
  destruct (entry_conditions_true latest Hc) as (H1 & _).
  assert (Hno : Py.Qlt_bool (Row.close latest) (Row.ema_short latest) = false).
  { apply Qlt_bool_false. apply Qlt_le_weak. exact H1. }
  unfold check_short_entry, iloc_last. rewrite Hins, Hlast. cbn [Py.bind]. cbv zeta.
  rewrite Hno. cbn [andb].
  eexists. split; [reflexivity|]. split; by simplify_map_eq.
Qed.

(** X13. A window on which [check_long_entry] signals is not one on which
    [check_exit_by_ema] closes a long position: entering is never followed
    by an EMA exit on the same candle. *)
Theorem entry_signal_is_not_an_exit (df : DataFrame) (details : gmap string Value)
    (log : list LogLine) :
  check_long_entry self df = Py.Ok (true, details, log) ->
  check_exit_by_ema self df "long" = Py.Ok (false, "").
Proof.
  intros Hcall.
  destruct (insufficient_data self df) eqn:Hins.
  { unfold check_long_entry in Hcall. rewrite Hins in Hcall. discriminate Hcall. }
  destruct (last df) as [latest|] eqn:Hlast.
  2:{ unfold check_long_entry, iloc_last in Hcall.
      rewrite Hins, Hlast in Hcall. discriminate Hcall. }
  destruct (Spec.entry_conditions self latest) eqn:Hc.
  2:{ destruct (check_long_entry_failed df latest Hins Hlast Hc) as (d & l & E & _).
      rewrite E in Hcall. discriminate Hcall. }
  destruct (entry_conditions_true latest Hc) as (H1 & _).
  unfold check_exit_by_ema, iloc_last. rewrite Hlast.
  destruct (Z.of_nat (length df) <? 2)%Z; [reflexivity|].
  cbn [Py.bind]. simpl String.eqb.
  replace (Py.Qlt_bool (Row.close latest) (Row.ema_short latest)) with false
    by (symmetry; apply Qlt_bool_false; apply Qlt_le_weak; exact H1).
  reflexivity.
Qed.

(** X11. On a window that covers the warm-up, the [signal] key of the
    details is the conjunction of the four conditions, and the returned
    flag is that conjunction and a positive [max_usdt_per_trade]: the two
    differ exactly on the rejected allocation.  When a condition fails both
    legs are stored as the all-zero placeholder and the reason is the same
    fixed sentence (naming EMA alignment, the RSI value and volume)
    whichever condition failed. *)
Theorem check_long_entry_flag (df : DataFrame) (latest : Row.t) :
  (Spec.warm_up self <= Z.of_nat (length df))%Z ->
  last df = Some latest ->
  exists (signal : bool) (details : gmap string Value) (log : list LogLine),
    check_long_entry self df = Py.Ok (signal, details, log)
    /\ details !! "signal" = Some (VBool (Spec.entry_conditions self latest))
    /\ signal
       = Spec.entry_conditions self latest && negb (Qle_bool (max_usdt_per_trade self) 0)
    /\ (Spec.entry_conditions self latest = false ->
        details !! "entry_1" = Some (VLeg EntryLeg.zero)
        /\ details !! "entry_2" = Some (VLeg EntryLeg.zero)
        /\ details !! "reason"
           = Some (VFmt "Trade analysis not available: Failed: EMA alignment, RSI ("
                     (Row.rsi latest) "), Volume")).
Proof.
  intros Hlong Hlast. apply sufficient_data in Hlong.
  destruct (Spec.entry_conditions self latest) eqn:Hc.
  - destruct (Qlt_le_dec 0 (max_usdt_per_trade self)) as [Hmax|Hmax].
    + destruct (check_long_entry_met df latest Hlong Hlast Hc Hmax)
        as (d & l & E & _ & _ & _ & Hs).
      exists true, d, l. split; [exact E|]. split; [exact Hs|].
      apply Qle_bool_false in Hmax. rewrite Hmax. split; [reflexivity|discriminate].
    + destruct (check_long_entry_unfunded df latest Hlong Hlast Hc Hmax)
        as (d & l & E & _ & _ & _ & Hs).
      exists false, d, l. split; [exact E|]. split; [exact Hs|].
      apply Qle_bool_iff in Hmax. rewrite Hmax. split; [reflexivity|discriminate].
  - destruct (check_long_entry_failed df latest Hlong Hlast Hc)
      as (d & l & E & H1 & H2 & H3 & Hs).
    exists false, d, l. split; [exact E|]. split; [exact Hs|].
    split; [reflexivity|]. intros _. auto.
Qed.
End SignalCases.

(** ** The indicators *)

Section IndicatorSeries.

Import Indicators.

(** The smoothing factor of a span of at least 1 lies in (0, 1]. *)
Lemma span_alpha (span : Z) :
  (1 <= span)%Z ->
  0 < 2 / (inject_Z span + 1) /\ 2 / (inject_Z span + 1) <= 1.
Proof.
  intros Hs.
  assert (H1 : 1 <= inject_Z span).
  { change 1 with (inject_Z 1). rewrite <- Zle_Qle. exact Hs. }
  split.
  - apply Qlt_shift_div_l; lra.
  - apply Qle_shift_div_r; lra.
Qed.

Lemma ewm_from_length (alpha prev : Q) (xs : list Q) :
  length (ewm_from alpha prev xs) = length xs.
Proof.
  revert prev. induction xs as [|x xs IH]; intros prev; simpl; [reflexivity|].
  rewrite IH. reflexivity.
Qed.

Lemma ewm_from_ge (alpha prev lo : Q) (xs : list Q) :
  0 <= alpha -> alpha <= 1 -> lo <= prev ->
  Forall (λ x, lo <= x) xs ->
  Forall (λ y, lo <= y) (ewm_from alpha prev xs).
Proof.
  intros Ha0 Ha1. revert prev.
  induction xs as [|x xs IH]; intros prev Hp Hxs; simpl; [constructor|].
  apply Forall_cons in Hxs as [Hx Hxs].
  assert (Hy : lo <= (1 - alpha) * prev + alpha * x) by nra.
  constructor; [exact Hy|apply IH; assumption].
Qed.

Lemma ewm_from_le (alpha prev hi : Q) (xs : list Q) :
  0 <= alpha -> alpha <= 1 -> prev <= hi ->
  Forall (λ x, x <= hi) xs ->
  Forall (λ y, y <= hi) (ewm_from alpha prev xs).
Proof.
  intros Ha0 Ha1. revert prev.
  induction xs as [|x xs IH]; intros prev Hp Hxs; simpl; [constructor|].
  apply Forall_cons in Hxs as [Hx Hxs].
  assert (Hy : (1 - alpha) * prev + alpha * x <= hi) by nra.
  constructor; [exact Hy|apply IH; assumption].
Qed.

Lemma ewm_mean_done (data : list Q) (span : Z) :
  (1 <= span)%Z ->
  exists ys : list Q,
    ewm_mean data span = Done ys
    /\ length ys = length data
    /\ (forall lo : Q, Forall (λ x, lo <= x) data -> Forall (λ y, lo <= y) ys)
    /\ (forall hi : Q, Forall (λ x, x <= hi) data -> Forall (λ y, y <= hi) ys).
Proof.
  intros Hs. unfold ewm_mean.
  replace (span <? 1)%Z with false by (symmetry; apply Z.ltb_ge; exact Hs).
  destruct (span_alpha span Hs) as (Ha0 & Ha1). apply Qlt_le_weak in Ha0.
  eexists. split; [reflexivity|].
  destruct data as [|x0 rest]; simpl.
  - repeat split; auto.
  - split; [rewrite ewm_from_length; reflexivity|]. split.
    + intros lo H. apply Forall_cons in H as [H0 Hr].
      constructor; [exact H0|apply ewm_from_ge; assumption].
    + intros hi H. apply Forall_cons in H as [H0 Hr].
      constructor; [exact H0|apply ewm_from_le; assumption].
Qed.

(** X14. [calculate_ema] raises [ValueError] for a period below 1; for a
    period of at least 1 it returns a series as long as its input, starting
    at the first input value, and every average lies between any two
    bounds that enclose all the input values: the EMA never leaves the
    range of the prices. *)
Theorem calculate_ema_bounds (data : list Q) (period : Z) :
  ((period < 1)%Z -> calculate_ema data period = ValueError)
  /\ ((1 <= period)%Z ->
      exists ys : list Q,
        calculate_ema data period = Done ys
        /\ length ys = length data
        /\ head ys = head data
        /\ (forall lo hi : Q,
              Forall (λ x, lo <= x /\ x <= hi) data ->
              Forall (λ y, lo <= y /\ y <= hi) ys)).
Proof.
  split.
  - intros Hs. unfold calculate_ema, ewm_mean.
    replace (period <? 1)%Z with true by (symmetry; apply Z.ltb_lt; exact Hs).
    reflexivity.
  - intros Hs. destruct (ewm_mean_done data period Hs) as (ys & E & Hlen & Hlo & Hhi).
    exists ys. split; [exact E|]. split; [exact Hlen|]. split.
    + unfold ewm_mean in E.
      replace (period <? 1)%Z with false in E by (symmetry; apply Z.ltb_ge; exact Hs).
      injection E as <-. destruct data; reflexivity.
    + intros lo hi H.
      assert (H1 : Forall (λ x, lo <= x) data)
        by (eapply Forall_impl; [exact H|]; simpl; tauto).
      assert (H2 : Forall (λ x, x <= hi) data)
        by (eapply Forall_impl; [exact H|]; simpl; tauto).
      apply Forall_and. split; [apply Hlo|apply Hhi]; assumption.
Qed.

Lemma true_range_from_nonneg (prev : Q) (rows : list (Q * Q * Q)) :
  Forall (λ x, 0 <= x) (true_range_from prev rows).
Proof.
  revert prev. induction rows as [|[[h l] c] rows IH]; intros prev; simpl.
  - constructor.
  - constructor; [|apply IH].
    eapply Qle_trans; [apply (Qabs_nonneg (l - prev))|apply Q.le_max_r].
Qed.

(** X16. For a period of at least 1 and a first candle whose high is not
    below its low, [calculate_atr] returns one value per candle and none is
    negative, whatever the later candles hold. *)
Theorem calculate_atr_nonneg (rows : list (Q * Q * Q)) (period : Z) :
  (1 <= period)%Z ->
  match rows with
  | [] => True
  | (high, low, _) :: _ => low <= high
  end ->
  exists ys : list Q,
    calculate_atr rows period = Done ys
    /\ length ys = length rows
    /\ Forall (λ y, 0 <= y) ys.
Proof.
  intros Hs Hfirst. unfold calculate_atr.
  destruct (ewm_mean_done (true_range rows) period Hs) as (ys & E & Hlen & Hlo & _).
  exists ys. split; [exact E|]. split.
  - rewrite Hlen. destruct rows as [|[[h l] c] rows]; simpl; [reflexivity|].
    f_equal. clear. revert c. induction rows as [|[[h' l'] c'] rows IH]; intros c; simpl;
      [reflexivity|f_equal; apply IH].
  - apply Hlo. destruct rows as [|[[h l] c] rows]; simpl; [constructor|].
    constructor; [lra|apply true_range_from_nonneg].
Qed.

Lemma rsi_value_bounds (g l v : Q) :
  0 <= g -> 0 <= l -> rsi_value g l = Some v -> 0 <= v /\ v <= 100.
Proof.
  intros Hg Hl. unfold rsi_value.
  destruct (Qeq_bool l 0) eqn:El.
  - destruct (Qeq_bool g 0); [discriminate|]. intros H. injection H as <-.
    split; [discriminate|apply Qle_refl].
  - apply Qeq_bool_neq in El. intros H. injection H as <-.
    assert (Hlpos : 0 < l).
    { destruct (Qlt_le_dec 0 l) as [H|H]; [exact H|]. exfalso. apply El.
      apply Qle_antisym; assumption. }
    assert (Hrs : 0 <= g / l).
    { apply Qle_shift_div_l; [exact Hlpos|]. rewrite Qmult_0_l. exact Hg. }
    set (rs := g / l) in *.
    assert (H1 : 0 <= 100 / (1 + rs)).
    { apply Qle_shift_div_l; [lra|]. rewrite Qmult_0_l. discriminate. }
    assert (H2 : 100 / (1 + rs) <= 100).
    { apply Qle_shift_div_r; [lra|]. nra. }
    lra.
Qed.

Lemma zip_with_rsi_bounds (gs ls : list Q) :
  Forall (λ x, 0 <= x) gs -> Forall (λ x, 0 <= x) ls ->
  Forall (λ y, match y with Some v => 0 <= v /\ v <= 100 | None => True end)
    (zip_with rsi_value gs ls).
Proof.
  intros Hg. revert ls. induction Hg as [|g gs Hg0 Hg IH]; intros ls Hl; simpl;
    [constructor|].
  destruct Hl as [|l ls Hl0 Hl]; [constructor|].
  constructor; [|apply IH; exact Hl].
  destruct (rsi_value g l) as [v|] eqn:E; [|exact I].
  exact (rsi_value_bounds g l v Hg0 Hl0 E).
Qed.

Lemma gain_nonneg (delta : list (option Q)) :
  Forall (λ x, 0 <= x) (map (where_or_zero (λ d, Py.Qlt_bool 0 d)) delta).
Proof.
  apply Forall_fmap. apply Forall_true. intros [d|]; simpl; [|apply Qle_refl].
  destruct (Py.Qlt_bool 0 d) eqn:E; [|apply Qle_refl].
  apply Qlt_bool_true in E. apply Qlt_le_weak. exact E.
Qed.

Lemma loss_nonneg (delta : list (option Q)) :
  Forall (λ x, 0 <= x) (map (λ d, - where_or_zero (λ d, Py.Qlt_bool d 0) d) delta).
Proof.
  apply Forall_fmap. apply Forall_true. intros [d|]; simpl; [|discriminate].
  destruct (Py.Qlt_bool d 0) eqn:E; [|discriminate].
  apply Qlt_bool_true in E. lra.
Qed.

Lemma diff_length (data : list Q) : length (diff data) = length data.
Proof.
  destruct data as [|x0 rest]; simpl; [reflexivity|].
  f_equal. rewrite length_map. revert x0.
  induction rest as [|x rest IH]; intros x0; simpl; [reflexivity|f_equal; apply IH].
Qed.

(** X17. [calculate_rsi] raises [ValueError] for a period below 1; for a
    period of at least 1 it returns one entry per price, the first one NaN,
    and every defined entry lies between 0 and 100. *)
Theorem calculate_rsi_bounds (data : list Q) (period : Z) :
  ((period < 1)%Z -> calculate_rsi data period = ValueError)
  /\ ((1 <= period)%Z ->
      exists ys : list (option Q),
        calculate_rsi data period = Done ys
        /\ length ys = length data
        /\ (data <> [] -> head ys = Some None)
        /\ Forall (λ y, match y with Some v => 0 <= v /\ v <= 100 | None => True end)
             ys).
Proof.
  split.
  - intros Hs. unfold calculate_rsi, ewm_mean.
    replace (period <? 1)%Z with true by (symmetry; apply Z.ltb_lt; exact Hs).
    reflexivity.
  - intros Hs. unfold calculate_rsi.
    destruct (ewm_mean_done (map (where_or_zero (λ d, Py.Qlt_bool 0 d)) (diff data))
                period Hs) as (gs & Eg & Hgl & Hglo & _).
    destruct (ewm_mean_done
                (map (λ d, - where_or_zero (λ d, Py.Qlt_bool d 0) d) (diff data))
                period Hs) as (ls & El & Hll & Hllo & _).
    rewrite Eg, El. eexists. split; [reflexivity|]. split; [|split].
    + rewrite length_zip_with, Hgl, Hll, !length_map, diff_length. lia.
    + intros Hne. destruct data as [|x0 rest]; [contradiction|].
      unfold ewm_mean in Eg, El.
      replace (period <? 1)%Z with false in Eg, El
        by (symmetry; apply Z.ltb_ge; exact Hs).
      injection Eg as <-. injection El as <-. reflexivity.
    + apply zip_with_rsi_bounds; [apply Hglo, gain_nonneg|apply Hllo, loss_nonneg].
Qed.

Lemma series_sum_bounds (xs : list Q) (lo hi : Q) :
  Forall (λ x, lo <= x /\ x <= hi) xs ->
  inject_Z (Z.of_nat (length xs)) * lo <= series_sum xs
  /\ series_sum xs <= inject_Z (Z.of_nat (length xs)) * hi.
Proof.
  induction 1 as [|x xs [Hlo Hhi] _ IH]; simpl series_sum.
  - change (inject_Z (Z.of_nat (length (@nil Q)))) with 0. lra.
  - replace (Z.of_nat (length (x :: xs))) with (Z.of_nat (length xs) + 1)%Z
      by (simpl length; lia).
    rewrite inject_Z_plus. change (inject_Z 1) with 1. nra.
Qed.

(** X15. For a period of at least 1, [calculate_volume_ma] returns one entry
    per input: NaN for each of the first [period - 1] positions and, from
    then on, a mean that lies between any two bounds enclosing the input.
    The latest entry is defined exactly when the series has at least
    [period] values. *)
Theorem rolling_mean_warm_up (data : list Q) (period : Z) :
  (1 <= period)%Z ->
  exists ys : list (option Q),
    calculate_volume_ma data period = Done ys
    /\ length ys = length data
    /\ (forall i : nat,
          (i < length data)%nat ->
          if (Z.of_nat i + 1 <? period)%Z
          then ys !! i = Some None
          else exists m : Q,
                 ys !! i = Some (Some m)
                 /\ forall lo hi : Q,
                      Forall (λ x, lo <= x /\ x <= hi) data -> lo <= m /\ m <= hi)
    /\ (data <> [] ->
        (is_Some (mjoin (last ys)) <-> (period <= Z.of_nat (length data))%Z)).
Proof.
  intros Hp. unfold calculate_volume_ma, rolling_mean.
  replace (period <? 0)%Z with false by (symmetry; apply Z.ltb_ge; lia).
  eexists. split; [reflexivity|].
  set (w := Z.to_nat period).
  assert (Hw : (1 <= w)%nat) by (unfold w; lia).
  assert (Hwz : (w =? 0)%nat = false) by (apply Nat.eqb_neq; lia).
  assert (Hpoint : forall i : nat,
            (i < length data)%nat ->
            if (Z.of_nat i + 1 <? period)%Z
            then (if (w =? 0)%nat || (S i <? w)%nat then None
                  else Some (series_sum (take w (drop (S i - w) data)) / inject_Z period))
                 = None
            else exists m : Q,
                   (if (w =? 0)%nat || (S i <? w)%nat then None
                    else Some (series_sum (take w (drop (S i - w) data))
                               / inject_Z period))
                   = Some m
                   /\ forall lo hi : Q,
                        Forall (λ x, lo <= x /\ x <= hi) data -> lo <= m /\ m <= hi).
  { intros i Hi. rewrite Hwz. cbn [orb].
    destruct (Z.of_nat i + 1 <? period)%Z eqn:E.
    - apply Z.ltb_lt in E.
      replace (S i <? w)%nat with true by (symmetry; apply Nat.ltb_lt; unfold w; lia).
      reflexivity.
    - apply Z.ltb_ge in E.
      replace (S i <? w)%nat with false by (symmetry; apply Nat.ltb_ge; unfold w; lia).
      eexists. split; [reflexivity|]. intros lo hi Hall.
      assert (Hlen : length (take w (drop (S i - w) data)) = w).
      { rewrite length_take, length_drop. unfold w in *. lia. }
      assert (Hsub : Forall (λ x, lo <= x /\ x <= hi) (take w (drop (S i - w) data)))
        by (apply Forall_take, Forall_drop; exact Hall).
      destruct (series_sum_bounds _ lo hi Hsub) as (H1 & H2).
      rewrite Hlen in H1, H2.
      replace (Z.of_nat w) with period in H1, H2 by (unfold w; lia).
      assert (Hpq : 0 < inject_Z period).
      { change 0 with (inject_Z 0). rewrite <- Zlt_Qlt. lia. }
      split.
      + apply Qle_shift_div_l; [exact Hpq|]. lra.
      + apply Qle_shift_div_r; [exact Hpq|]. lra. }
  split; [rewrite length_map, length_seq; reflexivity|]. split.
  - intros i Hi. specialize (Hpoint i Hi).
    rewrite list_lookup_fmap, lookup_seq_lt by exact Hi. cbn [fmap option_fmap option_map].
    simpl plus.
    destruct (Z.of_nat i + 1 <? period)%Z.
    + rewrite Hpoint. reflexivity.
    + destruct Hpoint as (m & Hm & Hb). exists m. rewrite Hm. split; [reflexivity|exact Hb].
  - intros Hne.
    assert (Hlenpos : (0 < length data)%nat).
    { destruct data; [contradiction|simpl; lia]. }
    set (n := (length data - 1)%nat).
    rewrite last_lookup, length_map, length_seq, list_lookup_fmap.
    rewrite lookup_seq_lt by lia.
    change (0 + Nat.pred (length data))%nat with (Nat.pred (length data)).
    replace (Nat.pred (length data)) with n by (unfold n; lia).
    unfold fmap, option_fmap, option_map. cbv beta iota.
    specialize (Hpoint n ltac:(unfold n; lia)).
    destruct (Z.of_nat n + 1 <? period)%Z eqn:E.
    + rewrite Hpoint. apply Z.ltb_lt in E. split.
      * intros [x Hx]. discriminate Hx.
      * intros H. exfalso. unfold n in E. lia.
    + destruct Hpoint as (m & Hm & _). rewrite Hm. apply Z.ltb_ge in E. split.
      * intros _. unfold n in E. lia.
      * intros _. exists m. reflexivity.
Qed.
End IndicatorSeries.

(** The worked example signals: its latest candle passes the conditions. *)
Lemma check_long_entry_signal_sound_witness :
  exists latest : Row.t,
    last Examples.window = Some latest
    /\ Row.ema_short latest < Row.close latest
    /\ 0 < TradingStrategy.max_usdt_per_trade Examples.strategy.
Proof.
  destruct (check_long_entry_met Examples.strategy Examples.window Examples.candle
              eq_refl eq_refl eq_refl)
    as (details & log & Hcall & _); [q_compare|].
  destruct (check_long_entry_signal_sound Examples.strategy Examples.window details log
              Hcall)
    as (latest & Hlast & _ & Hema & _ & _ & _ & _ & _ & Hmax & _).
  exists latest. split; [exact Hlast|]. split; [exact Hema|exact Hmax].
Defined.

(** With the default periods the empty window is answered, not raised on. *)
Lemma check_long_entry_raises_witness :
  exists (signal : bool) (details : gmap string Value) (log : list LogLine),
    TradingStrategy.check_long_entry Examples.strategy [] = Py.Ok (signal, details, log).
Proof.
  apply (proj2 (proj2 (check_long_entry_raises Examples.strategy []))).
  reflexivity.
Defined.

(** The worked example with no allocation: the stored [signal] is true,
    the returned flag false. *)
Lemma check_long_entry_flag_witness :
  exists (details : gmap string Value) (log : list LogLine),
    TradingStrategy.check_long_entry Examples.strategy_no_allocation Examples.window
      = Py.Ok (false, details, log)
    /\ details !! "signal" = Some (VBool true).
Proof.
  destruct (check_long_entry_flag Examples.strategy_no_allocation Examples.window
              Examples.candle) as (signal & details & log & Hcall & Hsig & Hflag & _);
    try q_compare.
  exists details, log. split; [|exact Hsig].
  rewrite Hcall, Hflag. reflexivity.
Defined.

(** The worked example gives no short signal. *)
Lemma long_and_short_exclusive_witness :
  exists short_details : gmap string Value,
    TradingStrategy.check_short_entry Examples.strategy Examples.window
      = Py.Ok (false, short_details).
Proof.
  destruct (check_long_entry_met Examples.strategy Examples.window Examples.candle
              eq_refl eq_refl eq_refl)
    as (details & log & Hcall & _); [q_compare|].
  destruct (long_and_short_exclusive Examples.strategy Examples.window details log Hcall)
    as (short_details & Hshort & _).
  exists short_details. exact Hshort.
Defined.

(** The worked example gives no EMA exit for a long position. *)
Lemma entry_signal_is_not_an_exit_witness :
  TradingStrategy.check_exit_by_ema Examples.strategy Examples.window "long"
  = Py.Ok (false, "").
Proof.
  destruct (check_long_entry_met Examples.strategy Examples.window Examples.candle
              eq_refl eq_refl eq_refl)
    as (details & log & Hcall & _); [q_compare|].
  exact (entry_signal_is_not_an_exit Examples.strategy Examples.window details log Hcall).
Defined.

Lemma closes_in_range : Forall (λ x : Q, 100 <= x /\ x <= 106) Examples.closes.
Proof. repeat constructor; q_compare. Qed.

(** The 9-period EMA of the sample closes stays between 100 and 106. *)
Lemma calculate_ema_bounds_witness :
  exists ys : list Q,
    Indicators.calculate_ema Examples.closes 9 = Indicators.Done ys
    /\ Forall (λ y : Q, 100 <= y /\ y <= 106) ys.
Proof.
  destruct (proj2 (calculate_ema_bounds Examples.closes 9))
    as (ys & Hcall & _ & _ & Hbounds); [lia|].
  exists ys. split; [exact Hcall|]. apply Hbounds. exact closes_in_range.
Defined.

(** The 3-period volume average of the sample: NaN at position 1, defined
    at the latest position. *)
Lemma rolling_mean_warm_up_witness :
  exists ys : list (option Q),
    Indicators.calculate_volume_ma Examples.volumes 3 = Indicators.Done ys
    /\ ys !! 1%nat = Some None
    /\ is_Some (mjoin (last ys)).
Proof.
  destruct (rolling_mean_warm_up Examples.volumes 3)
    as (ys & Hcall & _ & Hpoint & Hlast); [lia|].
  exists ys. split; [exact Hcall|]. split.
  - apply (Hpoint 1%nat). simpl. lia.
  - apply Hlast; [discriminate|]. simpl. lia.
Defined.

(** The 14-period ATR of the sample candles. *)
Lemma calculate_atr_nonneg_witness :
  exists ys : list Q,
    Indicators.calculate_atr Examples.candles 14 = Indicators.Done ys
    /\ Forall (λ y : Q, 0 <= y) ys.
Proof.
  destruct (calculate_atr_nonneg Examples.candles 14)
    as (ys & Hcall & _ & Hpos); [lia|q_compare|].
  exists ys. split; [exact Hcall|exact Hpos].
Defined.

(** The 14-period RSI of the sample closes starts with NaN. *)
Lemma calculate_rsi_bounds_witness :
  exists ys : list (option Q),
    Indicators.calculate_rsi Examples.closes 14 = Indicators.Done ys
    /\ head ys = Some None.
Proof.
  destruct (proj2 (calculate_rsi_bounds Examples.closes 14))
    as (ys & Hcall & _ & Hhead & _); [lia|].
  exists ys. split; [exact Hcall|]. apply Hhead. discriminate.
Defined.

(** ** The entry plan *)

Section EntryPlan.

Import TradingStrategy.

Variable self : TradingStrategy.t.

(** What a returned [True] tells about the window and the details. *)
Lemma check_long_entry_signalled (df : DataFrame) (details : gmap string Value)
    (log : list LogLine) :
  check_long_entry self df = Py.Ok (true, details, log) ->
  exists latest : Row.t,
    insufficient_data self df = false
    /\ last df = Some latest
    /\ Spec.entry_conditions self latest = true
    /\ 0 < max_usdt_per_trade self
    /\ details !! "entry_1"
       = Some (VLeg (Spec.entry_leg self latest (Row.ema_short latest)
                       (default 30 (entry_1_percent self) / 100) (tp1_rr self)))
    /\ details !! "entry_2"
       = Some (VLeg (Spec.entry_leg self latest (Row.ema_long latest)
                       (default 70 (entry_2_percent self) / 100) (tp2_rr self))).
Proof.
  intros Hcall.
  destruct (insufficient_data self df) eqn:Hins.
  { unfold check_long_entry in Hcall. rewrite Hins in Hcall. discriminate Hcall. }
  destruct (last df) as [latest|] eqn:Hlast.
  2:{ unfold check_long_entry, iloc_last in Hcall.
      rewrite Hins, Hlast in Hcall. discriminate Hcall. }
  destruct (Spec.entry_conditions self latest) eqn:Hc.
  2:{ destruct (check_long_entry_failed self df latest Hins Hlast Hc) as (d & l & E & _).
      rewrite E in Hcall. discriminate Hcall. }
  destruct (Qlt_le_dec 0 (max_usdt_per_trade self)) as [Hmax|Hmax].
  2:{ destruct (check_long_entry_unfunded self df latest Hins Hlast Hc Hmax)
        as (d & l & E & _).
      rewrite E in Hcall. discriminate Hcall. }
  destruct (check_long_entry_met self df latest Hins Hlast Hc Hmax)
    as (d & l & E & H1 & H2 & _).
  rewrite E in Hcall. apply Ok_inj in Hcall.
  assert (Hd : d = details) by congruence. subst d.
  exists latest. repeat split; assumption || reflexivity.
Qed.

(** The cost of a leg priced below the close is at most its share of the
    allocation. *)
Lemma leg_cost (allocation close price fraction : Q) :
  0 < allocation -> 0 < close -> price <= close -> 0 <= fraction ->
  0 <= allocation / close * fraction
  /\ price * (allocation / close * fraction) <= allocation * fraction.
Proof.
  intros Ha Hc Hp Hf.
  assert (Hm : 0 < allocation / close).
  { apply Qlt_shift_div_l; [exact Hc|]. lra. }
  assert (Hs : 0 <= allocation / close * fraction).
  { apply Qmult_le_0_compat; [apply Qlt_le_weak; exact Hm|exact Hf]. }
  split; [exact Hs|].
  assert (E : allocation * fraction == close * (allocation / close * fraction)).
  { field. intros Hz. rewrite Hz in Hc. exact (Qlt_irrefl _ Hc). }
  rewrite E. apply Qmult_le_compat_r; assumption.
Qed.

(** X18. The plan of a signalled entry is ordered: the second leg is priced
    strictly below the first and the first strictly below the close, both
    carry the same stop, and with a non-negative ATR and stop multiplier the
    stop is at or below the lower leg and each take-profit at or above its
    leg's price.  With a positive close and non-negative percentages that
    sum to at most 100, both sizes are non-negative and the two legs
    together cost at most [max_usdt_per_trade]. *)
Theorem entry_plan_order (df : DataFrame) (details : gmap string Value)
    (log : list LogLine) :
  check_long_entry self df = Py.Ok (true, details, log) ->
  exists (latest : Row.t) (entry_1 entry_2 : EntryLeg.t),
    last df = Some latest
    /\ details !! "entry_1" = Some (VLeg entry_1)
    /\ details !! "entry_2" = Some (VLeg entry_2)
    /\ EntryLeg.price entry_2 < EntryLeg.price entry_1
    /\ EntryLeg.price entry_1 < Row.close latest
    /\ EntryLeg.stop_loss entry_1 = EntryLeg.stop_loss entry_2
    /\ (0 <= Row.atr latest -> 0 <= sl_atr_multiplier self ->
        EntryLeg.stop_loss entry_2 <= EntryLeg.price entry_2
        /\ (0 <= tp1_rr self -> EntryLeg.price entry_1 <= EntryLeg.take_profit entry_1)
        /\ (0 <= tp2_rr self -> EntryLeg.price entry_2 <= EntryLeg.take_profit entry_2))
    /\ (0 < Row.close latest ->
        0 <= default 30 (entry_1_percent self) ->
        0 <= default 70 (entry_2_percent self) ->
        default 30 (entry_1_percent self) + default 70 (entry_2_percent self) <= 100 ->
        0 <= EntryLeg.position_size entry_1
        /\ 0 <= EntryLeg.position_size entry_2
        /\ EntryLeg.price entry_1 * EntryLeg.position_size entry_1
           + EntryLeg.price entry_2 * EntryLeg.position_size entry_2
           <= max_usdt_per_trade self).
Proof.
  intros Hcall.
  destruct (check_long_entry_signalled df details log Hcall)
    as (latest & _ & Hlast & Hc & Hmax & H1 & H2).
  destruct (entry_conditions_true self latest Hc) as (Hps & Hsl & _).
  eexists latest, _, _. split; [exact Hlast|]. split; [exact H1|]. split; [exact H2|].
  unfold Spec.entry_leg, Spec.shared_stop.
  cbn [EntryLeg.price EntryLeg.position_size EntryLeg.stop_loss EntryLeg.take_profit].
  split; [exact Hsl|]. split; [exact Hps|]. split; [reflexivity|].
  split.
  - intros Hatr Hmult.
    pose proof (Qmult_le_0_compat _ _ Hatr Hmult) as Hd.
    split; [lra|]. split; intros Hrr.
    + assert (0 <= (Row.ema_short latest
                    - (Row.ema_long latest - Row.atr latest * sl_atr_multiplier self))
                   * tp1_rr self) by (apply Qmult_le_0_compat; lra).
      lra.
    + assert (0 <= (Row.ema_long latest
                    - (Row.ema_long latest - Row.atr latest * sl_atr_multiplier self))
                   * tp2_rr self) by (apply Qmult_le_0_compat; lra).
      lra.
  - intros Hclose Hp1 Hp2 Hsum.
    destruct (leg_cost (max_usdt_per_trade self) (Row.close latest) (Row.ema_short latest)
                (default 30 (entry_1_percent self) / 100) Hmax Hclose)
      as (Hs1 & Hc1); [lra|apply Qle_shift_div_l; lra|].
    destruct (leg_cost (max_usdt_per_trade self) (Row.close latest) (Row.ema_long latest)
                (default 70 (entry_2_percent self) / 100) Hmax Hclose)
      as (Hs2 & Hc2); [lra|apply Qle_shift_div_l; lra|].
    split; [exact Hs1|]. split; [exact Hs2|].
    assert (Hf : default 30 (entry_1_percent self) / 100
                 + default 70 (entry_2_percent self) / 100 <= 1).
    { assert (E : default 30 (entry_1_percent self) / 100
                  + default 70 (entry_2_percent self) / 100
                  == (default 30 (entry_1_percent self)
                      + default 70 (entry_2_percent self)) / 100) by field.
      rewrite E. apply Qle_shift_div_r; lra. }
    set (f1 := default 30 (entry_1_percent self) / 100) in *.
    set (f2 := default 70 (entry_2_percent self) / 100) in *.
    assert (max_usdt_per_trade self * (f1 + f2) <= max_usdt_per_trade self * 1).
    { rewrite !(Qmult_comm (max_usdt_per_trade self)).
      apply Qmult_le_compat_r; lra. }
    lra.
Qed.

End EntryPlan.

(** The worked example: legs at 148 and 145 below the close 150, costing
    at most the allocation of 1000. *)
Lemma entry_plan_order_witness :
  exists (latest : Row.t) (entry_1 entry_2 : EntryLeg.t),
    last Examples.window = Some latest
    /\ EntryLeg.price entry_2 < EntryLeg.price entry_1
    /\ EntryLeg.price entry_1 * EntryLeg.position_size entry_1
       + EntryLeg.price entry_2 * EntryLeg.position_size entry_2
       <= TradingStrategy.max_usdt_per_trade Examples.strategy.
Proof.
  destruct (check_long_entry_met Examples.strategy Examples.window Examples.candle
              eq_refl eq_refl eq_refl)
    as (details & log & Hcall & _); [q_compare|].
  destruct (entry_plan_order Examples.strategy Examples.window details log Hcall)
    as (latest & e1 & e2 & Hlast & _ & _ & Hord & _ & _ & _ & Hcost).
  exists latest, e1, e2. split; [exact Hlast|]. split; [exact Hord|].
  assert (Hl : latest = Examples.candle).
  { change (last Examples.window) with (Some Examples.candle) in Hlast. congruence. }
  subst latest.
  apply Hcost; q_compare.
Defined.

(** ** The status report *)

Section StrategyStatus.

Import TradingStrategy.

Variable self : TradingStrategy.t.

(** On a non-empty window [check_long_entry] returns, and a returned
    [True] comes with both legs. *)
Lemma check_long_entry_nonempty (df : DataFrame) :
  df <> [] ->
  exists (signal : bool) (details : gmap string Value) (log : list LogLine),
    check_long_entry self df = Py.Ok (signal, details, log)
    /\ (signal = true ->
        is_Some (details !! "entry_1") /\ is_Some (details !! "entry_2")).
Proof.
  intros Hne.
  destruct (insufficient_data self df) eqn:Hins.
  { unfold check_long_entry. rewrite Hins. eexists false, _, _.
    split; [reflexivity|discriminate]. }
  destruct (last df) as [latest|] eqn:Hlast.
  2:{ apply last_None in Hlast. contradiction. }
  destruct (Spec.entry_conditions self latest) eqn:Hc.
  - destruct (Qlt_le_dec 0 (max_usdt_per_trade self)) as [Hmax|Hmax].
    + destruct (check_long_entry_met self df latest Hins Hlast Hc Hmax)
        as (d & l & E & H1 & H2 & _).
      exists true, d, l. split; [exact E|]. intros _. rewrite H1, H2. split; eexists; reflexivity.
    + destruct (check_long_entry_unfunded self df latest Hins Hlast Hc Hmax)
        as (d & l & E & _).
      exists false, d, l. split; [exact E|discriminate].
  - destruct (check_long_entry_failed self df latest Hins Hlast Hc) as (d & l & E & _).
    exists false, d, l. split; [exact E|discriminate].
Qed.

Lemma get_latest_indicators_keys (df : list Candle.t) (latest : Candle.t) :
  last df = Some latest ->
  Indicators.get_latest_indicators df !! "price" = Some (Row.close (Candle.row latest))
  /\ Indicators.get_latest_indicators df !! "ema_short"
     = Some (Row.ema_short (Candle.row latest)).
Proof.
  intros Hlast. unfold Indicators.get_latest_indicators. rewrite Hlast.
  split; by simplify_map_eq.
Qed.

(** Settles the equivalences between a key being present and a flag. *)
Ltac report_cases :=
  repeat split; intros; try reflexivity; try (eexists; reflexivity);
  try match goal with
      | H : is_Some None |- _ => destruct H as [? H]; discriminate H
      | H : false = true |- _ => discriminate H
      | H : _ /\ _ |- _ => destruct H; discriminate
      end.

(** X19. On a non-empty table [get_strategy_status] returns a report
    without the [error] key, whose [long_signal] is the flag of
    [check_long_entry]; the report has the keys [entry_1] and [entry_2]
    exactly when that flag is [True] (the placeholder legs of a failed
    check are never reported), [live_price] and [price_change_pct] exactly
    when the live price is true as Python sees it (a live price of 0 counts
    as none), and [entry_zone_status] exactly when both hold. *)
Theorem get_strategy_status_entries (df : list Candle.t) (live_price : option Q) :
  df <> [] ->
  exists (signal : bool) (details : gmap string Value)
         (status : gmap string StatusValue) (log : list LogLine),
    check_long_entry self (map Candle.row df) = Py.Ok (signal, details, log)
    /\ get_strategy_status self df live_price = Py.Ok (status, log)
    /\ status !! "error" = None
    /\ status !! "long_signal" = Some (SVal (VBool signal))
    /\ status !! "long_details" = Some (SDetails details)
    /\ (is_Some (status !! "entry_1") <-> signal = true)
    /\ (is_Some (status !! "entry_2") <-> signal = true)
    /\ (is_Some (status !! "live_price") <-> Py.truthy live_price = true)
    /\ (is_Some (status !! "price_change_pct") <-> Py.truthy live_price = true)
    /\ (is_Some (status !! "entry_zone_status")
        <-> signal = true /\ Py.truthy live_price = true).
Proof.
  intros Hne.
  assert (Hrows : map Candle.row df <> []).
  { destruct df; [contradiction|discriminate]. }
  destruct (check_long_entry_nonempty (map Candle.row df) Hrows)
    as (signal & details & log & Hcall & Hlegs).
  destruct (last df) as [latest|] eqn:Hlast.
  2:{ apply last_None in Hlast. contradiction. }
  destruct (get_latest_indicators_keys df latest Hlast) as (Hprice & Hema).
  exists signal, details. unfold get_strategy_status.
  replace (length df =? 0)%nat with false
    by (destruct df; [contradiction|reflexivity]).
  rewrite Hcall, Hlast. cbn [Py.bind]. unfold Dict.getitem. rewrite Hprice, Hema.
  destruct signal.
  - destruct (Hlegs eq_refl) as ([e1 He1] & [e2 He2]). rewrite He1, He2.
    cbn [andb bool_decide]. rewrite !bool_decide_eq_true_2 by (eexists; reflexivity).
    destruct live_price as [live|]; [destruct (Py.truthy (Some live)) eqn:Ht|];
      cbn [Py.bind]; eexists _, _; (split; [reflexivity|]); (split; [reflexivity|]);
      simplify_map_eq; report_cases.
  - cbn [andb].
    destruct live_price as [live|]; [destruct (Py.truthy (Some live)) eqn:Ht|];
      cbn [Py.bind]; eexists _, _; (split; [reflexivity|]); (split; [reflexivity|]);
      simplify_map_eq; report_cases.
Qed.

End StrategyStatus.

(** The worked example polled with a live price of 0: the legs are
    reported, the live price is not. *)
Lemma get_strategy_status_entries_witness :
  exists (status : gmap string StatusValue) (log : list LogLine),
    TradingStrategy.get_strategy_status Examples.strategy Examples.table (Some 0)
    = Py.Ok (status, log)
    /\ is_Some (status !! "entry_1")
    /\ status !! "live_price" = None.
Proof.
  destruct (get_strategy_status_entries Examples.strategy Examples.table (Some 0))
    as (signal & details & status & log & Hcall & Hstatus & _ & _ & _ & H1 & _ & Hlive & _).
  { intros H. discriminate H. }
  exists status, log. split; [exact Hstatus|].
  destruct (check_long_entry_met Examples.strategy Examples.window Examples.candle
              eq_refl eq_refl eq_refl)
    as (d & l & Hmet & _); [q_compare|].
  change (map Candle.row Examples.table) with Examples.window in Hcall.
  assert (Hs : signal = true) by congruence.
  split; [apply H1; exact Hs|].
  destruct (status !! "live_price") as [v|]; [|reflexivity].
  assert (Hf : Py.truthy (Some 0) = true) by (apply Hlive; eexists; reflexivity).
  discriminate Hf.
Defined.

(** ** The bot: entering, managing and closing a position *)

Section Bot.

Import TradingBot.

Variable update_equity : TradingBot.t -> TradingBot.t.
Variable execute_entry : TradingBot.t -> string -> gmap string Value -> TradingBot.t.

(** A take-profit action comes with its percentage already zeroed. *)
Lemma update_position_action_percent (rm : RiskManager.t) (p : Position.t) (price atr : Q) :
  let p' := fst (RiskManager.update_position rm p price atr) in
  let a := snd (RiskManager.update_position rm p price atr) in
  (a = Some "tp1" -> Position.tp1_percent p' = 0)
  /\ (a = Some "tp2" -> Position.tp2_percent p' = 0).
Proof.
  cbv zeta. unfold RiskManager.update_position.
  destruct (RiskManager.check_stop_loss_hit price (Position.stop_loss p) (Position.side p)).
  { simpl. split; intros H; discriminate H. }
  destruct (check_tp1_cases p price (Position.side p) None) as [E1|[A1 E1]];
    rewrite E1; clear E1;
    match goal with
    | |- context [RiskManager.check_tp2 ?q price ?s ?a] =>
        destruct (check_tp2_cases q price s a) as [E2|[A2 E2]]; rewrite E2; clear E2
    end;
    match goal with
    | |- context [RiskManager.update_trailing rm ?q price atr ?s ?a] =>
        destruct (update_trailing_frame rm q price atr s a)
          as (_ & _ & _ & Hp1 & _ & Hp2);
        rewrite Hp1, Hp2;
        try (rewrite (update_trailing_keeps_action rm q price atr s))
    end;
    simpl; split; intros H; try reflexivity; try discriminate H;
    exfalso; revert H; unfold RiskManager.update_trailing;
    repeat match goal with
           | |- context [if ?b then _ else _] => destruct b
           end; simpl; discriminate.
Qed.

(** X22. When [update_position] answers "tp1", [manage_position] stores the
    updated position and logs one partial exit at the latest close, whose
    size is computed from the updated position, where [tp1_percent] is
    already 0: the logged size is 0 whatever was released. *)
Theorem manage_position_logs_zero_partial_exit (self : TradingBot.t)
    (df : TradingStrategy.DataFrame) (position : Position.t) (latest : Row.t) :
  current_position self = Some position ->
  last df = Some latest ->
  snd (RiskManager.update_position (risk_manager self) position (Row.close latest)
         (Row.atr latest)) = Some "tp1" ->
  exists size : Q,
    journal (manage_position self df)
    = (journal self
       ++ [LogPartialExit (Position.side position) (Row.close latest) size "TP1"])%list
    /\ size == 0
    /\ current_position (manage_position self df)
       = Some (fst (RiskManager.update_position (risk_manager self) position
                      (Row.close latest) (Row.atr latest))).
Proof.
  intros Hpos Hlast Hact. unfold manage_position. rewrite Hpos, Hlast.
  destruct (update_position_action_percent (risk_manager self) position
              (Row.close latest) (Row.atr latest)) as (Hpct & _).
  destruct (update_position_step (risk_manager self) position (Row.close latest)
              (Row.atr latest)) as (Hside & _).
  cbv zeta in Hpct, Hside. specialize (Hpct Hact).
  destruct (RiskManager.update_position (risk_manager self) position (Row.close latest)
              (Row.atr latest)) as [updated action].
  simpl in *. subst action. simpl.
  eexists. split; [rewrite Hside; reflexivity|]. split; [|reflexivity].
  rewrite Hpct. unfold Qdiv. ring.
Qed.

(** Closing a position without [risk_amount] only logs the [KeyError]. *)
Lemma close_position_unfunded (self : TradingBot.t) (reason : string) (exit_price : Q)
    (position : Position.t) :
  current_position self = Some position ->
  Position.risk_amount position = None ->
  close_position self reason exit_price
  = log (LogException (CaughtPy (Py.KeyError "risk_amount")) "close_position") self.
Proof.
  intros Hpos Hrisk. unfold close_position, RiskManager.calculate_pnl.
  rewrite Hpos, Hrisk. reflexivity.
Qed.

Lemma manage_position_keeps_unfunded (self : TradingBot.t)
    (df : TradingStrategy.DataFrame) (position : Position.t) :
  current_position self = Some position ->
  Position.risk_amount position = None ->
  exists position' : Position.t,
    current_position (manage_position self df) = Some position'
    /\ Position.risk_amount position' = None
    /\ trade_history (manage_position self df) = trade_history self
    /\ dry_run (manage_position self df) = dry_run self.
Proof.
  intros Hpos Hrisk. unfold manage_position. rewrite Hpos.
  destruct (last df) as [latest|]; [|exists position; auto].
  destruct (update_position_step (risk_manager self) position (Row.close latest)
              (Row.atr latest)) as (_ & _ & Hr & _). cbv zeta in Hr.
  destruct (RiskManager.update_position (risk_manager self) position (Row.close latest)
              (Row.atr latest)) as [updated action].
  simpl in Hr. rewrite Hrisk in Hr.
  exists updated.
  destruct action as [action|]; [|simpl; auto].
  repeat match goal with
         | |- context [if String.eqb action ?s then _ else _] =>
             destruct (String.eqb action s)
         end;
    try (rewrite (close_position_unfunded (set_current_position (Some updated) self)
                    _ _ updated eq_refl Hr));
    simpl; auto.
Qed.

Lemma run_once_keeps_unfunded (self : TradingBot.t)
    (fetched : option TradingStrategy.DataFrame) (live_price : option Q)
    (position : Position.t) :
  dry_run self = true ->
  current_position self = Some position ->
  Position.risk_amount position = None ->
  exists position' : Position.t,
    current_position (run_once update_equity execute_entry self fetched live_price)
    = Some position'
    /\ Position.risk_amount position' = None
    /\ trade_history (run_once update_equity execute_entry self fetched live_price)
       = trade_history self
    /\ dry_run (run_once update_equity execute_entry self fetched live_price) = true.
Proof.
  intros Hdry Hpos Hrisk. unfold run_once.
  destruct fetched as [df|]; [|exists position; auto].
  destruct (TradingStrategy.iloc_last df); [|exists position; simpl; auto].
  rewrite Hdry. cbn [negb]. rewrite Hpos.
  destruct (manage_position_keeps_unfunded self df position Hpos Hrisk)
    as (p' & Hp' & Hr' & Hh' & Hd').
  exists p'. rewrite Hd'. auto.
Qed.

(** X21. A dry-run bot never closes the position [simulate_entry] opened:
    the position lacks the key [risk_amount], so every [close_position]
    ends in the logged [KeyError] of [calculate_pnl].  After any number of
    cycles, whatever the candles and live prices, the bot still holds a
    position and [trade_history] has not grown. *)
Theorem simulated_position_is_never_closed (self : TradingBot.t) (side : string)
    (details : gmap string Value) (entry_1 entry_2 : EntryLeg.t)
    (cycles : list (option TradingStrategy.DataFrame * option Q)) :
  dry_run self = true ->
  details !! "entry_1" = Some (VLeg entry_1) ->
  details !! "entry_2" = Some (VLeg entry_2) ->
  is_Some (current_position
             (start update_equity execute_entry (simulate_entry self side details) cycles))
  /\ trade_history
       (start update_equity execute_entry (simulate_entry self side details) cycles)
     = trade_history self.
Proof.
  intros Hdry H1 H2.
  assert (Hstart : exists p : Position.t,
            current_position (simulate_entry self side details) = Some p
            /\ Position.risk_amount p = None
            /\ trade_history (simulate_entry self side details) = trade_history self
            /\ dry_run (simulate_entry self side details) = true).
  { unfold simulate_entry. rewrite H1, H2.
    destruct (Py.Qlt_bool 0 (EntryLeg.position_size entry_1
                             + EntryLeg.position_size entry_2));
      eexists; simpl; auto. }
  destruct Hstart as (p & Hp & Hr & Hh & Hd). rewrite <- Hh.
  clear Hh H1 H2 Hdry.
  remember (simulate_entry self side details) as bot eqn:Hbot. clear Hbot.
  revert bot p Hp Hr Hd.
  induction cycles as [|[fetched live_price] rest IH]; intros bot p Hp Hr Hd; simpl.
  - split; [rewrite Hp; eexists; reflexivity|reflexivity].
  - destruct (run_once_keeps_unfunded bot fetched live_price p Hd Hp Hr)
      as (p' & Hp' & Hr' & Hh' & Hd').
    destruct (IH _ p' Hp' Hr' Hd') as (Hs & Hh'').
    split; [exact Hs|]. rewrite Hh''. exact Hh'.
Qed.

(** A weighted mean lies between the values it averages. *)
Lemma weighted_mean_between (a b wa wb : Q) :
  0 <= wa -> 0 <= wb -> 0 < wa + wb ->
  Qmin a b <= (a * wa + b * wb) / (wa + wb)
  /\ (a * wa + b * wb) / (wa + wb) <= Qmax a b.
Proof.
  intros Ha Hb Hw.
  pose proof (Q.le_min_l a b). pose proof (Q.le_min_r a b).
  pose proof (Q.le_max_l a b). pose proof (Q.le_max_r a b).
  split.
  - apply Qle_shift_div_l; [exact Hw|]. nra.
  - apply Qle_shift_div_r; [exact Hw|]. nra.
Qed.

(** X20. The position [simulate_entry] builds from two legs with
    non-negative sizes, one of them positive: its size and remaining size
    are the sum of the leg sizes, its entry price and its only target lie
    between the two legs' prices and targets, its stop is the legs' stop
    when they share one, and no second target and no trailing stop are set
    -- so no later cycle answers "tp2". *)
Theorem simulate_entry_position (self : TradingBot.t) (side : string)
    (details : gmap string Value) (entry_1 entry_2 : EntryLeg.t) :
  details !! "entry_1" = Some (VLeg entry_1) ->
  details !! "entry_2" = Some (VLeg entry_2) ->
  0 <= EntryLeg.position_size entry_1 ->
  0 <= EntryLeg.position_size entry_2 ->
  0 < EntryLeg.position_size entry_1 + EntryLeg.position_size entry_2 ->
  exists p : Position.t,
    current_position (simulate_entry self side details) = Some p
    /\ Position.side p = side
    /\ Position.position_size p
       = EntryLeg.position_size entry_1 + EntryLeg.position_size entry_2
    /\ Position.remaining_size p = Position.position_size p
    /\ Position.trailing_stop p = None
    /\ Position.tp1_percent p = tp1_percent self
    /\ Qmin (EntryLeg.price entry_1) (EntryLeg.price entry_2) <= Position.entry_price p
    /\ Position.entry_price p <= Qmax (EntryLeg.price entry_1) (EntryLeg.price entry_2)
    /\ (EntryLeg.stop_loss entry_1 == EntryLeg.stop_loss entry_2 ->
        Position.stop_loss p == EntryLeg.stop_loss entry_1)
    /\ (exists level : Q,
          Position.tp1 p = Some level
          /\ Qmin (EntryLeg.take_profit entry_1) (EntryLeg.take_profit entry_2) <= level
          /\ level <= Qmax (EntryLeg.take_profit entry_1) (EntryLeg.take_profit entry_2))
    /\ Position.tp2 p = None
    /\ (forall (rm : RiskManager.t) (inputs : list (Q * Q)),
          Some "tp2" ∉ RiskManager.run_actions rm p inputs).
Proof.
  intros H1 H2 Hs1 Hs2 Htotal. unfold simulate_entry. rewrite H1, H2.
  apply Qlt_bool_true in Htotal as Hb. rewrite Hb.
  eexists. split; [reflexivity|].
  cbn [Position.side Position.position_size Position.remaining_size
       Position.trailing_stop Position.tp1_percent Position.entry_price
       Position.stop_loss Position.tp1 Position.tp2].
  destruct (weighted_mean_between (EntryLeg.price entry_1) (EntryLeg.price entry_2)
              _ _ Hs1 Hs2 Htotal) as (Hlo & Hhi).
  destruct (weighted_mean_between (EntryLeg.take_profit entry_1)
              (EntryLeg.take_profit entry_2) _ _ Hs1 Hs2 Htotal) as (Htlo & Hthi).
  repeat (split; [first [reflexivity | assumption]|]).
  split.
  { intros Heq. rewrite Heq. field. intros Hz. rewrite Hz in Htotal.
    exact (Qlt_irrefl _ Htotal). }
  split; [eexists; split; [reflexivity|split; assumption]|].
  split; [reflexivity|].
  intros rm inputs. apply run_actions_disarmed_tp2. reflexivity.
Qed.

(** On a window that covers the warm-up the details carry the close. *)
Lemma check_long_entry_price (strategy : TradingStrategy.t)
    (df : TradingStrategy.DataFrame) (latest : Row.t) :
  TradingStrategy.insufficient_data strategy df = false ->
  last df = Some latest ->
  exists (signal : bool) (details : gmap string Value) (log : list LogLine),
    TradingStrategy.check_long_entry strategy df = Py.Ok (signal, details, log)
    /\ details !! "price" = Some (VNum (Row.close latest)).
Proof.
  intros Hins Hlast.
  unfold TradingStrategy.check_long_entry, TradingStrategy.iloc_last.
  rewrite Hins, Hlast. cbn [Py.bind]. cbv zeta.
  repeat match goal with
         | |- context [if ?b then _ else _] => destruct b
         | |- context [let '(_, _) := ?b in _] => destruct b
         end;
    eexists _, _, _; (split; [reflexivity|]); by simplify_map_eq.
Qed.

(** X23. [check_entry_signal] without a signal.  On a window shorter than
    the warm-up the details hold only the reason, and printing
    [details['price']] raises [KeyError]: the call raises, and a dry-run
    cycle on such a (non-empty) table only logs that exception from
    [run_once].  On a window that covers the warm-up a [False] signal
    leaves the bot as it was. *)
Theorem check_entry_signal_no_signal (self : TradingBot.t)
    (df : TradingStrategy.DataFrame) (live : Q) :
  current_position self = None ->
  (TradingStrategy.insufficient_data (strategy self) df = true ->
   check_entry_signal execute_entry self df (Some live)
   = Py.Raise (Py.KeyError "price")
   /\ (dry_run self = true -> df <> [] ->
       run_once update_equity execute_entry self (Some df) (Some live)
       = log (LogException (CaughtPy (Py.KeyError "price")) "run_once") self))
  /\ (TradingStrategy.insufficient_data (strategy self) df = false ->
      forall (details : gmap string Value) (log : list LogLine),
        TradingStrategy.check_long_entry (strategy self) df = Py.Ok (false, details, log) ->
        check_entry_signal execute_entry self df (Some live) = Py.Ok self).
Proof.
  intros Hpos. split.
  - intros Hins.
    assert (Hraise : check_entry_signal execute_entry self df (Some live)
                     = Py.Raise (Py.KeyError "price")).
    { unfold check_entry_signal, TradingStrategy.check_long_entry.
      rewrite Hpos, Hins. reflexivity. }
    split; [exact Hraise|]. intros Hdry Hne. unfold run_once.
    destruct (last df) as [latest|] eqn:Hlast.
    2:{ apply last_None in Hlast. contradiction. }
    unfold TradingStrategy.iloc_last. rewrite Hlast, Hdry. cbn [negb].
    rewrite Hpos, Hraise. reflexivity.
  - intros Hins details log Hcall.
    destruct (last df) as [latest|] eqn:Hlast.
    2:{ unfold TradingStrategy.check_long_entry, TradingStrategy.iloc_last in Hcall.
        rewrite Hins, Hlast in Hcall. discriminate Hcall. }
    destruct (check_long_entry_price (strategy self) df latest Hins Hlast)
      as (s & d & l & E & Hprice).
    rewrite E in Hcall. apply Ok_inj in Hcall.
    assert (Hd : d = details) by congruence. subst d.
    assert (Hs : s = false) by congruence. subst s.
    unfold check_entry_signal. rewrite Hpos, E. cbn [Py.bind].
    unfold Dict.getitem. rewrite Hprice. reflexivity.
Qed.

(** The refinement returns, and keeps the two legs. *)
Lemma recalculate_keeps_legs (strategy : TradingStrategy.t)
    (df : TradingStrategy.DataFrame) (latest : Row.t) (details : gmap string Value)
    (live_price : Q) :
  last df = Some latest ->
  exists details' : gmap string Value,
    TradingStrategy.recalculate_with_live_price strategy df details live_price
    = Py.Ok details'
    /\ details' !! "entry_1" = details !! "entry_1"
    /\ details' !! "entry_2" = details !! "entry_2".
Proof.
  intros Hlast.
  unfold TradingStrategy.recalculate_with_live_price, TradingStrategy.iloc_last.
  rewrite Hlast. cbn [Py.bind]. cbv zeta.
  eexists. split; [reflexivity|].
  split;
    repeat first
      [ rewrite lookup_insert_ne by discriminate
      | match goal with
        | |- context [if ?b then _ else _] => destruct b
        end ];
    reflexivity.
Qed.

(** The position after [simulate_entry] depends on the legs, the side,
    the configured [tp1_percent] and the position held before only. *)
Lemma simulate_entry_by_legs (self self' : TradingBot.t) (side : string)
    (details details' : gmap string Value) :
  tp1_percent self = tp1_percent self' ->
  current_position self = current_position self' ->
  details !! "entry_1" = details' !! "entry_1" ->
  details !! "entry_2" = details' !! "entry_2" ->
  current_position (simulate_entry self side details)
  = current_position (simulate_entry self' side details').
Proof.
  intros Ht Hp H1 H2. unfold simulate_entry. rewrite H1, H2.
  destruct (details' !! "entry_1") as [v1|], (details' !! "entry_2") as [v2|];
    try exact Hp.
  destruct v1, v2; try exact Hp.
  match goal with
  | |- context [if ?b then _ else _] => destruct b
  end; simpl; rewrite Ht; reflexivity.
Qed.

(** A signalled dry-run cycle of a flat bot runs [simulate_entry] on
    details that carry the two legs of the plan. *)
Lemma run_once_signal (self : TradingBot.t) (df : TradingStrategy.DataFrame)
    (details : gmap string Value) (log : list LogLine) (live : Q) :
  dry_run self = true ->
  current_position self = None ->
  TradingStrategy.check_long_entry (strategy self) df = Py.Ok (true, details, log) ->
  exists (bot : TradingBot.t) (details' : gmap string Value),
    run_once update_equity execute_entry self (Some df) (Some live)
    = simulate_entry bot "long" details'
    /\ tp1_percent bot = tp1_percent self
    /\ current_position bot = None
    /\ trade_history bot = trade_history self
    /\ details' !! "entry_1" = details !! "entry_1"
    /\ details' !! "entry_2" = details !! "entry_2".
Proof.
  intros Hdry Hpos Hcall.
  destruct (check_long_entry_signalled (strategy self) df details log Hcall)
    as (latest & Hins & Hlast & _).
  destruct (check_long_entry_price (strategy self) df latest Hins Hlast)
    as (s & d & l & E & Hprice).
  rewrite E in Hcall. apply Ok_inj in Hcall.
  assert (Hd : d = details) by congruence. subst d.
  assert (Hs : s = true) by congruence. subst s.
  destruct (recalculate_keeps_legs (strategy self) df latest details live Hlast)
    as (details' & Hrec & H1 & H2).
  unfold run_once, TradingStrategy.iloc_last. rewrite Hlast, Hdry. cbn [negb].
  rewrite Hpos. unfold check_entry_signal. rewrite Hpos, E. cbn [Py.bind].
  unfold Dict.getitem. rewrite Hprice. cbn [Py.bind]. rewrite Hrec. cbn [Py.bind].
  cbn [TradingBot.log TradingBot.dry_run]. rewrite Hdry. cbn [negb].
  eexists _, details'. split; [reflexivity|]. simpl. auto.
Qed.

Lemma weighted_mean_strict (a b wa wb : Q) :
  b < a -> 0 < wa -> 0 < wb ->
  b < (a * wa + b * wb) / (wa + wb) /\ (a * wa + b * wb) / (wa + wb) < a.
Proof.
  intros Hab Ha Hb.
  assert (Hw : 0 < wa + wb) by lra.
  split.
  - apply Qlt_shift_div_l; [exact Hw|]. nra.
  - apply Qlt_shift_div_r; [exact Hw|]. nra.
Qed.

(** X24. A dry-run cycle of a flat bot on a signalled window opens a long
    position from the plan alone: with a positive close and positive entry
    percentages its entry price lies strictly between the long and the
    short EMA (so strictly below the close), its stop is the stop the legs
    share, and its size is the two percentages of
    [max_usdt_per_trade / close].  The live price does not enter the
    position: every live price gives the same one. *)
Theorem run_once_opens_position (self : TradingBot.t) (df : TradingStrategy.DataFrame)
    (details : gmap string Value) (log : list LogLine) (live : Q) :
  dry_run self = true ->
  current_position self = None ->
  TradingStrategy.check_long_entry (strategy self) df = Py.Ok (true, details, log) ->
  exists (latest : Row.t) (p : Position.t),
    last df = Some latest
    /\ current_position (run_once update_equity execute_entry self (Some df) (Some live))
       = Some p
    /\ Position.side p = "long"
    /\ Position.remaining_size p = Position.position_size p
    /\ Position.risk_amount p = None
    /\ trade_history (run_once update_equity execute_entry self (Some df) (Some live))
       = trade_history self
    /\ (forall live' : Q,
          current_position
            (run_once update_equity execute_entry self (Some df) (Some live'))
          = Some p)
    /\ (0 < Row.close latest ->
        0 < default 30 (TradingStrategy.entry_1_percent (strategy self)) ->
        0 < default 70 (TradingStrategy.entry_2_percent (strategy self)) ->
        Row.ema_long latest < Position.entry_price p
        /\ Position.entry_price p < Row.ema_short latest
        /\ Position.entry_price p < Row.close latest
        /\ Position.stop_loss p == Spec.shared_stop (strategy self) latest
        /\ Position.position_size p
           == TradingStrategy.max_usdt_per_trade (strategy self) / Row.close latest
              * ((default 30 (TradingStrategy.entry_1_percent (strategy self))
                  + default 70 (TradingStrategy.entry_2_percent (strategy self))) / 100)).
Proof.
  intros Hdry Hpos Hcall.
  destruct (check_long_entry_signalled (strategy self) df details log Hcall)
    as (latest & _ & Hlast & Hc & Hmax & H1 & H2).
  destruct (entry_conditions_true (strategy self) latest Hc) as (Hps & Hsl & _).
  destruct (run_once_signal self df details log live Hdry Hpos Hcall)
    as (bot & details' & Hrun & Htp & Hnone & Hhist & H1' & H2').
  rewrite H1 in H1'. rewrite H2 in H2'.
  assert (Hsame : forall live' : Q,
            current_position
              (run_once update_equity execute_entry self (Some df) (Some live'))
            = current_position (simulate_entry bot "long" details')).
  { intros live'.
    destruct (run_once_signal self df details log live' Hdry Hpos Hcall)
      as (bot2 & details2 & Hrun2 & Htp2 & Hnone2 & _ & H12 & H22).
    rewrite Hrun2. apply simulate_entry_by_legs; congruence. }
  exists latest. rewrite Hrun.
  assert (Hbuilt : exists p : Position.t,
            current_position (simulate_entry bot "long" details') = Some p
            /\ trade_history (simulate_entry bot "long" details') = trade_history bot
            /\ p = {| Position.entry_price := Position.entry_price p;
                      Position.stop_loss := Position.stop_loss p;
                      Position.position_size := Position.position_size p;
                      Position.side := "long";
                      Position.tp1 := Position.tp1 p;
                      Position.tp1_percent := tp1_percent bot;
                      Position.tp2 := None;
                      Position.tp2_percent := 0;
                      Position.trailing_stop := None;
                      Position.remaining_size := Position.position_size p;
                      Position.atr := None;
                      Position.risk_distance := None;
                      Position.risk_amount := None |}
            /\ (0 < Row.close latest ->
                0 < default 30 (TradingStrategy.entry_1_percent (strategy self)) ->
                0 < default 70 (TradingStrategy.entry_2_percent (strategy self)) ->
                Row.ema_long latest < Position.entry_price p
                /\ Position.entry_price p < Row.ema_short latest
                /\ Position.stop_loss p == Spec.shared_stop (strategy self) latest
                /\ Position.position_size p
                   == TradingStrategy.max_usdt_per_trade (strategy self) / Row.close latest
                      * ((default 30 (TradingStrategy.entry_1_percent (strategy self))
                          + default 70 (TradingStrategy.entry_2_percent (strategy self)))
                         / 100))).
  { unfold simulate_entry. rewrite H1', H2'.
    unfold Spec.entry_leg.
    cbn [EntryLeg.price EntryLeg.position_size EntryLeg.stop_loss EntryLeg.take_profit].
    set (m := TradingStrategy.max_usdt_per_trade (strategy self) / Row.close latest).
    set (f1 := default 30 (TradingStrategy.entry_1_percent (strategy self)) / 100).
    set (f2 := default 70 (TradingStrategy.entry_2_percent (strategy self)) / 100).
    destruct (Py.Qlt_bool 0 (m * f1 + m * f2)) eqn:Htot.
    - eexists. split; [reflexivity|]. split; [reflexivity|]. split; [reflexivity|].
      cbn [Position.entry_price Position.stop_loss Position.position_size].
      intros Hclose Hp1 Hp2.
      assert (Hm : 0 < m) by (apply Qlt_shift_div_l; [exact Hclose|lra]).
      assert (Hf1 : 0 < f1) by (apply Qlt_shift_div_l; lra).
      assert (Hf2 : 0 < f2) by (apply Qlt_shift_div_l; lra).
      assert (Hw1 : 0 < m * f1) by (apply Qmult_lt_0_compat; assumption).
      assert (Hw2 : 0 < m * f2) by (apply Qmult_lt_0_compat; assumption).
      destruct (weighted_mean_strict (Row.ema_short latest) (Row.ema_long latest)
                  (m * f1) (m * f2) Hsl Hw1 Hw2) as (Hlo & Hhi).
      split; [exact Hlo|]. split; [exact Hhi|]. split.
      + field. lra.
      + unfold f1, f2. field.
    - eexists. split; [reflexivity|]. split; [reflexivity|]. split; [reflexivity|].
      intros Hclose Hp1 Hp2. exfalso.
      assert (Hm : 0 < m) by (apply Qlt_shift_div_l; [exact Hclose|lra]).
      assert (Hf1 : 0 < f1) by (apply Qlt_shift_div_l; lra).
      assert (Hf2 : 0 < f2) by (apply Qlt_shift_div_l; lra).
      assert (Hw1 : 0 < m * f1) by (apply Qmult_lt_0_compat; assumption).
      assert (Hw2 : 0 < m * f2) by (apply Qmult_lt_0_compat; assumption).
      apply Qlt_bool_false in Htot. lra. }
  destruct Hbuilt as (p & Hp & Hh & Hshape & Hlevels).
  exists p. split; [exact Hlast|]. split; [exact Hp|].
  split; [rewrite Hshape; reflexivity|].
  split; [rewrite Hshape; reflexivity|].
  split; [rewrite Hshape; reflexivity|].
  split; [rewrite Hh; exact Hhist|].
  split; [intros live'; rewrite Hsame; exact Hp|].
  intros Hclose Hp1 Hp2.
  destruct (Hlevels Hclose Hp1 Hp2) as (Hlo & Hhi & Hstop & Hsize).
  repeat split; try assumption. lra.
Qed.

End Bot.

(** The holding bot on a candle closing at 106, above the first target. *)
Lemma manage_position_logs_zero_partial_exit_witness :
  exists size : Q,
    TradingBot.journal (TradingBot.manage_position Examples.holding_bot [Examples.rally])
    = [TradingBot.LogPartialExit "long" 106 size "TP1"]
    /\ size == 0.
Proof.
  destruct (manage_position_logs_zero_partial_exit Examples.holding_bot [Examples.rally]
              Examples.long_position Examples.rally eq_refl eq_refl)
    as (size & Hj & Hz & _); [vm_compute; reflexivity|].
  exists size. split; [exact Hj|exact Hz].
Defined.

(** The simulated position of the worked example survives a candle that
    closes at 90, far below its stop. *)
Lemma simulated_position_is_never_closed_witness :
  is_Some (TradingBot.current_position
             (TradingBot.start Examples.no_update_equity Examples.no_execute_entry
                (TradingBot.simulate_entry Examples.bot "long" Examples.plan)
                [(Some [Examples.slump], None)]))
  /\ TradingBot.trade_history
       (TradingBot.start Examples.no_update_equity Examples.no_execute_entry
          (TradingBot.simulate_entry Examples.bot "long" Examples.plan)
          [(Some [Examples.slump], None)])
     = [].
Proof.
  apply (simulated_position_is_never_closed Examples.no_update_equity
           Examples.no_execute_entry Examples.bot "long" Examples.plan
           (EntryLeg.mk 148 2 (14125 # 100) (15475 # 100) 1)
           (EntryLeg.mk 145 (14 # 3) (14125 # 100) (15250 # 100) 2)
           [(Some [Examples.slump], None)]);
    [reflexivity | by unfold Examples.plan; simplify_map_eq
     | by unfold Examples.plan; simplify_map_eq].
Defined.

(** The two legs of the worked example: 2 and 14/3 units. *)
Lemma simulate_entry_position_witness :
  exists p : Position.t,
    TradingBot.current_position
      (TradingBot.simulate_entry Examples.bot "long" Examples.plan) = Some p
    /\ Position.position_size p = 2 + (14 # 3)
    /\ 145 <= Position.entry_price p
    /\ Position.entry_price p <= 148
    /\ Position.tp2 p = None.
Proof.
  destruct (simulate_entry_position Examples.bot "long" Examples.plan
              (EntryLeg.mk 148 2 (14125 # 100) (15475 # 100) 1)
              (EntryLeg.mk 145 (14 # 3) (14125 # 100) (15250 # 100) 2))
    as (p & Hp & _ & Hsize & _ & _ & _ & Hlo & Hhi & _ & _ & Htp2 & _);
    [by unfold Examples.plan; simplify_map_eq
    | by unfold Examples.plan; simplify_map_eq
    | q_compare | q_compare | q_compare |].
  exists p. split; [exact Hp|]. split; [exact Hsize|].
  split; [exact Hlo|]. split; [exact Hhi|exact Htp2].
Defined.

(** The example bot on a window of 20 candles, one short of the warm-up. *)
Lemma check_entry_signal_no_signal_witness :
  TradingBot.check_entry_signal Examples.no_execute_entry Examples.bot
    Examples.short_window (Some 150)
  = Py.Raise (Py.KeyError "price").
Proof.
  apply (check_entry_signal_no_signal Examples.no_update_equity Examples.no_execute_entry
           Examples.bot Examples.short_window 150 eq_refl).
  reflexivity.
Defined.

(** The example bot on the worked example, with a live price of 151. *)
Lemma run_once_opens_position_witness :
  exists p : Position.t,
    TradingBot.current_position
      (TradingBot.run_once Examples.no_update_equity Examples.no_execute_entry
         Examples.bot (Some Examples.window) (Some 151)) = Some p
    /\ 145 < Position.entry_price p
    /\ Position.entry_price p < 148.
Proof.
  destruct (check_long_entry_met Examples.strategy Examples.window Examples.candle
              eq_refl eq_refl eq_refl)
    as (details & log & Hcall & _); [q_compare|].
  destruct (run_once_opens_position Examples.no_update_equity Examples.no_execute_entry
              Examples.bot Examples.window details log 151 eq_refl eq_refl Hcall)
    as (latest & p & Hlast & Hp & _ & _ & _ & _ & _ & Hlevels).
  assert (Hl : latest = Examples.candle).
  { change (last Examples.window) with (Some Examples.candle) in Hlast. congruence. }
  subst latest.
  destruct Hlevels as (Hlo & Hhi & _); [q_compare|q_compare|q_compare|].
  exists p. split; [exact Hp|]. split; [exact Hlo|exact Hhi].
Defined.

(** ** The crossover and trend helpers *)

Section TrendHelpers.

Import Indicators.

(** The two strict comparisons of a pair never both hold. *)
Lemma Qlt_bool_asym (x y : Q) : Py.Qlt_bool x y && Py.Qlt_bool y x = false.
Proof.
  destruct (Py.Qlt_bool x y) eqn:E1; [|reflexivity].
  destruct (Py.Qlt_bool y x) eqn:E2; [|reflexivity].
  apply Qlt_bool_true in E1, E2. exfalso. lra.
Qed.

(** [iloc] inside the series. *)
Lemma iloc_last_element (series : list Q) :
  series <> [] -> exists x : Q, iloc series (-1) = Py.Ok x /\ last series = Some x.
Proof.
  intros Hne. unfold iloc. cbv zeta.
  assert (Hlen : (1 <= length series)%nat) by (destruct series; [contradiction|simpl; lia]).
  change (-1 <? 0)%Z with true. cbv iota.
  replace ((Z.of_nat (length series) + -1 <? 0)
           || (Z.of_nat (length series) <=? Z.of_nat (length series) + -1))%Z
    with false by (symmetry; apply orb_false_iff; split; lia).
  replace (Z.to_nat (Z.of_nat (length series) + -1)) with (Nat.pred (length series))
    by lia.
  rewrite <- last_lookup.
  destruct (last series) as [x|] eqn:E; [exists x; auto|].
  apply last_None in E. contradiction.
Qed.

Lemma iloc_from_end (series : list Q) (lookback : Z) :
  (1 <= lookback)%Z -> (lookback + 1 <= Z.of_nat (length series))%Z ->
  exists x : Q, iloc series (- lookback) = Py.Ok x.
Proof.
  intros Hl Hn. unfold iloc. cbv zeta.
  replace (- lookback <? 0)%Z with true by (symmetry; apply Z.ltb_lt; lia).
  replace ((Z.of_nat (length series) + - lookback <? 0)
           || (Z.of_nat (length series) <=? Z.of_nat (length series) + - lookback))%Z
    with false by (symmetry; apply orb_false_iff; split; lia).
  destruct (series !! Z.to_nat (Z.of_nat (length series) + - lookback)) as [x|] eqn:E;
    [exists x; reflexivity|].
  apply lookup_ge_None in E. lia.
Qed.

(** X25. [check_ema_crossover] never reports a bullish and a bearish
    crossover together.  With [lookback = 1] the "previous" values it reads
    are the current ones ([iloc[-1]] twice), so it answers
    [(False, False)] on every input; with [lookback >= 1] it never raises;
    with a negative [lookback] and an empty series it raises
    [IndexError]. *)
Theorem check_ema_crossover_cases (ema_short ema_long : list Q) (lookback : Z) :
  (forall bullish bearish : bool,
     check_ema_crossover ema_short ema_long lookback = Py.Ok (bullish, bearish) ->
     bullish && bearish = false)
  /\ check_ema_crossover ema_short ema_long 1 = Py.Ok (false, false)
  /\ ((1 <= lookback)%Z ->
      exists result : bool * bool,
        check_ema_crossover ema_short ema_long lookback = Py.Ok result)
  /\ ((lookback < 0)%Z -> ema_short = [] ->
      check_ema_crossover ema_short ema_long lookback = Py.Raise Py.IndexError).
Proof.
  split; [|split; [|split]].
  - intros bullish bearish. unfold check_ema_crossover.
    destruct ((Z.of_nat (length ema_short) <? lookback + 1)
              || (Z.of_nat (length ema_long) <? lookback + 1))%Z.
    { intros H. apply Ok_inj in H. injection H as <- <-. reflexivity. }
    destruct (iloc ema_short (-1)) as [sn|]; [|discriminate].
    destruct (iloc ema_long (-1)) as [ln|]; [|discriminate].
    destruct (iloc ema_short (- lookback)) as [st|]; [|discriminate].
    destruct (iloc ema_long (- lookback)) as [lt|]; [|discriminate].
    cbn [Py.bind]. intros H. apply Ok_inj in H. injection H as <- <-.
    pose proof (Qlt_bool_asym ln sn) as Hnow.
    destruct (Py.Qlt_bool ln sn), (Py.Qlt_bool sn ln); try discriminate Hnow;
      cbn [andb]; try reflexivity.
    destruct (Py.Qlt_bool st lt); reflexivity.
  - unfold check_ema_crossover.
    destruct ((Z.of_nat (length ema_short) <? 1 + 1)
              || (Z.of_nat (length ema_long) <? 1 + 1))%Z eqn:Hlen; [reflexivity|].
    apply orb_false_iff in Hlen. destruct Hlen as (Hs & Hl).
    apply Z.ltb_ge in Hs, Hl.
    destruct (iloc_last_element ema_short) as (sn & Es & _);
      [destruct ema_short; [simpl in Hs; lia|discriminate]|].
    destruct (iloc_last_element ema_long) as (ln & El & _);
      [destruct ema_long; [simpl in Hl; lia|discriminate]|].
    change (- (1))%Z with (-1)%Z. rewrite Es, El. cbn [Py.bind].
    rewrite (Qlt_bool_asym ln sn), (Qlt_bool_asym sn ln). reflexivity.
  - intros Hlook. unfold check_ema_crossover.
    destruct ((Z.of_nat (length ema_short) <? lookback + 1)
              || (Z.of_nat (length ema_long) <? lookback + 1))%Z eqn:Hlen;
      [eexists; reflexivity|].
    apply orb_false_iff in Hlen. destruct Hlen as (Hs & Hl).
    apply Z.ltb_ge in Hs, Hl.
    destruct (iloc_last_element ema_short) as (sn & Es & _);
      [destruct ema_short; [simpl in Hs; lia|discriminate]|].
    destruct (iloc_last_element ema_long) as (ln & El & _);
      [destruct ema_long; [simpl in Hl; lia|discriminate]|].
    destruct (iloc_from_end ema_short lookback Hlook Hs) as (st & Est).
    destruct (iloc_from_end ema_long lookback Hlook Hl) as (lt & Elt).
    rewrite Es, El, Est, Elt. cbn [Py.bind]. eexists. reflexivity.
  - intros Hneg ->. unfold check_ema_crossover.
    replace ((Z.of_nat (length (@nil Q)) <? lookback + 1)
             || (Z.of_nat (length ema_long) <? lookback + 1))%Z with false.
    + reflexivity.
    + symmetry. apply orb_false_iff. split; apply Z.ltb_ge; simpl; lia.
Qed.

(** X26. The EMA test of the two signal evaluators is [is_trend_aligned]
    on the columns of the table: on a window that covers the warm-up the
    [ema_aligned] flag of [check_long_entry] is the bullish alignment and
    that of [check_short_entry] the bearish one, and the two alignments
    never hold together. *)
Theorem is_trend_aligned_matches_signals (self : TradingStrategy.t)
    (df : TradingStrategy.DataFrame) :
  TradingStrategy.insufficient_data self df = false ->
  df <> [] ->
  exists (signal : bool) (details : gmap string Value) (log : list LogLine)
         (short_signal : bool) (short_details : gmap string Value),
    TradingStrategy.check_long_entry self df = Py.Ok (signal, details, log)
    /\ details !! "ema_aligned"
       = Some (VBool (is_trend_aligned (map Row.close df) (map Row.ema_short df)
                        (map Row.ema_long df) "bullish"))
    /\ TradingStrategy.check_short_entry self df = Py.Ok (short_signal, short_details)
    /\ short_details !! "ema_aligned"
       = Some (VBool (is_trend_aligned (map Row.close df) (map Row.ema_short df)
                        (map Row.ema_long df) "bearish"))
    /\ is_trend_aligned (map Row.close df) (map Row.ema_short df)
         (map Row.ema_long df) "bullish"
       && is_trend_aligned (map Row.close df) (map Row.ema_short df)
            (map Row.ema_long df) "bearish" = false.
Proof.
  intros Hins Hne.
  destruct (last df) as [latest|] eqn:Hlast.
  2:{ apply last_None in Hlast. contradiction. }
  assert (Hmap : forall f : Row.t -> Q, last (map f df) = Some (f latest)).
  { intros f. change (map f df) with (f <$> df). rewrite fmap_last, Hlast. reflexivity. }
  unfold is_trend_aligned. rewrite !Hmap. simpl String.eqb. cbv iota.
  unfold TradingStrategy.check_long_entry, TradingStrategy.check_short_entry,
    TradingStrategy.iloc_last.
  rewrite Hins, Hlast. cbn [Py.bind]. cbv zeta.
  assert (Hex : Py.Qlt_bool (Row.ema_short latest) (Row.close latest)
                && Py.Qlt_bool (Row.ema_long latest) (Row.ema_short latest)
                && (Py.Qlt_bool (Row.close latest) (Row.ema_short latest)
                    && Py.Qlt_bool (Row.ema_short latest) (Row.ema_long latest)) = false).
  { pose proof (Qlt_bool_asym (Row.ema_short latest) (Row.close latest)) as H.
    destruct (Py.Qlt_bool (Row.ema_short latest) (Row.close latest)),
      (Py.Qlt_bool (Row.close latest) (Row.ema_short latest));
      try discriminate H; cbn [andb]; try reflexivity.
    destruct (Py.Qlt_bool (Row.ema_long latest) (Row.ema_short latest)); reflexivity. }
  repeat match goal with
         | |- context [if ?b then _ else _] =>
             lazymatch b with
             | context [if _ then _ else _] => fail
             | _ => destruct b
             end
         end;
    eexists _, _, _, _, _; (split; [reflexivity|]);
    (split; [by simplify_map_eq|]); (split; [reflexivity|]);
    (split; [by simplify_map_eq|exact Hex]).
Qed.

End TrendHelpers.

(** Short and long EMA series that cross between the last two values. *)
Lemma check_ema_crossover_cases_witness :
  Indicators.check_ema_crossover [99; 101] [100; 100] 1 = Py.Ok (false, false)
  /\ exists result : bool * bool,
       Indicators.check_ema_crossover [98; 99; 101] [100; 100; 100] 2 = Py.Ok result.
Proof.
  split.
  - apply (check_ema_crossover_cases [99; 101] [100; 100] 1).
  - apply (check_ema_crossover_cases [98; 99; 101] [100; 100; 100] 2). lia.
Defined.

(** The worked example. *)
Lemma is_trend_aligned_matches_signals_witness :
  exists (signal : bool) (details : gmap string Value) (log : list LogLine),
    TradingStrategy.check_long_entry Examples.strategy Examples.window
    = Py.Ok (signal, details, log)
    /\ details !! "ema_aligned"
       = Some (VBool (Indicators.is_trend_aligned (map Row.close Examples.window)
                        (map Row.ema_short Examples.window)
                        (map Row.ema_long Examples.window) "bullish")).
Proof.
  destruct (is_trend_aligned_matches_signals Examples.strategy Examples.window eq_refl)
    as (signal & details & log & _ & _ & Hcall & Hflag & _).
  { intros H. discriminate H. }
  exists signal, details, log. split; [exact Hcall|exact Hflag].
Defined.
